(** * uRTCLib: calendar arithmetic, BCD codec and the register protocol

    A shallow embedding of [src/uRTCLib.h] and [src/uRTCLib.cpp]
    (version 6.2.4): the [DateTime] / [TimeSpan] value types, the BCD
    helpers, and the [uRTCLib] device session talking to the chip through
    the Arduino [Wire] object.

    Fixed-width C integers are [Z] with the wrap-around written out
    ([u8], [u16], [u32], [s32]). *)

From Stdlib Require Import ZArith List Bool String Ascii Lia.
From Stdlib Require Import DecimalString.
Import ListNotations.
Local Open Scope Z_scope.

(* ===================================================================== *)
(** ** Machine integers *)
(* ===================================================================== *)

(** Conversion to [uint8_t], [uint16_t], [uint32_t]: reduction modulo 2^w. *)
Definition u8 (z : Z) : Z := z mod 256.
Definition u16 (z : Z) : Z := z mod 65536.
Definition u32 (z : Z) : Z := z mod 4294967296.

(** Conversion to a 32-bit two's complement integer ([long] on the AVR and
    ARM targets of the library, [int32_t] everywhere). *)
Definition s32 (z : Z) : Z := (z + 2147483648) mod 4294967296 - 2147483648.

(** A C truth value used as a number ([365 + leap]). *)
Definition b2z (b : bool) : Z := if b then 1 else 0.

(* ===================================================================== *)
(** ** uRTCLib.h : constants *)
(* ===================================================================== *)

Definition URTCLIB_ADDRESS : Z := 0x68.

Definition URTCLIB_ALARM_TYPE_1_NONE : Z := 0.          (* 0b00000000 *)
Definition URTCLIB_ALARM_TYPE_1_ALL_S : Z := 47.        (* 0b00101111 *)
Definition URTCLIB_ALARM_TYPE_1_FIXED_S : Z := 46.      (* 0b00101110 *)
Definition URTCLIB_ALARM_TYPE_1_FIXED_MS : Z := 44.     (* 0b00101100 *)
Definition URTCLIB_ALARM_TYPE_1_FIXED_HMS : Z := 40.    (* 0b00101000 *)
Definition URTCLIB_ALARM_TYPE_1_FIXED_DHMS : Z := 32.   (* 0b00100000 *)
Definition URTCLIB_ALARM_TYPE_1_FIXED_DOWHMS : Z := 48. (* 0b00110000 *)

Definition URTCLIB_ALARM_TYPE_2_NONE : Z := 128.        (* 0b10000000 *)
Definition URTCLIB_ALARM_TYPE_2_ALL_M : Z := 174.       (* 0b10101110 *)
Definition URTCLIB_ALARM_TYPE_2_FIXED_M : Z := 172.     (* 0b10101100 *)
Definition URTCLIB_ALARM_TYPE_2_FIXED_HM : Z := 168.    (* 0b10101000 *)
Definition URTCLIB_ALARM_TYPE_2_FIXED_DHM : Z := 160.   (* 0b10100000 *)
Definition URTCLIB_ALARM_TYPE_2_FIXED_DOWHM : Z := 176. (* 0b10110000 *)

Definition URTCLIB_ALARM_1 : Z := URTCLIB_ALARM_TYPE_1_NONE.
Definition URTCLIB_ALARM_2 : Z := URTCLIB_ALARM_TYPE_2_NONE.

Definition URTCLIB_SQWG_OFF_0 : Z := 255.   (* 0b11111111 *)
Definition URTCLIB_SQWG_OFF_1 : Z := 254.   (* 0b11111110 *)
Definition URTCLIB_SQWG_1H : Z := 0.        (* 0b00000000 *)
Definition URTCLIB_SQWG_1024H : Z := 8.     (* 0b00001000 *)
Definition URTCLIB_SQWG_4096H : Z := 16.    (* 0b00010000 *)
Definition URTCLIB_SQWG_8192H : Z := 24.    (* 0b00011000 *)
Definition URTCLIB_SQWG_32768H : Z := 3.    (* 0b00000011 *)

Definition URTCLIB_TEMP_ERROR : Z := 32767.

Definition SECONDS_PER_DAY : Z := 86400.
Definition SECONDS_FROM_1970_TO_2000 : Z := 946684800.

(* ===================================================================== *)
(** ** Calendar arithmetic: [DateTime] and [TimeSpan] *)
(* ===================================================================== *)

(** The six [uint8_t] members of [class DateTime]. *)
Record DateTime : Type := mkDateTime {
  yOff : Z;   (* year offset from 2000 *)
  m    : Z;   (* month 1-12 *)
  d    : Z;   (* day 1-31 *)
  hh   : Z;   (* hours 0-23 *)
  mm   : Z;   (* minutes 0-59 *)
  ss   : Z    (* seconds 0-59 *)
}.

(** [class TimeSpan]: one [int32_t] member [_seconds]. *)
Record TimeSpan : Type := mkTimeSpan { _seconds : Z }.

(** [daysInMonth[]]: January to November; December is left out. *)
Definition daysInMonth : list Z := [31; 28; 31; 30; 31; 30; 31; 31; 30; 31; 30].

(** [pgm_read_byte(daysInMonth + i)]. The table has eleven entries; an index
    past it reads whatever follows in flash, which C leaves open: here that
    read yields 0. Every month in 1..12 stays inside the table. *)
Definition pgm_read_daysInMonth (i : Z) : Z :=
  if i <? 0 then 0 else nth (Z.to_nat i) daysInMonth 0.

(** The body of [for (uint8_t i = 1; i < m; ++i) days += daysInMonth[i-1]]:
    [n] counts the iterations that remain possible for a [uint8_t] index. *)
Fixpoint date2days_loop (n : nat) (i mo days : Z) : Z :=
  match n with
  | O => days
  | S n' =>
      if i <? mo
      then date2days_loop n' (u8 (i + 1)) mo (u16 (days + pgm_read_daysInMonth (i - 1)))
      else days
  end.

(** [static uint16_t date2days(uint16_t y, uint8_t m, uint8_t d)].
    The sum in the [return] is computed in [int] and narrowed to [uint16_t]. *)
Definition date2days (y mo dy : Z) : Z :=
  let y := if 2000 <=? y then u16 (y - 2000) else y in
  let days := date2days_loop 255 1 mo dy in
  let days := if (2 <? mo) && (y mod 4 =? 0) then u16 (days + 1) else days in
  u16 (days + 365 * y + (y + 3) / 4 - 1).

(** [static long time2long(uint16_t days, uint8_t h, uint8_t m, uint8_t s)],
    with [long] 32 bits wide. *)
Definition time2long (days h mi s : Z) : Z :=
  s32 (s32 (s32 (s32 (s32 (days * 24) + h) * 60) + mi) * 60 + s).

(** [DateTime::DateTime(uint16_t year, uint8_t month, ...)]. *)
Definition DateTime_fields (year month day hour min sec : Z) : DateTime :=
  let year := if 2000 <=? year then u16 (year - 2000) else year in
  mkDateTime (u8 year) month day hour min sec.

(** The first loop of [DateTime::DateTime(uint32_t)]:
    [for (yOff = 0;; ++yOff) { leap = yOff % 4 == 0;
       if (days < 365 + leap) break; days -= 365 + leap; }].
    The loop has no bound of its own, so the model carries fuel and answers
    [None] when it runs out. *)
Fixpoint year_loop (fuel : nat) (y days : Z) : option (Z * Z * bool) :=
  match fuel with
  | O => None
  | S fuel' =>
      let leap := (y mod 4 =? 0) in
      if days <? 365 + b2z leap
      then Some (y, days, leap)
      else year_loop fuel' (u8 (y + 1)) (u16 (days - (365 + b2z leap)))
  end.

(** The second loop: [for (m = 1; m < 12; ++m) { ... }]. At most eleven
    iterations; with [n = 0] the month has reached 12. *)
Fixpoint month_loop (n : nat) (mo days : Z) (leap : bool) : Z * Z :=
  match n with
  | O => (mo, days)
  | S n' =>
      if mo <? 12 then
        let daysPerMonth := pgm_read_daysInMonth (mo - 1) in
        let daysPerMonth :=
          if leap && (mo =? 2) then u8 (daysPerMonth + 1) else daysPerMonth in
        if days <? daysPerMonth
        then (mo, days)
        else month_loop n' (u8 (mo + 1)) (u16 (days - daysPerMonth)) leap
      else (mo, days)
  end.

(** A [uint16_t] below 65536 is consumed in steps of at least 365. *)
Definition year_fuel : nat := 180.

(** [DateTime::DateTime(uint32_t t)]. *)
Definition DateTime_unix (t : Z) : option DateTime :=
  let t := u32 (t - SECONDS_FROM_1970_TO_2000) in
  let s := u8 (t mod 60) in
  let t := t / 60 in
  let mi := u8 (t mod 60) in
  let t := t / 60 in
  let h := u8 (t mod 24) in
  let days := u16 (t / 24) in
  match year_loop year_fuel 0 days with
  | None => None
  | Some (y, days, leap) =>
      let '(mo, days) := month_loop 11 1 days leap in
      Some (mkDateTime y mo (u8 (days + 1)) h mi s)
  end.

(** [uint8_t DateTime::dayOfTheWeek() const]. *)
Definition dayOfTheWeek (dt : DateTime) : Z :=
  let day := date2days (yOff dt) (m dt) (d dt) in
  u8 ((day + 6) mod 7).

(** [uint32_t DateTime::unixtime(void) const]. *)
Definition unixtime (dt : DateTime) : Z :=
  let days := date2days (yOff dt) (m dt) (d dt) in
  let t := u32 (time2long days (hh dt) (mm dt) (ss dt)) in
  u32 (t + SECONDS_FROM_1970_TO_2000).

(** Arithmetic in [long] itself, for the caller that hands the [long] out
    instead of converting it to [uint32_t]. The type is [long_bits] wide:
    32 on the AVR and 32-bit ARM boards, 64 on an LP64 host. A result that
    does not fit is signed overflow, which C++ leaves undefined: [None]. *)
Definition in_long (long_bits : Z) (z : Z) : option Z :=
  if (- 2 ^ (long_bits - 1) <=? z) && (z <? 2 ^ (long_bits - 1))
  then Some z else None.

Definition long_then (a : option Z) (k : Z -> option Z) : option Z :=
  match a with
  | Some z => k z
  | None => None
  end.

(** [static long time2long(...)] once more, this time as the [long] it
    returns: [((days * 24L + h) * 60 + m) * 60 + s], each operation in
    [long], in the order of the expression. *)
Definition time2long_checked (long_bits : Z) (days h mi s : Z) : option Z :=
  long_then (in_long long_bits (days * 24)) (fun a =>
  long_then (in_long long_bits (a + h)) (fun a =>
  long_then (in_long long_bits (a * 60)) (fun a =>
  long_then (in_long long_bits (a + mi)) (fun a =>
  long_then (in_long long_bits (a * 60)) (fun a =>
  in_long long_bits (a + s)))))).

(** [long DateTime::secondstime(void) const]. *)
Definition secondstime (long_bits : Z) (dt : DateTime) : option Z :=
  let days := date2days (yOff dt) (m dt) (d dt) in
  time2long_checked long_bits days (hh dt) (mm dt) (ss dt).

(** [int32_t TimeSpan::totalseconds() const]. *)
Definition totalseconds (span : TimeSpan) : Z := _seconds span.

(** [TimeSpan::TimeSpan(int32_t seconds)]. *)
Definition TimeSpan_seconds (seconds : Z) : TimeSpan := mkTimeSpan (s32 seconds).

(** [DateTime DateTime::operator+(const TimeSpan &span)]: the sum of a
    [uint32_t] and an [int32_t] is taken in [uint32_t]. *)
Definition DateTime_plus (dt : DateTime) (span : TimeSpan) : option DateTime :=
  DateTime_unix (u32 (unixtime dt + totalseconds span)).

(** [DateTime DateTime::operator-(const TimeSpan &span)]. *)
Definition DateTime_minus (dt : DateTime) (span : TimeSpan) : option DateTime :=
  DateTime_unix (u32 (unixtime dt - totalseconds span)).

(** [TimeSpan DateTime::operator-(const DateTime &right)]. *)
Definition DateTime_diff (dt right : DateTime) : TimeSpan :=
  TimeSpan_seconds (u32 (unixtime dt - unixtime right)).

(** [operator<] and [operator==] compare the Unix-time projections. *)
Definition DateTime_lt (dt right : DateTime) : bool := unixtime dt <? unixtime right.
Definition DateTime_eq (dt right : DateTime) : bool := unixtime dt =? unixtime right.

(** Accessors of [DateTime]. *)
Definition DateTime_year (dt : DateTime) : Z := u16 (2000 + yOff dt).
Definition DateTime_month (dt : DateTime) : Z := m dt.
Definition DateTime_day (dt : DateTime) : Z := d dt.
Definition DateTime_hour (dt : DateTime) : Z := hh dt.
Definition DateTime_minute (dt : DateTime) : Z := mm dt.
Definition DateTime_second (dt : DateTime) : Z := ss dt.

(* ===================================================================== *)
(** ** The calendar of the specification *)
(* ===================================================================== *)

(** Leap years of the 2000..2099 window: year offsets divisible by four. *)
Definition leap_year (y : Z) : bool := y mod 4 =? 0.

(** Length of a month, December included. *)
Definition month_length (leap : bool) (mo : Z) : Z :=
  if mo =? 12 then 31
  else pgm_read_daysInMonth (mo - 1) + (if leap && (mo =? 2) then 1 else 0).

(** Days of the year that precede the first of month [mo]. *)
Definition days_before_month (leap : bool) (mo : Z) : Z :=
  fold_left Z.add (firstn (Z.to_nat (mo - 1)) daysInMonth) 0
  + (if leap && (2 <? mo) then 1 else 0).

(** Days from 2000-01-01 to the first of January of year [2000 + y]. *)
Definition days_before_year (y : Z) : Z := 365 * y + (y + 3) / 4.

(** A valid Calendar Value with its date in [2001-01-01, 2099-12-31]. *)
Definition valid_DateTime (dt : DateTime) : bool :=
  (1 <=? yOff dt) && (yOff dt <=? 99) &&
  (1 <=? m dt) && (m dt <=? 12) &&
  (1 <=? d dt) && (d dt <=? month_length (leap_year (yOff dt)) (m dt)) &&
  (0 <=? hh dt) && (hh dt <=? 23) &&
  (0 <=? mm dt) && (mm dt <=? 59) &&
  (0 <=? ss dt) && (ss dt <=? 59).

(** Unix time of 2001-01-01T00:00:00 and of 2099-12-31T23:59:59. *)
Definition UNIX_2001 : Z := 978307200.
Definition UNIX_2099_END : Z := 4102444799.

(** An [int32_t] value. *)
Definition is_int32 (z : Z) : bool := (-2147483648 <=? z) && (z <=? 2147483647).

(** Seconds since 2000-01-01 of a valid value, without wrap-around. *)
Definition seconds2000 (dt : DateTime) : Z :=
  ((date2days (yOff dt) (m dt) (d dt) * 24 + hh dt) * 60 + mm dt) * 60 + ss dt.

(* ===================================================================== *)
(** ** BCD codec *)
(* ===================================================================== *)

(** [static uint8_t bcd2bin (uint8_t val) { return val - 6 * (val >> 4); }] *)
Definition bcd2bin (val : Z) : Z := u8 (val - 6 * Z.shiftr val 4).

(** [static uint8_t bin2bcd (uint8_t val) { return val + 6 * (val / 10); }] *)
Definition bin2bcd (val : Z) : Z := u8 (val + 6 * (val / 10)).

(* ===================================================================== *)
(** ** The [Wire] object and the chip behind it *)
(* ===================================================================== *)

(** What crosses the bus, in order. *)
Inductive BusEvent : Type :=
| BusWrite (bytes : list Z)          (* one begin/write*/end transaction *)
| BusRead (reg : Z) (count : nat).   (* one requestFrom *)

(** The bus collaborator: the Arduino [Wire] buffers and one RTC chip that
    answers on the bus. The chip is a register file with an address
    pointer: the first byte of a write transaction sets the pointer, the
    following bytes are stored at the pointer, which moves on by one for
    each byte written or read. *)
Record TwoWire : Type := mkTwoWire {
  chip     : Z -> Z;          (* register contents *)
  pointer  : Z;               (* register pointer of the chip *)
  txBuffer : list Z;          (* bytes queued since beginTransmission *)
  rxBuffer : list Z;          (* bytes fetched by requestFrom, unread *)
  busLog   : list BusEvent    (* transactions so far, oldest first *)
}.

Definition store (regs : Z -> Z) (a v : Z) : Z -> Z :=
  fun x => if x =? a then v else regs x.

Fixpoint store_bytes (regs : Z -> Z) (a : Z) (bytes : list Z) : Z -> Z :=
  match bytes with
  | [] => regs
  | b :: rest => store_bytes (store regs a b) (u8 (a + 1)) rest
  end.

Fixpoint load_bytes (regs : Z -> Z) (a : Z) (count : nat) : list Z :=
  match count with
  | O => []
  | S n => u8 (regs a) :: load_bytes regs (u8 (a + 1)) n
  end.

(** The private members of [class uRTCLib], the device mirror. *)
Record uRTCLib : Type := mkuRTCLib {
  _rtc_address : Z;
  _second : Z;
  _minute : Z;
  _hour : Z;
  _day : Z;
  _month : Z;
  _year : Z;
  _dayOfWeek : Z;
  _temp : Z;
  _a1_mode : Z;
  _a1_second : Z;
  _a1_minute : Z;
  _a1_hour : Z;
  _a1_day_dow : Z;
  _a2_mode : Z;
  _a2_minute : Z;
  _a2_hour : Z;
  _a2_day_dow : Z;
  _sqwg_mode : Z
}.

(** The member initialisers of the header. *)
Definition uRTCLib_new : uRTCLib :=
  mkuRTCLib URTCLIB_ADDRESS 0 0 0 0 0 0 0 9999 URTCLIB_ALARM_TYPE_1_NONE 0 0 0
    0 URTCLIB_ALARM_TYPE_2_NONE 0 0 0 URTCLIB_SQWG_OFF_1.

Definition set_rtc_address_field (v : Z) (r : uRTCLib) : uRTCLib :=
  mkuRTCLib v (_second r) (_minute r) (_hour r) (_day r) (_month r) (_year r)
    (_dayOfWeek r) (_temp r) (_a1_mode r) (_a1_second r) (_a1_minute r)
    (_a1_hour r) (_a1_day_dow r) (_a2_mode r) (_a2_minute r) (_a2_hour r)
    (_a2_day_dow r) (_sqwg_mode r).

Definition set_a1_mode (v : Z) (r : uRTCLib) : uRTCLib :=
  mkuRTCLib (_rtc_address r) (_second r) (_minute r) (_hour r) (_day r)
    (_month r) (_year r) (_dayOfWeek r) (_temp r) v (_a1_second r)
    (_a1_minute r) (_a1_hour r) (_a1_day_dow r) (_a2_mode r) (_a2_minute r)
    (_a2_hour r) (_a2_day_dow r) (_sqwg_mode r).

Definition set_a1_second (v : Z) (r : uRTCLib) : uRTCLib :=
  mkuRTCLib (_rtc_address r) (_second r) (_minute r) (_hour r) (_day r)
    (_month r) (_year r) (_dayOfWeek r) (_temp r) (_a1_mode r) v
    (_a1_minute r) (_a1_hour r) (_a1_day_dow r) (_a2_mode r) (_a2_minute r)
    (_a2_hour r) (_a2_day_dow r) (_sqwg_mode r).

Definition set_a1_minute (v : Z) (r : uRTCLib) : uRTCLib :=
  mkuRTCLib (_rtc_address r) (_second r) (_minute r) (_hour r) (_day r)
    (_month r) (_year r) (_dayOfWeek r) (_temp r) (_a1_mode r) (_a1_second r)
    v (_a1_hour r) (_a1_day_dow r) (_a2_mode r) (_a2_minute r) (_a2_hour r)
    (_a2_day_dow r) (_sqwg_mode r).

Definition set_a1_hour (v : Z) (r : uRTCLib) : uRTCLib :=
  mkuRTCLib (_rtc_address r) (_second r) (_minute r) (_hour r) (_day r)
    (_month r) (_year r) (_dayOfWeek r) (_temp r) (_a1_mode r) (_a1_second r)
    (_a1_minute r) v (_a1_day_dow r) (_a2_mode r) (_a2_minute r) (_a2_hour r)
    (_a2_day_dow r) (_sqwg_mode r).

Definition set_a1_day_dow (v : Z) (r : uRTCLib) : uRTCLib :=
  mkuRTCLib (_rtc_address r) (_second r) (_minute r) (_hour r) (_day r)
    (_month r) (_year r) (_dayOfWeek r) (_temp r) (_a1_mode r) (_a1_second r)
    (_a1_minute r) (_a1_hour r) v (_a2_mode r) (_a2_minute r) (_a2_hour r)
    (_a2_day_dow r) (_sqwg_mode r).

Definition set_a2_mode (v : Z) (r : uRTCLib) : uRTCLib :=
  mkuRTCLib (_rtc_address r) (_second r) (_minute r) (_hour r) (_day r)
    (_month r) (_year r) (_dayOfWeek r) (_temp r) (_a1_mode r) (_a1_second r)
    (_a1_minute r) (_a1_hour r) (_a1_day_dow r) v (_a2_minute r) (_a2_hour r)
    (_a2_day_dow r) (_sqwg_mode r).

Definition set_a2_minute (v : Z) (r : uRTCLib) : uRTCLib :=
  mkuRTCLib (_rtc_address r) (_second r) (_minute r) (_hour r) (_day r)
    (_month r) (_year r) (_dayOfWeek r) (_temp r) (_a1_mode r) (_a1_second r)
    (_a1_minute r) (_a1_hour r) (_a1_day_dow r) (_a2_mode r) v (_a2_hour r)
    (_a2_day_dow r) (_sqwg_mode r).

Definition set_a2_hour (v : Z) (r : uRTCLib) : uRTCLib :=
  mkuRTCLib (_rtc_address r) (_second r) (_minute r) (_hour r) (_day r)
    (_month r) (_year r) (_dayOfWeek r) (_temp r) (_a1_mode r) (_a1_second r)
    (_a1_minute r) (_a1_hour r) (_a1_day_dow r) (_a2_mode r) (_a2_minute r) v
    (_a2_day_dow r) (_sqwg_mode r).

Definition set_a2_day_dow (v : Z) (r : uRTCLib) : uRTCLib :=
  mkuRTCLib (_rtc_address r) (_second r) (_minute r) (_hour r) (_day r)
    (_month r) (_year r) (_dayOfWeek r) (_temp r) (_a1_mode r) (_a1_second r)
    (_a1_minute r) (_a1_hour r) (_a1_day_dow r) (_a2_mode r) (_a2_minute r)
    (_a2_hour r) v (_sqwg_mode r).

Definition set_sqwg_mode (v : Z) (r : uRTCLib) : uRTCLib :=
  mkuRTCLib (_rtc_address r) (_second r) (_minute r) (_hour r) (_day r)
    (_month r) (_year r) (_dayOfWeek r) (_temp r) (_a1_mode r) (_a1_second r)
    (_a1_minute r) (_a1_hour r) (_a1_day_dow r) (_a2_mode r) (_a2_minute r)
    (_a2_hour r) (_a2_day_dow r) v.


(** The program state: one [uRTCLib] object and the global [Wire]. *)
Record State : Type := mkState {
  rtc  : uRTCLib;
  wire : TwoWire
}.

(** Stateful code as state passing. *)
Definition M (A : Type) : Type := State -> A * State.

Definition ret {A : Type} (a : A) : M A := fun s => (a, s).

Definition bind {A B : Type} (c : M A) (k : A -> M B) : M B :=
  fun s => let '(a, s') := c s in k a s'.

Declare Scope m_scope.
Delimit Scope m_scope with M.
Notation "x <- c ;; k" := (bind c (fun x => k))
  (at level 61, c at next level, right associativity) : m_scope.
Notation "c ;; k" := (bind c (fun _ => k))
  (at level 61, right associativity) : m_scope.
Local Open Scope m_scope.

Definition get_rtc : M uRTCLib := fun s => (rtc s, s).

Definition modify_rtc (f : uRTCLib -> uRTCLib) : M unit :=
  fun s => (tt, mkState (f (rtc s)) (wire s)).

Definition modify_wire (f : TwoWire -> TwoWire) : M unit :=
  fun s => (tt, mkState (rtc s) (f (wire s))).

(** [Wire.beginTransmission(address)]. *)
Definition Wire_beginTransmission (address : Z) : M unit :=
  modify_wire (fun w =>
    mkTwoWire (chip w) (pointer w) [] (rxBuffer w) (busLog w)).

(** [Wire.write(value)]: queue one byte. *)
Definition Wire_write (value : Z) : M unit :=
  modify_wire (fun w =>
    mkTwoWire (chip w) (pointer w) (txBuffer w ++ [u8 value]) (rxBuffer w) (busLog w)).

(** [Wire.endTransmission()]: send the queue; the chip takes the first byte
    as register address and stores the rest from there on. *)
Definition Wire_endTransmission : M unit :=
  modify_wire (fun w =>
    match txBuffer w with
    | [] => mkTwoWire (chip w) (pointer w) [] (rxBuffer w) (busLog w ++ [BusWrite []])
    | reg :: data =>
        mkTwoWire (store_bytes (chip w) reg data)
                  (u8 (reg + Z.of_nat (List.length data)))
                  [] (rxBuffer w)
                  (busLog w ++ [BusWrite (reg :: data)])
    end).

(** [Wire.requestFrom(address, quantity)]: the chip sends [quantity] bytes
    from its register pointer on. *)
Definition Wire_requestFrom (address : Z) (quantity : nat) : M unit :=
  modify_wire (fun w =>
    mkTwoWire (chip w)
              (u8 (pointer w + Z.of_nat quantity))
              (txBuffer w)
              (load_bytes (chip w) (pointer w) quantity)
              (busLog w ++ [BusRead (pointer w) quantity])).

(** [Wire.read()]: the next fetched byte, or -1 when none is left. *)
Definition Wire_read : M Z :=
  fun s =>
    let w := wire s in
    match rxBuffer w with
    | [] => (-1, s)
    | b :: rest =>
        (b, mkState (rtc s)
              (mkTwoWire (chip w) (pointer w) (txBuffer w) rest (busLog w)))
    end.

(* ===================================================================== *)
(** ** uRTCLib.cpp : the device session *)
(* ===================================================================== *)

(** [DateTime uRTCLib::now()]. *)
Definition now : M DateTime :=
  r <- get_rtc ;;
  Wire_beginTransmission (_rtc_address r) ;;
  Wire_write 0 ;;
  Wire_endTransmission ;;
  Wire_requestFrom (_rtc_address r) 7 ;;
  b <- Wire_read ;; let ss := bcd2bin (u8 (Z.land b 0x7F)) in
  b <- Wire_read ;; let mm := bcd2bin (u8 b) in
  b <- Wire_read ;; let hh := bcd2bin (u8 b) in
  Wire_read ;;
  b <- Wire_read ;; let d := bcd2bin (u8 b) in
  b <- Wire_read ;; let m := bcd2bin (u8 b) in
  b <- Wire_read ;; let y := u16 (bcd2bin (u8 b) + 2000) in
  ret (DateTime_fields y m d hh mm ss).

(** [bool uRTCLib::lostPower()]. *)
Definition lostPower : M bool :=
  r <- get_rtc ;;
  Wire_beginTransmission (_rtc_address r) ;;
  Wire_write 0x0F ;;
  Wire_endTransmission ;;
  Wire_requestFrom (_rtc_address r) 1 ;;
  b <- Wire_read ;; let status := u8 b in
  ret (Z.land status 128 =? 128).

(** [void uRTCLib::lostPowerClear()]. *)
Definition lostPowerClear : M unit :=
  r <- get_rtc ;;
  Wire_beginTransmission (_rtc_address r) ;;
  Wire_write 0x0F ;;
  Wire_endTransmission ;;
  Wire_requestFrom (_rtc_address r) 1 ;;
  b <- Wire_read ;; let status := u8 b in
  let status := u8 (Z.land status 127) in
  Wire_beginTransmission (_rtc_address r) ;;
  Wire_write 0x0F ;;
  Wire_write status ;;
  Wire_endTransmission.

(** The accessors of the time mirror. *)
Definition temp : M Z := r <- get_rtc ;; ret (_temp r).
Definition second : M Z := r <- get_rtc ;; ret (_second r).
Definition minute : M Z := r <- get_rtc ;; ret (_minute r).
Definition hour : M Z := r <- get_rtc ;; ret (_hour r).
Definition day : M Z := r <- get_rtc ;; ret (_day r).
Definition month : M Z := r <- get_rtc ;; ret (_month r).
Definition year : M Z := r <- get_rtc ;; ret (_year r).
Definition dayOfWeek : M Z := r <- get_rtc ;; ret (_dayOfWeek r).

(** [void uRTCLib::set_rtc_address(const int addr)]. *)
Definition set_rtc_address (addr : Z) : M unit :=
  modify_rtc (set_rtc_address_field addr).

(** The read-modify-write of one register, as the methods below spell it
    out each time: select the register, fetch one byte, write back
    [f status]. *)
Definition update_register (reg : Z) (f : Z -> Z) : M unit :=
  r <- get_rtc ;;
  Wire_beginTransmission (_rtc_address r) ;;
  Wire_write reg ;;
  Wire_endTransmission ;;
  Wire_requestFrom (_rtc_address r) 1 ;;
  b <- Wire_read ;; let status := u8 b in
  let status := u8 (f status) in
  Wire_beginTransmission (_rtc_address r) ;;
  Wire_write reg ;;
  Wire_write status ;;
  Wire_endTransmission.

(** [bool uRTCLib::alarmSet(type, second, minute, hour, day_dow)]. *)
Definition alarmSet (type second minute hour day_dow : Z) : M bool :=
  if type =? URTCLIB_ALARM_TYPE_1_NONE then
    update_register 0x0E (fun status => Z.land status 254) ;;
    modify_rtc (set_a1_mode type) ;;
    ret true
  else if type =? URTCLIB_ALARM_TYPE_2_NONE then
    update_register 0x0E (fun status => Z.land status 253) ;;
    modify_rtc (set_a2_mode type) ;;
    ret true
  else if Z.land type 128 =? 0 then
    r <- get_rtc ;;
    Wire_beginTransmission (_rtc_address r) ;;
    Wire_write 0x07 ;;
    Wire_write (Z.lor (Z.land (bin2bcd second) 127) (Z.shiftl (Z.land type 1) 7)) ;;
    Wire_write (Z.lor (Z.land (bin2bcd minute) 127) (Z.shiftl (Z.land type 2) 6)) ;;
    Wire_write (Z.lor (Z.land (bin2bcd hour) 63) (Z.shiftl (Z.land type 4) 5)) ;;
    Wire_write (Z.lor (Z.lor (Z.land (bin2bcd day_dow) 63)
                             (Z.shiftl (Z.land type 8) 4))
                      (Z.shiftl (Z.land type 16) 2)) ;;
    Wire_endTransmission ;;
    update_register 0x0E (fun status => Z.lor status 5) ;;
    modify_rtc (set_a1_mode type) ;;
    modify_rtc (set_a1_second second) ;;
    modify_rtc (set_a1_minute minute) ;;
    modify_rtc (set_a1_hour hour) ;;
    modify_rtc (set_a1_day_dow day_dow) ;;
    modify_rtc (set_sqwg_mode URTCLIB_SQWG_OFF_1) ;;
    ret true
  else if Z.land type 128 =? 128 then
    r <- get_rtc ;;
    Wire_beginTransmission (_rtc_address r) ;;
    Wire_write 0x0B ;;
    Wire_write (Z.lor (Z.land (bin2bcd minute) 127) (Z.shiftl (Z.land type 2) 6)) ;;
    Wire_write (Z.lor (Z.land (bin2bcd hour) 63) (Z.shiftl (Z.land type 4) 5)) ;;
    Wire_write (Z.lor (Z.lor (Z.land (bin2bcd day_dow) 63)
                             (Z.shiftl (Z.land type 8) 4))
                      (Z.shiftl (Z.land type 16) 2)) ;;
    Wire_endTransmission ;;
    update_register 0x0E (fun status => Z.lor status 6) ;;
    modify_rtc (set_a2_mode type) ;;
    modify_rtc (set_a2_minute minute) ;;
    modify_rtc (set_a2_hour hour) ;;
    modify_rtc (set_a2_day_dow day_dow) ;;
    modify_rtc (set_sqwg_mode URTCLIB_SQWG_OFF_1) ;;
    ret true
  else ret false.

(** The [switch (alarm)] that opens [alarmDisable] and [alarmClearFlag]. *)
Definition alarm_mask (alarm : Z) : Z :=
  if alarm =? URTCLIB_ALARM_1 then 254        (* 0b11111110 *)
  else if alarm =? URTCLIB_ALARM_2 then 253   (* 0b11111101 *)
  else 0.

(** [bool uRTCLib::alarmDisable(const uint8_t alarm)]. The mask chosen by
    the switch only gates the body: the body itself clears bit 0 and resets
    the alarm-1 mirror. *)
Definition alarmDisable (alarm : Z) : M bool :=
  let mask := alarm_mask alarm in
  if negb (mask =? 0) then
    update_register 0x0E (fun status => Z.land status 254) ;;
    modify_rtc (set_a1_mode URTCLIB_ALARM_TYPE_1_NONE) ;;
    ret true
  else ret false.

(** [bool uRTCLib::alarmClearFlag(const uint8_t alarm)]. *)
Definition alarmClearFlag (alarm : Z) : M bool :=
  let mask := alarm_mask alarm in
  if negb (mask =? 0) then
    update_register 0x0F (fun status => Z.land status mask) ;;
    ret true
  else ret false.

(** [uint8_t uRTCLib::alarmMode(const uint8_t alarm)] and its siblings. *)
Definition alarmMode (alarm : Z) : M Z :=
  r <- get_rtc ;;
  if alarm =? URTCLIB_ALARM_1 then ret (_a1_mode r)
  else if alarm =? URTCLIB_ALARM_2 then ret (_a2_mode r)
  else ret 255.

Definition alarmSecond (alarm : Z) : M Z :=
  r <- get_rtc ;;
  if alarm =? URTCLIB_ALARM_1 then ret (_a1_second r)
  else if alarm =? URTCLIB_ALARM_2 then ret 0
  else ret 255.

Definition alarmMinute (alarm : Z) : M Z :=
  r <- get_rtc ;;
  if alarm =? URTCLIB_ALARM_1 then ret (_a1_minute r)
  else if alarm =? URTCLIB_ALARM_2 then ret (_a2_minute r)
  else ret 255.

Definition alarmHour (alarm : Z) : M Z :=
  r <- get_rtc ;;
  if alarm =? URTCLIB_ALARM_1 then ret (_a1_hour r)
  else if alarm =? URTCLIB_ALARM_2 then ret (_a2_hour r)
  else ret 255.

Definition alarmDayDow (alarm : Z) : M Z :=
  r <- get_rtc ;;
  if alarm =? URTCLIB_ALARM_1 then ret (_a1_day_dow r)
  else if alarm =? URTCLIB_ALARM_2 then ret (_a2_day_dow r)
  else ret 255.

(** The [switch (mode)] of [sqwgSetMode]: the pair (processAnd, processOr). *)
Definition sqwg_masks (mode : Z) : Z * Z :=
  if mode =? URTCLIB_SQWG_OFF_1 then (255, 4)        (* nothing ; INTCN *)
  else if mode =? URTCLIB_SQWG_1H then (227, 0)      (* RS1, RS0, INTCN ; nothing *)
  else if mode =? URTCLIB_SQWG_1024H then (235, 8)   (* RS1, INTCN ; RS0 *)
  else if mode =? URTCLIB_SQWG_4096H then (243, 16)  (* RS0, INTCN ; RS1 *)
  else if mode =? URTCLIB_SQWG_8192H then (251, 24)  (* INTCN ; RS1, RS0 *)
  else (0, 0).

(** [bool uRTCLib::sqwgSetMode(const uint8_t mode)]. *)
Definition sqwgSetMode (mode : Z) : M bool :=
  let '(processAnd, processOr) := sqwg_masks mode in
  if negb (processAnd =? 0) || negb (processOr =? 0) then
    update_register 0x0E (fun status => Z.lor (Z.land status processAnd) processOr) ;;
    modify_rtc (set_sqwg_mode mode) ;;
    (if (mode =? URTCLIB_SQWG_OFF_1) || (mode =? URTCLIB_SQWG_OFF_0) then
       modify_rtc (set_a1_mode URTCLIB_ALARM_TYPE_1_NONE) ;;
       modify_rtc (set_a2_mode URTCLIB_ALARM_TYPE_2_NONE)
     else ret tt) ;;
    ret true
  else ret false.

(** [uint8_t uRTCLib::sqwgMode()]. *)
Definition sqwgMode : M Z := r <- get_rtc ;; ret (_sqwg_mode r).

(** [byte uRTCLib::ramRead(const uint8_t address)]: [offset] is the local
    [uint8_t offset = 0xff] that nothing reassigns. *)
Definition ramRead (address : Z) : M Z :=
  let offset := 255 in
  if negb (offset =? 255) then
    r <- get_rtc ;;
    Wire_beginTransmission (_rtc_address r) ;;
    Wire_write (address + offset) ;;
    Wire_endTransmission ;;
    Wire_requestFrom (_rtc_address r) 1 ;;
    b <- Wire_read ;;
    ret (u8 b)
  else ret 255.

(** [bool uRTCLib::ramWrite(const uint8_t address, byte data)]. *)
Definition ramWrite (address data : Z) : M bool :=
  let offset := 255 in
  if negb (offset =? 255) then
    r <- get_rtc ;;
    Wire_beginTransmission (_rtc_address r) ;;
    Wire_write (address + offset) ;;
    Wire_write data ;;
    Wire_endTransmission ;;
    ret true
  else ret false.

(** The RAM windows the header names for the chip variants:
    DS1307 registers 08h..3Fh (offset 08h, 38h addresses),
    DS3232 registers 14h..FFh (offset 14h, EBh addresses); the DS3231 has
    no RAM. *)
Inductive ChipVariant : Type := DS1307 | DS3231 | DS3232.

Definition ram_offset (v : ChipVariant) : option Z :=
  match v with
  | DS1307 => Some 0x08
  | DS3231 => None
  | DS3232 => Some 0x14
  end.

Definition ram_limit (v : ChipVariant) : Z :=
  match v with
  | DS1307 => 0x38
  | DS3231 => 0
  | DS3232 => 0xEB
  end.

Definition in_ram_window (v : ChipVariant) (address : Z) : bool :=
  (0 <=? address) && (address <? ram_limit v).

(** A start state: a fresh [uRTCLib] object, an idle bus, and a chip whose
    registers hold [regs]. *)
Definition power_on (regs : Z -> Z) : State :=
  mkState uRTCLib_new (mkTwoWire regs 0 [] [] []).

(** What [alarmMode] reports for the two alarms in state [s]. *)
Definition alarm_modes (s : State) : Z * Z :=
  (fst (alarmMode URTCLIB_ALARM_1 s), fst (alarmMode URTCLIB_ALARM_2 s)).

(** The control register (0Eh) and the status register (0Fh) of the chip. *)
Definition control_byte (s : State) : Z := chip (wire s) 0x0E.
Definition status_byte (s : State) : Z := chip (wire s) 0x0F.

(** The wave modes that drive the output pin. *)
Definition wave_modes : list Z :=
  [URTCLIB_SQWG_1H; URTCLIB_SQWG_1024H; URTCLIB_SQWG_4096H; URTCLIB_SQWG_8192H].

(** The five modes [sqwgSetMode] has a case for. *)
Definition supported_sqwg_modes : list Z := URTCLIB_SQWG_OFF_1 :: wave_modes.

(** A device with both alarms armed through [alarmSet], starting from a
    chip whose registers are all zero: alarm 1 daily at 07:30:00, alarm 2
    daily at 06:15. *)
Definition armed_both : State :=
  let s0 := power_on (fun _ => 0) in
  let s1 := snd (alarmSet URTCLIB_ALARM_TYPE_1_FIXED_HMS 0 30 7 1 s0) in
  snd (alarmSet URTCLIB_ALARM_TYPE_2_FIXED_HM 0 15 6 1 s1).

(** A chip whose time registers hold 2024-03-15 13:45:30 in BCD, with the
    reserved top bit of the seconds register set. *)
Definition clock_regs : Z -> Z :=
  store_bytes (fun _ => 0) 0 [0xB0; 0x45; 0x13; 0x05; 0x15; 0x03; 0x24].

(* ===================================================================== *)
(** ** Formatting: [timestamp] and [toString] *)
(* ===================================================================== *)

(** The code of a character. *)
Definition chr (c : ascii) : Z := Z.of_N (N_of_ascii c).

(** A C string: the characters and the terminating NUL. *)
Definition cstr (s : string) : list Z :=
  map chr (list_ascii_of_string s) ++ [0].

(** [enum timestampOpt]. *)
Inductive timestampOpt : Type := TIMESTAMP_FULL | TIMESTAMP_TIME | TIMESTAMP_DATE.

(** [sprintf] conversions [%d] and [%02d] of an [int]. *)
Definition fmt_d (z : Z) : string := NilZero.string_of_int (Z.to_int z).

Definition fmt_02d (z : Z) : string :=
  let s := fmt_d z in
  if (String.length s <? 2)%nat then ("0" ++ s)%string else s.

(** [String DateTime::timestamp(timestampOpt opt)]. The text is formatted
    into [char buffer[20]]: nineteen characters and the terminator fit,
    anything longer overruns the array and the model answers [None]. *)
Definition timestamp (opt : timestampOpt) (dt : DateTime) : option string :=
  let text :=
    match opt with
    | TIMESTAMP_TIME =>
        fmt_02d (hh dt) ++ ":" ++ fmt_02d (mm dt) ++ ":" ++ fmt_02d (ss dt)
    | TIMESTAMP_DATE =>
        fmt_d (2000 + yOff dt) ++ "-" ++ fmt_02d (m dt) ++ "-" ++ fmt_02d (d dt)
    | TIMESTAMP_FULL =>
        fmt_d (2000 + yOff dt) ++ "-" ++ fmt_02d (m dt) ++ "-" ++ fmt_02d (d dt)
        ++ "T" ++ fmt_02d (hh dt) ++ ":" ++ fmt_02d (mm dt) ++ ":" ++ fmt_02d (ss dt)
    end%string in
  if (String.length text <? 20)%nat then Some text else None.

(** Outcome of code that indexes arrays: a result, an access to the
    caller's buffer outside the array, an access outside one of the name
    tables, or a loop cut short by the model. *)
Inductive Run (A : Type) : Type :=
| Done (a : A)
| OutOfBounds (index : Z)
| OutOfTable (index : Z)
| OutOfFuel.
Arguments Done {A} a.
Arguments OutOfBounds {A} index.
Arguments OutOfTable {A} index.
Arguments OutOfFuel {A}.

Definition run_bind {A B : Type} (c : Run A) (k : A -> Run B) : Run B :=
  match c with
  | Done a => k a
  | OutOfBounds i => OutOfBounds i
  | OutOfTable i => OutOfTable i
  | OutOfFuel => OutOfFuel
  end.

Declare Scope run_scope.
Delimit Scope run_scope with run.
Notation "x <-- c ;; k" := (run_bind c (fun x => k))
  (at level 61, c at next level, right associativity) : run_scope.

(** [buffer[i]] as an rvalue. *)
Definition rd (buffer : list Z) (i : Z) : Run Z :=
  if i <? 0 then OutOfBounds i
  else match nth_error buffer (Z.to_nat i) with
       | Some c => Done c
       | None => OutOfBounds i
       end.

Fixpoint poke (buffer : list Z) (n : nat) (v : Z) : list Z :=
  match buffer, n with
  | [], _ => []
  | _ :: rest, O => v :: rest
  | c :: rest, S n' => c :: poke rest n' v
  end.

(** [buffer[i] = v]. *)
Definition wr (buffer : list Z) (i v : Z) : Run (list Z) :=
  if (i <? 0) || (Z.of_nat (List.length buffer) <=? i) then OutOfBounds i
  else Done (poke buffer (Z.to_nat i) (u8 v)).

(** [pgm_read_byte(p)] for [p] pointing into a name table. *)
Definition rd_table (table : list Z) (i : Z) : Run Z :=
  if i <? 0 then OutOfTable i
  else match nth_error table (Z.to_nat i) with
       | Some c => Done c
       | None => OutOfTable i
       end.

(** [strlen]: the index of the first NUL, scanning from index [i]. *)
Fixpoint strlen_from (buffer : list Z) (i : Z) : Run Z :=
  match buffer with
  | [] => OutOfBounds i
  | c :: rest => if c =? 0 then Done i else strlen_from rest (i + 1)
  end.

Definition strlen (buffer : list Z) : Run Z := strlen_from buffer 0.

(** [buffer[i] == c]. *)
Definition is_at (buffer : list Z) (i : Z) (c : ascii) : Run bool :=
  (x <-- rd buffer i ;; Done (x =? chr c))%run.

(** [a && b]: [b] counts only when [a] holds. *)
Definition and_then (a b : Run bool) : Run bool :=
  (x <-- a ;; if x then b else Done false)%run.

(** [buffer[i] == c && buffer[i + 1] == c]. *)
Definition two_at (buffer : list Z) (i : Z) (c : ascii) : Run bool :=
  and_then (is_at buffer i c) (is_at buffer (i + 1) c).

(** [... && buffer[i + 2] == c]. *)
Definition three_at (buffer : list Z) (i : Z) (c : ascii) : Run bool :=
  and_then (two_at buffer i c) (is_at buffer (i + 2) c).

(** [... && buffer[i + 3] == c]. *)
Definition four_at (buffer : list Z) (i : Z) (c : ascii) : Run bool :=
  and_then (three_at buffer i c) (is_at buffer (i + 3) c).

(** Two decimal digits of [v] written at [i] and [i + 1]:
    [buffer[i] = '0' + v / 10; buffer[i + 1] = '0' + v % 10;]. *)
Definition put_2d (buffer : list Z) (i v : Z) : Run (list Z) :=
  (b <-- wr buffer i (chr "0" + v / 10) ;;
   wr b (i + 1) (chr "0" + v mod 10))%run.

(** Three characters of a name table starting at [p], written at [i]. *)
Definition put_name (buffer : list Z) (i : Z) (table : list Z) (p : Z)
  : Run (list Z) :=
  (c0 <-- rd_table table p ;;
   b <-- wr buffer i c0 ;;
   c1 <-- rd_table table (p + 1) ;;
   b <-- wr b (i + 1) c1 ;;
   c2 <-- rd_table table (p + 2) ;;
   wr b (i + 2) c2)%run.

Definition day_names : list Z := cstr "SunMonTueWedThuFriSat".
Definition month_names : list Z := cstr "JanFebMarAprMayJunJulAugSepOctNovDec".

(** One two-letter token: [if (buffer[i] == c && buffer[i + 1] == c)
    { two digits of v }]. *)
Definition subst_2d (buffer : list Z) (i : Z) (c : ascii) (v : Z)
  : Run (list Z) :=
  (t <-- two_at buffer i c ;;
   if t then put_2d buffer i v else Done buffer)%run.

(** A three-letter name token, else the two-letter number token. *)
Definition subst_name (buffer : list Z) (i : Z) (c : ascii)
    (table : list Z) (p v : Z) : Run (list Z) :=
  (t <-- three_at buffer i c ;;
   if t then put_name buffer i table p else subst_2d buffer i c v)%run.

(** [YYYY], else [YY]. *)
Definition subst_year (buffer : list Z) (i y : Z) : Run (list Z) :=
  (t <-- four_at buffer i "Y" ;;
   if t then
     b <-- wr buffer i (chr "2") ;;
     b <-- wr b (i + 1) (chr "0") ;;
     b <-- wr b (i + 2) (chr "0" + (y / 10) mod 10) ;;
     wr b (i + 3) (chr "0" + y mod 10)
   else
     t <-- two_at buffer i "Y" ;;
     if t then
       b <-- wr buffer i (chr "0" + (y / 10) mod 10) ;;
       wr b (i + 1) (chr "0" + y mod 10)
     else Done buffer)%run.

(** The body of the loop of [DateTime::toString] at index [i]: the six
    [if] statements in their order, each working on what the one before
    left in the buffer. *)
Definition toString_body (dt : DateTime) (i : Z) (buffer : list Z)
  : Run (list Z) :=
  (b <-- subst_2d buffer i "h" (hh dt) ;;
   b <-- subst_2d b i "m" (mm dt) ;;
   b <-- subst_2d b i "s" (ss dt) ;;
   b <-- subst_name b i "D" day_names (3 * dayOfTheWeek dt) (d dt) ;;
   b <-- subst_name b i "M" month_names (3 * (m dt - 1)) (m dt) ;;
   subst_year b i (yOff dt))%run.

Section ToString.

(** Width of [size_t] in bits: 16 on the AVR boards, 32 on ARM and ESP. *)
Variable size_bits : Z.

Definition size_t (z : Z) : Z := z mod 2 ^ size_bits.

(** [for (int i = 0; i < strlen(buffer) - 1; i++) { ... }]: the condition
    is taken in [size_t], so [strlen(buffer) - 1] wraps to the largest
    [size_t] when the string is empty. Each round reads [buffer[i]], so a
    run inside an array of [n] entries has at most [n] rounds. *)
Fixpoint toString_loop (fuel : nat) (dt : DateTime) (i : Z) (buffer : list Z)
  : Run (list Z) :=
  match fuel with
  | O => OutOfFuel
  | S fuel' =>
      (n <-- strlen buffer ;;
       if size_t i <? size_t (n - 1) then
         b <-- toString_body dt i buffer ;;
         toString_loop fuel' dt (i + 1) b
       else Done buffer)%run
  end.

(** [char *DateTime::toString(char *buffer)]; [buffer] is the array the
    caller hands over. *)
Definition toString (dt : DateTime) (buffer : list Z) : Run (list Z) :=
  toString_loop (S (List.length buffer)) dt 0 buffer.

End ToString.


(** An array that holds a string of [n] characters and its terminator:
    [n + 1] entries, NUL at index [n] and nowhere before. *)
Definition terminated (n : nat) (buffer : list Z) : Prop :=
  List.length buffer = S n
  /\ nth_error buffer n = Some 0
  /\ forall j c, (j < n)%nat -> nth_error buffer j = Some c -> c <> 0.

(** Values [toString] can print: every member a byte, the month in 1..12
    (the month names are looked up at [3 * (m - 1)]). *)
Definition printable (dt : DateTime) : bool :=
  (0 <=? yOff dt) && (yOff dt <? 256) &&
  (1 <=? m dt) && (m dt <=? 12) &&
  (0 <=? d dt) && (d dt <? 256) &&
  (0 <=? hh dt) && (hh dt <? 256) &&
  (0 <=? mm dt) && (mm dt <? 256) &&
  (0 <=? ss dt) && (ss dt <? 256).

(** The entry of a name table at [p] is there and is not NUL. *)
Definition name_entry_ok (table : list Z) (p : Z) : bool :=
  match rd_table table p with
  | Done c => negb (u8 c =? 0)
  | _ => false
  end.

(* ===================================================================== *)
(** ** More of [DateTime] and [TimeSpan] *)
(* ===================================================================== *)

(** Conversion to [int16_t] and [int8_t]. *)
Definition s16 (z : Z) : Z := (z + 32768) mod 65536 - 32768.
Definition s8 (z : Z) : Z := (z + 128) mod 256 - 128.

(** The comparison operators the header defines inline from [operator<]
    and [operator==]. *)
Definition DateTime_gt (dt right : DateTime) : bool := DateTime_lt right dt.
Definition DateTime_le (dt right : DateTime) : bool := negb (DateTime_gt dt right).
Definition DateTime_ge (dt right : DateTime) : bool := negb (DateTime_lt dt right).
Definition DateTime_ne (dt right : DateTime) : bool := negb (DateTime_eq dt right).

(** [TimeSpan::TimeSpan(int16_t days, int8_t hours, int8_t minutes,
    int8_t seconds)]: the sum is formed in [int32_t]. *)
Definition TimeSpan_dhms (days hours minutes seconds : Z) : TimeSpan :=
  mkTimeSpan (s32 (days * 86400 + hours * 3600 + minutes * 60 + seconds)).

(** The views of a [TimeSpan]; [/] and [%] of C round towards zero. *)
Definition TimeSpan_days (span : TimeSpan) : Z :=
  s16 (Z.quot (_seconds span) 86400).
Definition TimeSpan_hours (span : TimeSpan) : Z :=
  s8 (Z.rem (Z.quot (_seconds span) 3600) 24).
Definition TimeSpan_minutes (span : TimeSpan) : Z :=
  s8 (Z.rem (Z.quot (_seconds span) 60) 60).
Definition TimeSpan_seconds_part (span : TimeSpan) : Z :=
  s8 (Z.rem (_seconds span) 60).

(** [TimeSpan TimeSpan::operator+(const TimeSpan &right)] and [operator-]. *)
Definition TimeSpan_plus (span right : TimeSpan) : TimeSpan :=
  TimeSpan_seconds (_seconds span + _seconds right).
Definition TimeSpan_minus (span right : TimeSpan) : TimeSpan :=
  TimeSpan_seconds (_seconds span - _seconds right).

(** A valid Calendar Value with its date in [2000-01-01, 2099-12-31]. *)
Definition valid_from_2000 (dt : DateTime) : bool :=
  (0 <=? yOff dt) && (yOff dt <=? 99) &&
  (1 <=? m dt) && (m dt <=? 12) &&
  (1 <=? d dt) && (d dt <=? month_length (leap_year (yOff dt)) (m dt)) &&
  (0 <=? hh dt) && (hh dt <=? 23) &&
  (0 <=? mm dt) && (mm dt <=? 59) &&
  (0 <=? ss dt) && (ss dt <=? 59).

(** The order of the fields, most significant first. *)
Definition fields_lt (a b : DateTime) : bool :=
  (yOff a <? yOff b) || ((yOff a =? yOff b) &&
  ((m a <? m b) || ((m a =? m b) &&
  ((d a <? d b) || ((d a =? d b) &&
  ((hh a <? hh b) || ((hh a =? hh b) &&
  ((mm a <? mm b) || ((mm a =? mm b) && (ss a <? ss b)))))))))).

(** Every value of a [uint8_t], for checks that run through all of them. *)
Definition all_bytes : list Z := map Z.of_nat (seq 0 256).

(** [true] when [P] holds of every byte. *)
Definition for_all_bytes (P : Z -> bool) : bool := forallb P all_bytes.

(** What [lostPower], [alarmMode] and [sqwgMode] report in state [s]. *)
Definition lost_power_flag (s : State) : bool := fst (lostPower s).

(** The six letters [toString] looks for. *)
Definition is_token (c : Z) : bool :=
  (c =? chr "h") || (c =? chr "m") || (c =? chr "s")
  || (c =? chr "D") || (c =? chr "M") || (c =? chr "Y").

(** Every character of [b0] that is not one of the six letters is at the
    same index in [b]. *)
Definition plain_kept (b0 b : list Z) : Prop :=
  forall j c, nth_error b0 j = Some c -> is_token c = false -> nth_error b j = Some c.

(** Index [i] of [b0] does not hold a plain character. *)
Definition nonplain (b0 : list Z) (i : Z) : Prop :=
  forall c, nth_error b0 (Z.to_nat i) = Some c -> is_token c = true.

(** Every member of the value is a byte. *)
Definition byte_fields (dt : DateTime) : bool :=
  (0 <=? yOff dt) && (yOff dt <? 256) && (0 <=? m dt) && (m dt <? 256) &&
  (0 <=? d dt) && (d dt <? 256) && (0 <=? hh dt) && (hh dt <? 256) &&
  (0 <=? mm dt) && (mm dt <? 256) && (0 <=? ss dt) && (ss dt <? 256).

(** [static uint8_t conv2d(const char *p)], with [p] = [buffer + i]: a
    first character that is no digit counts as 0. *)
Definition conv2d (buffer : list Z) (i : Z) : Run Z :=
  (c0 <-- rd buffer i ;;
   let v := if (chr "0" <=? c0) && (c0 <=? chr "9") then u8 (c0 - chr "0") else 0 in
   c1 <-- rd buffer (i + 1) ;;
   Done (u8 (10 * v + c1 - chr "0")))%run.

(** The [switch (date[0])] of the two string constructors. It has no
    default: on a first letter it does not know, the month member is left
    without a value, which is [None] here. *)
Definition month_of_name (date : list Z) : Run (option Z) :=
  (c0 <-- rd date 0 ;;
   if c0 =? chr "J" then
     c1 <-- rd date 1 ;;
     if c1 =? chr "a" then Done (Some 1)
     else c2 <-- rd date 2 ;; Done (Some (if c2 =? chr "n" then 6 else 7))
   else if c0 =? chr "F" then Done (Some 2)
   else if c0 =? chr "A" then
     c2 <-- rd date 2 ;; Done (Some (if c2 =? chr "r" then 4 else 8))
   else if c0 =? chr "M" then
     c2 <-- rd date 2 ;; Done (Some (if c2 =? chr "r" then 3 else 5))
   else if c0 =? chr "S" then Done (Some 9)
   else if c0 =? chr "O" then Done (Some 10)
   else if c0 =? chr "N" then Done (Some 11)
   else if c0 =? chr "D" then Done (Some 12)
   else Done None)%run.

(** The body shared by the two string constructors, on the date and time
    arrays it reads. *)
Definition DateTime_parse (date time : list Z) : Run (option DateTime) :=
  (y <-- conv2d date 9 ;;
   mo <-- month_of_name date ;;
   dd <-- conv2d date 4 ;;
   h <-- conv2d time 0 ;;
   mi <-- conv2d time 3 ;;
   s <-- conv2d time 6 ;;
   Done (match mo with
         | Some k => Some (mkDateTime y k dd h mi s)
         | None => None
         end))%run.

(** [DateTime::DateTime(const char *date, const char *time)]. *)
Definition DateTime_strings (date time : list Z) : Run (option DateTime) :=
  DateTime_parse date time.

(** [memcpy_P(buff, src, n)]: the first [n] bytes of [src]. *)
Definition memcpy_P (src : list Z) (n : nat) : Run (list Z) :=
  if (n <=? List.length src)%nat then Done (firstn n src)
  else OutOfBounds (Z.of_nat (List.length src)).

(** [DateTime::DateTime(const __FlashStringHelper *date,
    const __FlashStringHelper *time)]: eleven bytes of the date and eight
    of the time are copied into [char buff[11]] and read from there. *)
Definition DateTime_flash (date time : list Z) : Run (option DateTime) :=
  (buff <-- memcpy_P date 11 ;;
   y <-- conv2d buff 9 ;;
   mo <-- month_of_name buff ;;
   dd <-- conv2d buff 4 ;;
   tbuf <-- memcpy_P time 8 ;;
   let buff := tbuf ++ skipn 8 buff in
   h <-- conv2d buff 0 ;;
   mi <-- conv2d buff 3 ;;
   s <-- conv2d buff 6 ;;
   Done (match mo with
         | Some k => Some (mkDateTime y k dd h mi s)
         | None => None
         end))%run.

(** The two characters [toString] writes for a number. *)
Definition two_digits (v : Z) : list Z :=
  [u8 (chr "0" + v / 10); u8 (chr "0" + v mod 10)].

(** The name of month [k] in the table of [toString]. *)
Definition month_name (k : Z) : list Z :=
  firstn 3 (skipn (Z.to_nat (3 * (k - 1))) month_names).

(** A date in the layout of [__DATE__], "Mmm dd yyyy", the day padded with
    the character [pad], and a time in the layout of [__TIME__],
    "hh:mm:ss". *)
Definition date_text (pad : Z) (y mo dd : Z) : list Z :=
  month_name mo ++ [chr " "]
  ++ (if dd <? 10 then [pad; u8 (chr "0" + dd)] else two_digits dd)
  ++ [chr " "; chr "2"; chr "0"] ++ two_digits y ++ [0].

Definition time_text (h mi s : Z) : list Z :=
  two_digits h ++ [chr ":"] ++ two_digits mi ++ [chr ":"] ++ two_digits s ++ [0].

(* ===================================================================== *)
(** ** Sanity runs *)
(* ===================================================================== *)

Example date2days_epoch : date2days 0 1 1 = 0.
Proof. reflexivity. Qed.

Example dayOfTheWeek_epoch :
  dayOfTheWeek (DateTime_fields 2000 1 1 0 0 0) = 6 /\
  dayOfTheWeek (DateTime_fields 2000 1 2 0 0 0) = 0.
Proof. split; reflexivity. Qed.

Example unix_roundtrip_leap_day :
  DateTime_unix (unixtime (DateTime_fields 2000 2 29 12 0 0))
  = Some (DateTime_fields 2000 2 29 12 0 0).
Proof. vm_compute. reflexivity. Qed.

(* ===================================================================== *)
(** ** Machine integers: facts *)
(* ===================================================================== *)

Lemma u8_small z : 0 <= z < 256 -> u8 z = z.
Proof. intros; unfold u8; apply Z.mod_small; lia. Qed.

Lemma u16_small z : 0 <= z < 65536 -> u16 z = z.
Proof. intros; unfold u16; apply Z.mod_small; lia. Qed.

Lemma u32_small z : 0 <= z < 4294967296 -> u32 z = z.
Proof. intros; unfold u32; apply Z.mod_small; lia. Qed.

Lemma u8_range z : 0 <= u8 z < 256.
Proof. unfold u8; apply Z.mod_pos_bound; lia. Qed.

Lemma u16_range z : 0 <= u16 z < 65536.
Proof. unfold u16; apply Z.mod_pos_bound; lia. Qed.

Lemma u32_range z : 0 <= u32 z < 4294967296.
Proof. unfold u32; apply Z.mod_pos_bound; lia. Qed.

Lemma s32_small z : -2147483648 <= z < 2147483648 -> s32 z = z.
Proof. intros; unfold s32; rewrite Z.mod_small; lia. Qed.

Lemma s32_cong z : exists k, s32 z = z + k * 4294967296.
Proof.
  unfold s32. exists (- ((z + 2147483648) / 4294967296)).
  pose proof (Z.div_mod (z + 2147483648) 4294967296). lia.
Qed.

Lemma s32_u32 z : s32 (u32 z) = s32 z.
Proof.
  unfold s32, u32.
  rewrite Z.add_mod_idemp_l by lia. reflexivity.
Qed.

(** Replace the innermost [s32 a] of the goal by [a + k * 2^32]. *)
Ltac peel_s32 k :=
  match goal with
  | |- context [s32 ?a] =>
      lazymatch a with
      | context [s32 _] => fail
      | _ => destruct (s32_cong a) as [k ->]
      end
  end.

(** Seen through [uint32_t], the 32-bit [long] arithmetic of [time2long]
    is exact arithmetic. *)
Lemma u32_time2long days h mi s :
  u32 (time2long days h mi s) = u32 (((days * 24 + h) * 60 + mi) * 60 + s).
Proof.
  unfold time2long.
  peel_s32 k1. peel_s32 k2. peel_s32 k3. peel_s32 k4. peel_s32 k5.
  unfold u32.
  match goal with
  | |- ?a mod _ = ?b mod _ =>
      replace a with (b + (3600 * k1 + 3600 * k2 + 60 * k3 + 60 * k4 + k5) * 4294967296)
        by ring
  end.
  apply Z.mod_add. lia.
Qed.

(* ===================================================================== *)
(** ** Calendar arithmetic: the two conversions *)
(* ===================================================================== *)

Lemma month_cases mo : 1 <= mo <= 12 ->
  mo = 1 \/ mo = 2 \/ mo = 3 \/ mo = 4 \/ mo = 5 \/ mo = 6 \/
  mo = 7 \/ mo = 8 \/ mo = 9 \/ mo = 10 \/ mo = 11 \/ mo = 12.
Proof. lia. Qed.

Ltac each_month H :=
  apply month_cases in H;
  repeat (destruct H as [H | H]); subst.

(** One more month: the table entry, plus the leap day after February. *)
Lemma days_before_month_succ leap mo : 1 <= mo <= 11 ->
  days_before_month leap (mo + 1)
  = days_before_month leap mo + month_length leap mo.
Proof.
  intros H. assert (H' : 1 <= mo <= 12) by lia.
  each_month H'; try lia; destruct leap; reflexivity.
Qed.

Lemma month_length_pos leap mo : 1 <= mo <= 12 -> 28 <= month_length leap mo <= 31.
Proof.
  intros H. each_month H; destruct leap; vm_compute; split; discriminate.
Qed.

Lemma days_before_month_range leap mo : 1 <= mo <= 12 ->
  0 <= days_before_month leap mo
  /\ days_before_month leap mo + month_length leap mo <= 365 + b2z leap.
Proof.
  intros H. each_month H; destruct leap; vm_compute; split; discriminate.
Qed.

Lemma days_before_year_succ y : 0 <= y ->
  days_before_year (y + 1) = days_before_year y + 365 + b2z (leap_year y).
Proof.
  intros Hy. unfold days_before_year, leap_year, b2z.
  destruct (Z.eqb_spec (y mod 4) 0) as [E | E].
  - pose proof (Z.div_mod y 4). pose proof (Z.div_mod (y + 1 + 3) 4).
    pose proof (Z.div_mod (y + 3) 4).
    pose proof (Z.mod_pos_bound (y + 1 + 3) 4).
    pose proof (Z.mod_pos_bound (y + 3) 4). lia.
  - pose proof (Z.div_mod y 4). pose proof (Z.div_mod (y + 1 + 3) 4).
    pose proof (Z.div_mod (y + 3) 4).
    pose proof (Z.mod_pos_bound y 4).
    pose proof (Z.mod_pos_bound (y + 1 + 3) 4).
    pose proof (Z.mod_pos_bound (y + 3) 4). lia.
Qed.

(** The month loop of [date2days] adds up the table below [mo]. *)
Lemma date2days_loop_spec n i mo days :
  1 <= i <= mo -> mo <= 12 -> (Z.to_nat (mo - i) <= n)%nat ->
  0 <= days <= 60000 + days_before_month false i ->
  date2days_loop n i mo days
  = days + (days_before_month false mo - days_before_month false i).
Proof.
  revert i days. induction n as [| n IH]; intros i days Hi Hmo Hn Hd.
  - assert (i = mo) by lia. subst. simpl. lia.
  - simpl. destruct (Z.ltb_spec i mo) as [Hlt | Hge].
    + assert (Hi' : 1 <= i <= 11) by lia.
      rewrite (u8_small (i + 1)) by lia.
      pose proof (days_before_month_succ false i Hi') as Hs.
      pose proof (month_length_pos false i ltac:(lia)) as Hl.
      pose proof (days_before_month_range false i ltac:(lia)) as Hr.
      assert (Hml : month_length false i = pgm_read_daysInMonth (i - 1)).
      { unfold month_length. destruct (Z.eqb_spec i 12); [lia |]. simpl. lia. }
      rewrite <- Hml. simpl b2z in Hr.
      rewrite u16_small by lia.
      rewrite IH by lia. lia.
    + assert (i = mo) by lia. subst. lia.
Qed.

Lemma days_before_month_leap leap mo :
  days_before_month leap mo
  = days_before_month false mo + (if leap && (2 <? mo) then 1 else 0).
Proof. unfold days_before_month. simpl. lia. Qed.

(** [date2days] on a date of 2000..2099: days before the year, days before
    the month, and the day of the month counted from zero. *)
Lemma date2days_spec y mo dy :
  0 <= y <= 99 -> 1 <= mo <= 12 -> 1 <= dy <= 31 ->
  date2days y mo dy
  = days_before_year y + days_before_month (leap_year y) mo + (dy - 1).
Proof.
  intros Hy Hm Hd. unfold date2days.
  destruct (Z.leb_spec 2000 y) as [? | _]; [lia |].
  rewrite date2days_loop_spec; try lia.
  2: { change (days_before_month false 1) with 0. lia. }
  change (days_before_month false 1) with 0.
  pose proof (days_before_month_range false mo Hm) as Hr.
  pose proof (month_length_pos false mo Hm) as Hl. simpl b2z in Hr.
  rewrite (days_before_month_leap (leap_year y)).
  unfold leap_year. rewrite (andb_comm (2 <? mo)).
  assert (Hc : 0 <= days_before_year y <= 36160).
  { unfold days_before_year.
    pose proof (Z.div_mod (y + 3) 4). pose proof (Z.mod_pos_bound (y + 3) 4). lia. }
  unfold days_before_year in *.
  destruct ((y mod 4 =? 0) && (2 <? mo)).
  - rewrite (u16_small (_ + 1)) by lia. rewrite u16_small by lia. lia.
  - rewrite u16_small by lia. lia.
Qed.

Lemma days_before_year_le a b : 0 <= a <= b ->
  days_before_year a <= days_before_year b.
Proof.
  intros H. unfold days_before_year.
  pose proof (Z.div_le_mono (a + 3) (b + 3) 4 ltac:(lia) ltac:(lia)). lia.
Qed.

Lemma days_before_year_99 y : 0 <= y <= 99 -> 0 <= days_before_year y <= 36160.
Proof.
  intros H. split.
  - change 0 with (days_before_year 0). apply days_before_year_le; lia.
  - change 36160 with (days_before_year 99). apply days_before_year_le; lia.
Qed.

Lemma days_before_month_le leap a b : 1 <= a <= b -> b <= 12 ->
  days_before_month leap a <= days_before_month leap b.
Proof.
  intros Ha Hb.
  assert (Ha' : 1 <= a <= 12) by lia. assert (Hb' : 1 <= b <= 12) by lia.
  each_month Ha'; each_month Hb'; try lia; destruct leap; vm_compute; discriminate.
Qed.

(** The year loop of [DateTime(uint32_t)], run forwards: started [n] years
    before the year that holds the day, it stops in that year. *)
Lemma year_loop_spec n : forall fuel y0 r,
  0 <= y0 -> y0 + Z.of_nat n <= 99 ->
  0 <= r < 365 + b2z (leap_year (y0 + Z.of_nat n)) ->
  (n < fuel)%nat ->
  year_loop fuel y0 (days_before_year (y0 + Z.of_nat n) - days_before_year y0 + r)
  = Some (y0 + Z.of_nat n, r, leap_year (y0 + Z.of_nat n)).
Proof.
  induction n as [| n IH]; intros fuel y0 r Hy0 Hy Hr Hf;
    (destruct fuel as [| fuel]; [lia |]); cbn [year_loop].
  - rewrite Z.add_0_r in *. rewrite Z.sub_diag, Z.add_0_l.
    fold (leap_year y0).
    destruct (Z.ltb_spec r (365 + b2z (leap_year y0))); [reflexivity | lia].
  - fold (leap_year y0).
    pose proof (days_before_year_succ y0 Hy0) as Hs.
    pose proof (days_before_year_le (y0 + 1) (y0 + Z.of_nat (S n)) ltac:(lia)) as Hle.
    pose proof (days_before_year_99 (y0 + Z.of_nat (S n)) ltac:(lia)) as Hb.
    pose proof (days_before_year_99 y0 ltac:(lia)) as Hb0.
    assert (Hleap : 0 <= b2z (leap_year y0) <= 1)
      by (unfold b2z; destruct (leap_year y0); lia).
    destruct (Z.ltb_spec (days_before_year (y0 + Z.of_nat (S n)) - days_before_year y0 + r)
                (365 + b2z (leap_year y0))); [lia |].
    rewrite (u8_small (y0 + 1)) by lia.
    rewrite u16_small
      by (unfold b2z in *; destruct (leap_year y0), (leap_year (y0 + Z.of_nat (S n))); lia).
    replace (y0 + Z.of_nat (S n)) with (y0 + 1 + Z.of_nat n) in * by lia.
    rewrite <- (IH fuel (y0 + 1) r) by lia.
    f_equal. lia.
Qed.

(** The year loop always ends within its fuel: a [uint16_t] day count is
    used up in steps of at least 365. *)
Lemma year_loop_total fuel : forall y days,
  0 <= days < 65536 -> days < 365 * Z.of_nat fuel ->
  exists r, year_loop fuel y days = Some r.
Proof.
  induction fuel as [| fuel IH]; intros y days Hd Hf; [lia |].
  cbn [year_loop].
  assert (Hleap : 0 <= b2z (y mod 4 =? 0) <= 1)
    by (destruct (y mod 4 =? 0); simpl; lia).
  destruct (Z.ltb_spec days (365 + b2z (y mod 4 =? 0))) as [Hlt | Hge].
  - eexists. reflexivity.
  - apply IH; rewrite u16_small by lia; lia.
Qed.

(** [DateTime(uint32_t)] yields a value for every argument. *)
Lemma DateTime_unix_total t : exists dt, DateTime_unix t = Some dt.
Proof.
  unfold DateTime_unix.
  set (days := u16 (u32 (t - SECONDS_FROM_1970_TO_2000) / 60 / 60 / 24)).
  destruct (year_loop_total year_fuel 0 days) as ([[y r] leap] & ->).
  - apply u16_range.
  - pose proof (u16_range (u32 (t - SECONDS_FROM_1970_TO_2000) / 60 / 60 / 24)).
    unfold year_fuel. fold days in H. lia.
  - destruct (month_loop 11 1 r leap). eexists. reflexivity.
Qed.

(** The month loop, run forwards. *)
Lemma month_loop_spec leap n : forall i mo r,
  1 <= i <= mo -> mo <= 12 -> 0 <= r < month_length leap mo ->
  (Z.to_nat (12 - i) <= n)%nat ->
  month_loop n i (days_before_month leap mo - days_before_month leap i + r) leap
  = (mo, r).
Proof.
  induction n as [| n IH]; intros i mo r Hi Hmo Hr Hn; cbn [month_loop].
  - assert (i = mo) by lia. subst. f_equal. lia.
  - destruct (Z.ltb_spec i 12) as [Hlt | Hge].
    + assert (Hi' : 1 <= i <= 11) by lia.
      pose proof (month_length_pos leap i ltac:(lia)) as Hl.
      assert (Hdpm : (if leap && (i =? 2)
                     then u8 (pgm_read_daysInMonth (i - 1) + 1)
                     else pgm_read_daysInMonth (i - 1)) = month_length leap i).
      { unfold month_length in *. destruct (Z.eqb_spec i 12); [lia |].
        destruct (leap && (i =? 2)); [| lia].
        rewrite u8_small; lia. }
      rewrite Hdpm.
      pose proof (days_before_month_succ leap i Hi') as Hs.
      destruct (Z.eq_dec i mo) as [-> | Hne].
      * rewrite Z.sub_diag, Z.add_0_l.
        destruct (Z.ltb_spec r (month_length leap mo)); [reflexivity | lia].
      * pose proof (days_before_month_le leap (i + 1) mo ltac:(lia) Hmo) as Hle.
        pose proof (days_before_month_range leap mo ltac:(lia)) as Hb.
        pose proof (days_before_month_range leap i ltac:(lia)) as Hb0.
        assert (Hleap : 0 <= b2z leap <= 1) by (destruct leap; simpl; lia).
        destruct (Z.ltb_spec (days_before_month leap mo - days_before_month leap i + r)
                    (month_length leap i)); [lia |].
        rewrite (u8_small (i + 1)) by lia.
        rewrite u16_small by lia.
        rewrite <- (IH (i + 1) mo r) by lia.
        f_equal. lia.
    + assert (i = mo) by lia. subst. f_equal. lia.
Qed.

Lemma div_mod_digit a b k : 0 < k -> 0 <= b < k ->
  (a * k + b) mod k = b /\ (a * k + b) / k = a.
Proof.
  intros Hk Hb. split.
  - rewrite Z.add_comm, Z.mod_add by lia. apply Z.mod_small; lia.
  - rewrite Z.add_comm, Z.div_add by lia. rewrite Z.div_small by lia. lia.
Qed.

(** Reading the bounds out of [valid_DateTime]. *)
Lemma valid_DateTime_bounds dt : valid_DateTime dt = true ->
  1 <= yOff dt <= 99 /\ 1 <= m dt <= 12 /\
  1 <= d dt <= month_length (leap_year (yOff dt)) (m dt) /\
  0 <= hh dt <= 23 /\ 0 <= mm dt <= 59 /\ 0 <= ss dt <= 59.
Proof.
  unfold valid_DateTime. rewrite !andb_true_iff, !Z.leb_le. tauto.
Qed.

Lemma unixtime_valid dt : valid_DateTime dt = true ->
  unixtime dt = seconds2000 dt + SECONDS_FROM_1970_TO_2000
  /\ UNIX_2001 <= unixtime dt <= UNIX_2099_END.
Proof.
  intros Hv. destruct (valid_DateTime_bounds dt Hv) as (Hy & Hm & Hd & Hh & Hmi & Hs).
  pose proof (month_length_pos (leap_year (yOff dt)) (m dt) Hm) as Hl.
  pose proof (days_before_month_range (leap_year (yOff dt)) (m dt) Hm) as Hr.
  pose proof (date2days_spec (yOff dt) (m dt) (d dt) ltac:(lia) Hm ltac:(lia)) as Hdd.
  pose proof (days_before_year_le 1 (yOff dt) ltac:(lia)) as Hy1.
  pose proof (days_before_year_succ (yOff dt) ltac:(lia)) as Hys.
  pose proof (days_before_year_le (yOff dt + 1) 100 ltac:(lia)) as Hy2.
  change (days_before_year 1) with 366 in Hy1.
  change (days_before_year 100) with 36525 in Hy2.
  unfold unixtime. rewrite u32_time2long. fold (seconds2000 dt).
  assert (Hrange : 366 * 86400 <= seconds2000 dt <= 36524 * 86400 + 86399).
  { unfold seconds2000. rewrite Hdd. lia. }
  unfold SECONDS_FROM_1970_TO_2000, UNIX_2001, UNIX_2099_END.
  rewrite (u32_small (seconds2000 dt)) by lia.
  rewrite u32_small by lia. lia.
Qed.

(** What [DateTime(uint32_t)] makes of a count of seconds since 2000 that
    is laid out as year, month, day and time of day. *)
Lemma DateTime_unix_spec y mo dy h mi s :
  0 <= y <= 99 -> 1 <= mo <= 12 -> 1 <= dy <= month_length (leap_year y) mo ->
  0 <= h <= 23 -> 0 <= mi <= 59 -> 0 <= s <= 59 ->
  DateTime_unix
    ((((days_before_year y + days_before_month (leap_year y) mo + (dy - 1)) * 24
       + h) * 60 + mi) * 60 + s + SECONDS_FROM_1970_TO_2000)
  = Some (mkDateTime y mo dy h mi s).
Proof.
  intros Hy Hm Hd Hh Hmi Hs.
  pose proof (month_length_pos (leap_year y) mo Hm) as Hl.
  pose proof (days_before_month_range (leap_year y) mo Hm) as Hr.
  pose proof (days_before_year_99 y Hy) as Hby.
  assert (Hleap : 0 <= b2z (leap_year y) <= 1)
    by (destruct (leap_year y); simpl; lia).
  set (r := days_before_month (leap_year y) mo + (dy - 1)).
  set (D := days_before_year y + days_before_month (leap_year y) mo + (dy - 1)).
  assert (HD : 0 <= D <= 36525) by (unfold D; lia).
  unfold DateTime_unix.
  replace (((D * 24 + h) * 60 + mi) * 60 + s + SECONDS_FROM_1970_TO_2000
           - SECONDS_FROM_1970_TO_2000)
    with (((D * 24 + h) * 60 + mi) * 60 + s) by lia.
  rewrite u32_small by lia.
  destruct (div_mod_digit ((D * 24 + h) * 60 + mi) s 60 ltac:(lia) ltac:(lia)) as [-> ->].
  destruct (div_mod_digit (D * 24 + h) mi 60 ltac:(lia) ltac:(lia)) as [-> ->].
  destruct (div_mod_digit D h 24 ltac:(lia) ltac:(lia)) as [-> ->].
  rewrite !u8_small by lia. rewrite u16_small by lia.
  pose proof (year_loop_spec (Z.to_nat y) year_fuel 0 r) as Hyl.
  rewrite Z2Nat.id in Hyl by lia. rewrite Z.add_0_l in Hyl.
  change (days_before_year 0) with 0 in Hyl. rewrite Z.sub_0_r in Hyl.
  replace D with (days_before_year y + r) by (unfold D, r; lia).
  rewrite Hyl by (unfold r, year_fuel; lia).
  pose proof (month_loop_spec (leap_year y) 11 1 mo (dy - 1)) as Hml.
  assert (H1 : days_before_month (leap_year y) 1 = 0)
    by (destruct (leap_year y); reflexivity).
  rewrite H1, Z.sub_0_r in Hml.
  unfold r. rewrite Hml by lia.
  replace (dy - 1 + 1) with dy by lia.
  rewrite u8_small by lia. reflexivity.
Qed.

(* ===================================================================== *)
(** ** Every second of 2001..2099 is the Unix time of a valid value *)
(* ===================================================================== *)

Lemma year_of_day D (n : nat) :
  days_before_year 1 <= D < days_before_year (1 + Z.of_nat n) ->
  exists y, 1 <= y <= Z.of_nat n
            /\ days_before_year y <= D < days_before_year (y + 1).
Proof.
  induction n as [| n IH]; intros H.
  - simpl in H. lia.
  - destruct (Z_lt_ge_dec D (days_before_year (1 + Z.of_nat n))) as [Hlt | Hge].
    + destruct IH as (y & Hy & Hb); [lia |]. exists y. split; [lia | exact Hb].
    + exists (Z.of_nat (S n)). split; [lia |].
      replace (Z.of_nat (S n)) with (1 + Z.of_nat n) by lia.
      replace (1 + Z.of_nat n + 1) with (1 + Z.of_nat (S n)) by lia. lia.
Qed.

Ltac eval_month_length :=
  repeat match goal with
  | |- context [month_length ?l ?k] =>
      let v := eval vm_compute in (month_length l k) in
      change (month_length l k) with v
  | |- context [days_before_month ?l ?k] =>
      let v := eval vm_compute in (days_before_month l k) in
      change (days_before_month l k) with v
  end.

Ltac pick_month k c r :=
  exists k, (r - c + 1); eval_month_length; lia.

Lemma month_of_day leap r : 0 <= r < 365 + b2z leap ->
  exists mo dy, 1 <= mo <= 12 /\ 1 <= dy <= month_length leap mo
                /\ days_before_month leap mo + (dy - 1) = r.
Proof.
  intros H. destruct leap; simpl b2z in H.
  - assert (C : r < 31 \/ 31 <= r < 60 \/ 60 <= r < 91 \/ 91 <= r < 121 \/
                121 <= r < 152 \/ 152 <= r < 182 \/ 182 <= r < 213 \/
                213 <= r < 244 \/ 244 <= r < 274 \/ 274 <= r < 305 \/
                305 <= r < 335 \/ 335 <= r) by lia.
    destruct C as [C|[C|[C|[C|[C|[C|[C|[C|[C|[C|[C|C]]]]]]]]]]].
    + pick_month 1 0 r.
    + pick_month 2 31 r.
    + pick_month 3 60 r.
    + pick_month 4 91 r.
    + pick_month 5 121 r.
    + pick_month 6 152 r.
    + pick_month 7 182 r.
    + pick_month 8 213 r.
    + pick_month 9 244 r.
    + pick_month 10 274 r.
    + pick_month 11 305 r.
    + pick_month 12 335 r.
  - assert (C : r < 31 \/ 31 <= r < 59 \/ 59 <= r < 90 \/ 90 <= r < 120 \/
                120 <= r < 151 \/ 151 <= r < 181 \/ 181 <= r < 212 \/
                212 <= r < 243 \/ 243 <= r < 273 \/ 273 <= r < 304 \/
                304 <= r < 334 \/ 334 <= r) by lia.
    destruct C as [C|[C|[C|[C|[C|[C|[C|[C|[C|[C|[C|C]]]]]]]]]]].
    + pick_month 1 0 r.
    + pick_month 2 31 r.
    + pick_month 3 59 r.
    + pick_month 4 90 r.
    + pick_month 5 120 r.
    + pick_month 6 151 r.
    + pick_month 7 181 r.
    + pick_month 8 212 r.
    + pick_month 9 243 r.
    + pick_month 10 273 r.
    + pick_month 11 304 r.
    + pick_month 12 334 r.
Qed.

Lemma valid_DateTime_intro y mo dy h mi s :
  1 <= y <= 99 -> 1 <= mo <= 12 -> 1 <= dy <= month_length (leap_year y) mo ->
  0 <= h <= 23 -> 0 <= mi <= 59 -> 0 <= s <= 59 ->
  valid_DateTime (mkDateTime y mo dy h mi s) = true.
Proof.
  intros. unfold valid_DateTime. cbn [yOff m d hh mm ss].
  rewrite !andb_true_iff, !Z.leb_le. tauto.
Qed.

(** On 2001..2099 [DateTime(uint32_t)] yields a valid value whose Unix
    time is the argument. *)
Lemma DateTime_unix_unixtime t : UNIX_2001 <= t <= UNIX_2099_END ->
  exists dt, DateTime_unix t = Some dt
             /\ valid_DateTime dt = true /\ unixtime dt = t.
Proof.
  unfold UNIX_2001, UNIX_2099_END. intros Ht.
  set (T := t - 946684800).
  pose proof (Z.div_mod T 60 ltac:(lia)) as E1.
  pose proof (Z.mod_pos_bound T 60 ltac:(lia)) as B1.
  pose proof (Z.div_mod (T / 60) 60 ltac:(lia)) as E2.
  pose proof (Z.mod_pos_bound (T / 60) 60 ltac:(lia)) as B2.
  pose proof (Z.div_mod (T / 60 / 60) 24 ltac:(lia)) as E3.
  pose proof (Z.mod_pos_bound (T / 60 / 60) 24 ltac:(lia)) as B3.
  set (s := T mod 60) in *. set (mi := (T / 60) mod 60) in *.
  set (h := (T / 60 / 60) mod 24) in *. set (D := T / 60 / 60 / 24) in *.
  assert (HD : 366 <= D <= 36524) by (unfold T in *; lia).
  destruct (year_of_day D 99) as (y & Hy & Hby).
  { change (days_before_year 1) with 366.
    change (days_before_year (1 + Z.of_nat 99)) with 36525. lia. }
  rewrite days_before_year_succ in Hby by lia.
  destruct (month_of_day (leap_year y) (D - days_before_year y)) as (mo & dy & Hm & Hd & Hr);
    [lia |].
  exists (mkDateTime y mo dy h mi s).
  assert (Hv : valid_DateTime (mkDateTime y mo dy h mi s) = true)
    by (apply valid_DateTime_intro; lia).
  pose proof (month_length_pos (leap_year y) mo Hm) as Hl.
  assert (Hu : unixtime (mkDateTime y mo dy h mi s) = t).
  { destruct (unixtime_valid _ Hv) as [-> _].
    unfold seconds2000. cbn [yOff m d hh mm ss].
    rewrite date2days_spec by lia.
    unfold SECONDS_FROM_1970_TO_2000, T in *. lia. }
  split; [| split; [exact Hv | exact Hu]].
  rewrite <- (DateTime_unix_spec y mo dy h mi s) by lia.
  f_equal. unfold SECONDS_FROM_1970_TO_2000, T in *. lia.
Qed.

(** ** C1 *)

(** C1. Round trip: for every valid Calendar Value [dt] with its date in
    [2001-01-01, 2099-12-31], the constructor [DateTime(uint32_t)] applied
    to [dt.unixtime()] gives back [dt], field for field. *)
Theorem unixtime_roundtrip (dt : DateTime) :
  valid_DateTime dt = true ->
  DateTime_unix (unixtime dt) = Some dt.
Proof.
  intros Hv.
  destruct (unixtime_valid dt Hv) as [Hu _].
  destruct (valid_DateTime_bounds dt Hv) as (Hy & Hm & Hd & Hh & Hmi & Hs).
  pose proof (month_length_pos (leap_year (yOff dt)) (m dt) Hm) as Hl.
  rewrite Hu. unfold seconds2000.
  rewrite date2days_spec by lia.
  rewrite DateTime_unix_spec by lia.
  destruct dt; reflexivity.
Qed.

Lemma unixtime_roundtrip_witness :
  valid_DateTime (mkDateTime 24 2 29 23 59 59) = true /\
  DateTime_unix (unixtime (mkDateTime 24 2 29 23 59 59))
  = Some (mkDateTime 24 2 29 23 59 59).
Proof.
  split; [reflexivity | apply unixtime_roundtrip; reflexivity].
Defined.

(** ** C6 *)

(** C6. Duration additivity: for a valid Calendar Value [dt] and a Duration
    [span] whose sum with [dt] still falls in 2001..2099, [dt + span] is
    produced and [(dt + span) - dt] has the total seconds of [span]. *)
Theorem duration_additivity (dt : DateTime) (span : TimeSpan) :
  valid_DateTime dt = true ->
  is_int32 (totalseconds span) = true ->
  UNIX_2001 <= unixtime dt + totalseconds span <= UNIX_2099_END ->
  exists dt', DateTime_plus dt span = Some dt'
              /\ valid_DateTime dt' = true
              /\ totalseconds (DateTime_diff dt' dt) = totalseconds span.
Proof.
  intros Hv Hi Hr.
  unfold is_int32 in Hi. rewrite andb_true_iff, !Z.leb_le in Hi.
  destruct (DateTime_unix_unixtime _ Hr) as (dt' & Hc & Hv' & Hu').
  exists dt'. unfold DateTime_plus.
  rewrite u32_small by (unfold UNIX_2001, UNIX_2099_END in Hr; lia).
  split; [exact Hc | split; [exact Hv' |]].
  unfold DateTime_diff, TimeSpan_seconds, totalseconds in *. cbn [_seconds].
  rewrite s32_u32, Hu'.
  replace (unixtime dt + _seconds span - unixtime dt) with (_seconds span) by lia.
  apply s32_small. lia.
Qed.

Lemma duration_additivity_witness :
  exists dt', DateTime_plus (mkDateTime 24 2 28 23 59 59) (mkTimeSpan 86402) = Some dt'
              /\ valid_DateTime dt' = true
              /\ totalseconds (DateTime_diff dt' (mkDateTime 24 2 28 23 59 59))
                 = totalseconds (mkTimeSpan 86402).
Proof.
  apply duration_additivity; [reflexivity | reflexivity | vm_compute; split; discriminate].
Defined.

(* ===================================================================== *)
(** ** BCD codec *)
(* ===================================================================== *)

Lemma bcd2bin_range v : 0 <= bcd2bin v < 256.
Proof. apply u8_range. Qed.

Lemma bin2bcd_digits q r : 0 <= q <= 9 -> 0 <= r <= 9 ->
  bin2bcd (10 * q + r) = 16 * q + r.
Proof.
  intros Hq Hr. unfold bin2bcd.
  replace (10 * q + r) with (q * 10 + r) by lia.
  destruct (div_mod_digit q r 10 ltac:(lia) ltac:(lia)) as [_ ->].
  rewrite u8_small by lia. lia.
Qed.

Lemma bcd2bin_digits q r : 0 <= q <= 15 -> 0 <= r <= 15 ->
  bcd2bin (16 * q + r) = 10 * q + r.
Proof.
  intros Hq Hr. unfold bcd2bin.
  rewrite Z.shiftr_div_pow2 by lia. change (2 ^ 4) with 16.
  replace (16 * q + r) with (q * 16 + r) by lia.
  destruct (div_mod_digit q r 16 ltac:(lia) ltac:(lia)) as [_ ->].
  rewrite u8_small by lia. lia.
Qed.

(** ** C7 *)

(** C7. BCD round trip: for every [b] in 0..99, decoding the BCD encoding
    of [b] gives [b] back: [bcd2bin (bin2bcd b) = b]. *)
Theorem bcd_roundtrip (b : Z) : 0 <= b <= 99 -> bcd2bin (bin2bcd b) = b.
Proof.
  intros Hb.
  pose proof (Z.div_mod b 10 ltac:(lia)) as E.
  pose proof (Z.mod_pos_bound b 10 ltac:(lia)) as B.
  assert (Hq : 0 <= b / 10 <= 9) by lia.
  rewrite E at 1.
  rewrite bin2bcd_digits by lia.
  rewrite bcd2bin_digits by lia. lia.
Qed.

Lemma bcd_roundtrip_witness : 0 <= 59 <= 99 /\ bcd2bin (bin2bcd 59) = 59.
Proof. split; [lia | apply (bcd_roundtrip 59); lia]. Defined.

(* ===================================================================== *)
(** ** The register protocol *)
(* ===================================================================== *)

(** The read-modify-write of a register, run on the chip: the register gets
    [f] of its old content, the mirror is not touched. *)
Lemma update_register_spec reg f s :
  0 <= reg < 256 ->
  let s' := snd (update_register reg f s) in
  chip (wire s') = store (chip (wire s)) reg (u8 (f (u8 (chip (wire s) reg))))
  /\ rtc s' = rtc s
  /\ busLog (wire s')
     = busLog (wire s)
       ++ [BusWrite [reg]; BusRead reg 1;
           BusWrite [reg; u8 (f (u8 (chip (wire s) reg)))]].
Proof.
  intros Hreg. destruct s as [r w]. destruct w as [c p tx rx lg].
  unfold update_register, bind, get_rtc, Wire_beginTransmission, Wire_write,
    Wire_endTransmission, Wire_requestFrom, Wire_read, modify_wire.
  cbn -[u8 Z.add]. rewrite Z.add_0_r, !(u8_small reg) by lia.
  rewrite !(u8_small (u8 _)) by apply u8_range.
  rewrite <- !app_assoc. cbn -[u8 Z.add].
  repeat split; reflexivity.
Qed.

(** Masking a byte leaves a byte. *)
Lemma u8_land_ones z : u8 z = Z.land z 255.
Proof.
  unfold u8. change 256 with (2 ^ 8). change 255 with (Z.ones 8).
  symmetry. apply Z.land_ones. lia.
Qed.

Lemma land_byte x k : 0 <= x < 256 -> u8 (Z.land x k) = Z.land x k.
Proof.
  intros Hx. rewrite u8_land_ones.
  rewrite <- (u8_small x Hx) at 2. rewrite (u8_land_ones x).
  rewrite <- !Z.land_assoc, (Z.land_comm k). reflexivity.
Qed.

(** [alarmDisable] as the code has it: any of the two alarm selectors runs
    the same body, which clears bit 0 of the control byte and resets the
    alarm-1 mirror. *)
Lemma alarmDisable_spec alarm s :
  alarm = URTCLIB_ALARM_1 \/ alarm = URTCLIB_ALARM_2 ->
  let s' := snd (alarmDisable alarm s) in
  fst (alarmDisable alarm s) = true
  /\ control_byte s' = Z.land (u8 (control_byte s)) 254
  /\ rtc s' = set_a1_mode URTCLIB_ALARM_TYPE_1_NONE (rtc s).
Proof.
  intros Ha.
  assert (Hm : negb (alarm_mask alarm =? 0) = true)
    by (destruct Ha; subst; reflexivity).
  unfold alarmDisable. rewrite Hm. unfold control_byte. cbn.
  rewrite !(u8_small (u8 _)) by apply u8_range.
  repeat split. apply land_byte. apply u8_range.
Qed.

(** Disabling alarm 1 is a frame-respecting write: bit 0 goes, every other
    bit of the control byte stays, and the alarm-2 mirror stays. *)
Lemma alarmDisable_alarm1_frame s :
  let s' := snd (alarmDisable URTCLIB_ALARM_1 s) in
  Z.testbit (control_byte s') 0 = false
  /\ (forall n, 0 < n -> Z.testbit (control_byte s') n
                         = Z.testbit (u8 (control_byte s)) n && Z.testbit 254 n)
  /\ _a2_mode (rtc s') = _a2_mode (rtc s).
Proof.
  destruct (alarmDisable_spec URTCLIB_ALARM_1 s (or_introl eq_refl)) as (_ & Hc & Hr).
  cbn zeta. rewrite Hc, Hr. split; [| split].
  - rewrite Z.land_spec. cbn. apply andb_false_r.
  - intros n Hn. apply Z.land_spec.
  - reflexivity.
Qed.

(** The sibling [alarmClearFlag] applies the mask its switch selects: the
    flag bit of the alarm named, in the status byte. *)
Lemma alarmClearFlag_spec alarm s :
  alarm = URTCLIB_ALARM_1 \/ alarm = URTCLIB_ALARM_2 ->
  fst (alarmClearFlag alarm s) = true
  /\ status_byte (snd (alarmClearFlag alarm s))
     = Z.land (u8 (status_byte s)) (alarm_mask alarm)
  /\ rtc (snd (alarmClearFlag alarm s)) = rtc s.
Proof.
  intros Ha.
  assert (Hm : negb (alarm_mask alarm =? 0) = true)
    by (destruct Ha; subst; reflexivity).
  unfold alarmClearFlag. rewrite Hm. unfold status_byte. cbn.
  rewrite !(u8_small (u8 _)) by apply u8_range.
  repeat split. apply land_byte. apply u8_range.
Qed.

(** Disabling alarm 2 through [alarmSet(URTCLIB_ALARM_TYPE_2_NONE, ...)]
    clears bit 1 of the control byte and resets the alarm-2 mirror. *)
Lemma alarmSet_none2_spec sec mi h dd s :
  fst (alarmSet URTCLIB_ALARM_TYPE_2_NONE sec mi h dd s) = true
  /\ control_byte (snd (alarmSet URTCLIB_ALARM_TYPE_2_NONE sec mi h dd s))
     = Z.land (u8 (control_byte s)) 253
  /\ rtc (snd (alarmSet URTCLIB_ALARM_TYPE_2_NONE sec mi h dd s))
     = set_a2_mode URTCLIB_ALARM_TYPE_2_NONE (rtc s).
Proof.
  unfold control_byte. cbn.
  rewrite !(u8_small (u8 _)) by apply u8_range.
  repeat split. apply land_byte. apply u8_range.
Qed.

(** ** C3 *)

(** C3, where the code departs from the specification.
    [alarmDisable(URTCLIB_ALARM_2)] on a device with both alarms armed
    (control byte 0b00000111): the byte written back is 0b00000110, so the
    alarm-1 enable bit (bit 0) is the one cleared and the alarm-2 enable bit
    (bit 1) stays set; the alarm-1 mirror is reset to its disabled mode and
    the alarm-2 mirror still reports the armed mode. *)
Theorem alarmDisable_alarm2_clears_alarm1 :
  control_byte armed_both = 7
  /\ alarm_modes armed_both
     = (URTCLIB_ALARM_TYPE_1_FIXED_HMS, URTCLIB_ALARM_TYPE_2_FIXED_HM)
  /\ fst (alarmDisable URTCLIB_ALARM_2 armed_both) = true
  /\ control_byte (snd (alarmDisable URTCLIB_ALARM_2 armed_both)) = 6
  /\ alarm_modes (snd (alarmDisable URTCLIB_ALARM_2 armed_both))
     = (URTCLIB_ALARM_TYPE_1_NONE, URTCLIB_ALARM_TYPE_2_FIXED_HM).
Proof. vm_compute. repeat split; reflexivity. Qed.

(** ** C8 *)

(** C8. A mode byte outside the five values [sqwgSetMode] has a case for:
    the call returns false and hands back the state it was given, so no
    bus transaction took place and the mirror (wave mode, alarm modes) is
    as before. *)
Theorem sqwgSetMode_unsupported (mode : Z) (s : State) :
  ~ In mode supported_sqwg_modes ->
  sqwgSetMode mode s = (false, s).
Proof.
  intros Hn. unfold sqwgSetMode, sqwg_masks.
  unfold supported_sqwg_modes, wave_modes in Hn. cbn [In] in Hn.
  destruct (Z.eqb_spec mode URTCLIB_SQWG_OFF_1); [intuition congruence |].
  destruct (Z.eqb_spec mode URTCLIB_SQWG_1H); [intuition congruence |].
  destruct (Z.eqb_spec mode URTCLIB_SQWG_1024H); [intuition congruence |].
  destruct (Z.eqb_spec mode URTCLIB_SQWG_4096H); [intuition congruence |].
  destruct (Z.eqb_spec mode URTCLIB_SQWG_8192H); [intuition congruence |].
  reflexivity.
Qed.

Lemma sqwgSetMode_unsupported_witness :
  sqwgSetMode URTCLIB_SQWG_32768H armed_both = (false, armed_both).
Proof.
  apply sqwgSetMode_unsupported.
  unfold supported_sqwg_modes, wave_modes. cbn [In].
  intros [H | [H | [H | [H | [H | []]]]]]; discriminate H.
Defined.

(** ** C2 *)

(** C2 does not hold as the specification states it: with alarm 1 armed
    through [alarmSet], setting the 1 Hz wave mode leaves
    [alarmMode(URTCLIB_ALARM_1)] at the armed mode, not at
    [URTCLIB_ALARM_TYPE_1_NONE]. *)
Lemma sqwgSetMode_wave_keeps_alarms_armed :
  fst (sqwgSetMode URTCLIB_SQWG_1H armed_both) = true
  /\ alarm_modes (snd (sqwgSetMode URTCLIB_SQWG_1H armed_both))
     = (URTCLIB_ALARM_TYPE_1_FIXED_HMS, URTCLIB_ALARM_TYPE_2_FIXED_HM)
  /\ alarm_modes (snd (sqwgSetMode URTCLIB_SQWG_1H armed_both))
     <> (URTCLIB_ALARM_TYPE_1_NONE, URTCLIB_ALARM_TYPE_2_NONE).
Proof. vm_compute. repeat split; discriminate. Qed.

(** C2, as the code has it. For every device state, [sqwgSetMode] with a
    wave mode (1 Hz, 1024 Hz, 4096 Hz, 8192 Hz) succeeds and leaves both
    alarm mirrors as they were: [alarmMode] answers for either alarm what it
    answered before. The mode that puts both mirrors in their disabled modes
    is the off mode [URTCLIB_SQWG_OFF_1]. *)
Theorem sqwgSetMode_alarm_mirrors (mode : Z) (s : State) :
  In mode wave_modes ->
  fst (sqwgSetMode mode s) = true
  /\ alarm_modes (snd (sqwgSetMode mode s)) = alarm_modes s
  /\ alarm_modes (snd (sqwgSetMode URTCLIB_SQWG_OFF_1 s))
     = (URTCLIB_ALARM_TYPE_1_NONE, URTCLIB_ALARM_TYPE_2_NONE).
Proof.
  unfold wave_modes. cbn [In].
  intros [<- | [<- | [<- | [<- | []]]]]; repeat split; reflexivity.
Qed.

Lemma sqwgSetMode_alarm_mirrors_witness :
  fst (sqwgSetMode URTCLIB_SQWG_4096H armed_both) = true
  /\ alarm_modes (snd (sqwgSetMode URTCLIB_SQWG_4096H armed_both))
     = alarm_modes armed_both
  /\ alarm_modes (snd (sqwgSetMode URTCLIB_SQWG_OFF_1 armed_both))
     = (URTCLIB_ALARM_TYPE_1_NONE, URTCLIB_ALARM_TYPE_2_NONE).
Proof.
  apply sqwgSetMode_alarm_mirrors.
  unfold wave_modes. cbn [In]. right. right. left. reflexivity.
Defined.

(** ** C5 *)

(** [now] talks to the bus and hands back a value; the members of the
    [uRTCLib] object are as before. *)
Lemma now_leaves_mirror s : rtc (snd (now s)) = rtc s.
Proof. destruct s as [r [c p tx rx lg]]. reflexivity. Qed.

(** C5 does not hold as the specification states it: the chip holds
    2024-03-15 13:45:30; after [now()] the accessor [second()] of the device
    still answers 0, the initial content of the mirror, while the seconds
    read from the chip decode to 30. *)
Lemma now_leaves_accessors_stale :
  bcd2bin (Z.land (u8 (clock_regs 0)) 0x7F) = 30
  /\ fst (second (snd (now (power_on clock_regs)))) = 0
  /\ fst (second (snd (now (power_on clock_regs))))
     <> bcd2bin (Z.land (u8 (clock_regs 0)) 0x7F).
Proof. vm_compute. repeat split; discriminate. Qed.

(** C5, as the code has it. For every content of the chip registers
    00h..06h, [now()] decodes the seven bytes through the BCD codec (bit 7
    of the seconds byte masked off, the weekday byte skipped) and returns
    them as a [DateTime] whose accessors second(), minute(), hour(), day(),
    month() and year() give exactly the values read, the year as 2000 plus
    the decoded year byte. *)
Theorem now_decodes (s : State) :
  let regs := chip (wire s) in
  let dt := fst (now s) in
  DateTime_second dt = bcd2bin (Z.land (u8 (regs 0)) 0x7F)
  /\ DateTime_minute dt = bcd2bin (u8 (regs 1))
  /\ DateTime_hour dt = bcd2bin (u8 (regs 2))
  /\ DateTime_day dt = bcd2bin (u8 (regs 4))
  /\ DateTime_month dt = bcd2bin (u8 (regs 5))
  /\ DateTime_year dt = 2000 + bcd2bin (u8 (regs 6)).
Proof.
  destruct s as [r [c p tx rx lg]].
  cbn -[u8 Z.add Z.land bcd2bin DateTime_fields u16 Z.leb].
  change (u8 0) with 0.
  change (u8 (0 + 0)) with 0. change (u8 (0 + 1)) with 1.
  change (u8 (1 + 1)) with 2. change (u8 (2 + 1)) with 3.
  change (u8 (3 + 1)) with 4. change (u8 (4 + 1)) with 5.
  change (u8 (5 + 1)) with 6.
  rewrite !(u8_small (u8 _)) by apply u8_range.
  rewrite (land_byte (u8 (c 0)) 127) by apply u8_range.
  pose proof (bcd2bin_range (u8 (c 6))) as Hy.
  unfold DateTime_fields.
  rewrite (u16_small (bcd2bin (u8 (c 6)) + 2000)) by lia.
  destruct (Z.leb_spec 2000 (bcd2bin (u8 (c 6)) + 2000)) as [_ | ?]; [| lia].
  replace (bcd2bin (u8 (c 6)) + 2000 - 2000) with (bcd2bin (u8 (c 6))) by lia.
  unfold DateTime_second, DateTime_minute, DateTime_hour, DateTime_day,
    DateTime_month, DateTime_year. cbn [yOff m d hh mm ss].
  rewrite (u16_small (bcd2bin _)) by lia.
  rewrite (u8_small (bcd2bin _)) by lia.
  rewrite u16_small by lia.
  repeat split; reflexivity.
Qed.

(** ** C9 *)

(** C9, where the code departs from the specification. Address 0 lies in
    the RAM window the header gives for the DS1307 (and in the one it gives
    for the DS3232), yet [ramWrite(0, 0x42)] answers false, register 08h
    of the chip keeps its content, and [ramRead(0)] answers 0xFF: the
    pass-through the comments describe does not happen. *)
Theorem ramWrite_inside_window_fails :
  in_ram_window DS1307 0 = true
  /\ fst (ramWrite 0 0x42 (power_on clock_regs)) = false
  /\ chip (wire (snd (ramWrite 0 0x42 (power_on clock_regs)))) 0x08 <> 0x42
  /\ fst (ramRead 0 (power_on clock_regs)) = 0xFF.
Proof. vm_compute. repeat split; discriminate. Qed.

(** The cause: [offset] is set to the sentinel 0xFF and nothing gives it
    the offset of a chip variant, so the transfer under
    [if (offset != 0xff)] is never reached, whatever the address and the
    state; both functions hand back the state they were given. *)
Lemma ram_transfer_unreachable (address data : Z) (s : State) :
  ramWrite address data s = (false, s) /\ ramRead address s = (0xFF, s).
Proof. split; reflexivity. Qed.

(* ===================================================================== *)
(** ** Formatting *)
(* ===================================================================== *)

Example toString_full_pattern :
  toString 16 (DateTime_fields 2024 3 15 13 45 30) (cstr "DDD, DD MMM YYYY hh:mm:ss")
  = Done (cstr "Fri, 15 Mar 2024 13:45:30").
Proof. vm_compute. reflexivity. Qed.

Example toString_short_tokens :
  toString 32 (DateTime_fields 2024 3 15 13 45 30) (cstr "YY/MM/DD")
  = Done (cstr "24/03/15").
Proof. vm_compute. reflexivity. Qed.

Example timestamp_variants :
  timestamp TIMESTAMP_TIME (DateTime_fields 2024 3 15 1 2 3) = Some "01:02:03"%string
  /\ timestamp TIMESTAMP_DATE (DateTime_fields 2024 3 15 1 2 3) = Some "2024-03-15"%string.
Proof. split; reflexivity. Qed.

(** ** C4 *)

(** C4 does not hold as the specification states it: the Unix time of
    2024-03-15 13:45:30 computed by [unixtime()] is not 1710503130 (that
    number is 11:45:30 of the day). *)
Lemma unixtime_scenario_mismatch :
  unixtime (DateTime_fields 2024 3 15 13 45 30) <> 1710503130.
Proof. vm_compute. discriminate. Qed.

(** C4, as the code has it. The Calendar Value built from (2024, 3, 15, 13,
    45, 30) has [unixtime() = 1710510330], [timestamp(TIMESTAMP_FULL)] equal
    to "2024-03-15T13:45:30" and [dayOfTheWeek() = 5] (Friday). *)
Theorem scenario_2024_03_15 :
  unixtime (DateTime_fields 2024 3 15 13 45 30) = 1710510330
  /\ timestamp TIMESTAMP_FULL (DateTime_fields 2024 3 15 13 45 30)
     = Some "2024-03-15T13:45:30"%string
  /\ dayOfTheWeek (DateTime_fields 2024 3 15 13 45 30) = 5.
Proof. repeat split; vm_compute; reflexivity. Qed.

(** ** C10 *)

(** C10, where the code departs from the specification. On the empty
    pattern, an array holding only the terminator, [strlen(buffer) - 1]
    wraps to the largest [size_t], the loop goes on to [i = 1] and its first
    test reads [buffer[1]], one past the terminator. This holds for every
    value being formatted and for a [size_t] of 16, 32 or 64 bits. *)
Theorem toString_empty_pattern_overruns (dt : DateTime) :
  strlen (cstr "") = Done 0
  /\ toString 16 dt (cstr "") = OutOfBounds 1
  /\ toString 32 dt (cstr "") = OutOfBounds 1
  /\ toString 64 dt (cstr "") = OutOfBounds 1.
Proof. repeat split; vm_compute; reflexivity. Qed.

(* ===================================================================== *)
(** ** [toString] on a pattern of at least one character *)
(* ===================================================================== *)

Lemma terminated_tail n c rest :
  terminated (S n) (c :: rest) -> c <> 0 /\ terminated n rest.
Proof.
  intros (Hl & Hz & Hnz). split.
  - apply (Hnz O c); [lia | reflexivity].
  - repeat split.
    + simpl in Hl. lia.
    + exact Hz.
    + intros j x Hj Hx. apply (Hnz (S j) x); [lia | exact Hx].
Qed.

Lemma strlen_from_terminated buffer : forall n i,
  terminated n buffer -> strlen_from buffer i = Done (i + Z.of_nat n).
Proof.
  induction buffer as [| c rest IH]; intros n i Ht.
  - destruct Ht as (Hl & _). simpl in Hl. lia.
  - destruct n as [| n].
    + destruct Ht as (_ & Hz & _). simpl in Hz. injection Hz as ->.
      simpl. f_equal. lia.
    + destruct (terminated_tail n c rest Ht) as [Hc Hr].
      simpl. destruct (Z.eqb_spec c 0); [contradiction |].
      rewrite (IH n (i + 1) Hr). f_equal. lia.
Qed.

Lemma strlen_terminated n buffer :
  terminated n buffer -> strlen buffer = Done (Z.of_nat n).
Proof. intros Ht. unfold strlen. rewrite (strlen_from_terminated buffer n 0 Ht). reflexivity. Qed.

(** Reading up to the terminator stays inside the array; the NUL is met at
    index [n] only. *)
Lemma rd_terminated n buffer j :
  terminated n buffer -> 0 <= j <= Z.of_nat n ->
  exists c, rd buffer j = Done c /\ (c = 0 <-> j = Z.of_nat n).
Proof.
  intros (Hl & Hz & Hnz) Hj. unfold rd.
  destruct (Z.ltb_spec j 0); [lia |].
  destruct (nth_error buffer (Z.to_nat j)) as [c |] eqn:E.
  - exists c. split; [reflexivity |]. split.
    + intros ->.
      destruct (Z.eq_dec j (Z.of_nat n)) as [| Hne]; [assumption |].
      exfalso. apply (Hnz (Z.to_nat j) 0); [lia | exact E | reflexivity].
    + intros ->. rewrite Nat2Z.id, Hz in E. congruence.
  - apply nth_error_None in E. lia.
Qed.

Lemma poke_length buffer : forall k v, List.length (poke buffer k v) = List.length buffer.
Proof.
  induction buffer as [| c rest IH]; intros [| k] v; simpl; auto.
Qed.

Lemma nth_error_poke buffer : forall k v j,
  (k < List.length buffer)%nat ->
  nth_error (poke buffer k v) j
  = if Nat.eqb j k then Some v else nth_error buffer j.
Proof.
  induction buffer as [| c rest IH]; intros k v j Hk; [simpl in Hk; lia |].
  destruct k as [| k], j as [| j]; simpl; try reflexivity.
  apply IH. simpl in Hk. lia.
Qed.

(** Storing a character that is not NUL below the terminator keeps the
    string terminated where it was. *)
Lemma wr_terminated n buffer j v :
  terminated n buffer -> 0 <= j < Z.of_nat n -> u8 v <> 0 ->
  exists b, wr buffer j v = Done b /\ terminated n b.
Proof.
  intros (Hl & Hz & Hnz) Hj Hv. unfold wr.
  destruct (Z.ltb_spec j 0); [lia |].
  destruct (Z.leb_spec (Z.of_nat (List.length buffer)) j); [lia |].
  cbn [orb]. eexists. split; [reflexivity |].
  assert (Hk : (Z.to_nat j < List.length buffer)%nat) by lia.
  repeat split.
  - rewrite poke_length. exact Hl.
  - rewrite nth_error_poke by exact Hk.
    destruct (Nat.eqb_spec n (Z.to_nat j)); [lia | exact Hz].
  - intros i c Hi. rewrite nth_error_poke by exact Hk.
    destruct (Nat.eqb_spec i (Z.to_nat j)).
    + intros [= <-]. exact Hv.
    + apply Hnz. exact Hi.
Qed.

Lemma chr_nonzero_digit v : 0 <= v <= 25 -> u8 (chr "0" + v) <> 0.
Proof.
  intros Hv. change (chr "0") with 48. rewrite u8_small by lia. lia.
Qed.

Lemma is_at_terminated n buffer j ch :
  terminated n buffer -> 0 <= j <= Z.of_nat n -> chr ch <> 0 ->
  exists c, is_at buffer j ch = Done c /\ (c = true -> j < Z.of_nat n).
Proof.
  intros Ht Hj Hch. unfold is_at.
  destruct (rd_terminated n buffer j Ht Hj) as (x & -> & Hx).
  cbn [run_bind]. eexists. split; [reflexivity |].
  intros E. apply Z.eqb_eq in E. subst x.
  destruct (Z.eq_dec j (Z.of_nat n)) as [Heq | ]; [| lia].
  apply Hx in Heq. contradiction.
Qed.

(** [a && b] when both sides can be evaluated. *)
Lemma and_then_done (a b : Run bool) ca :
  a = Done ca -> (ca = true -> exists cb, b = Done cb) ->
  exists c, and_then a b = Done c /\ (c = true -> ca = true /\ b = Done true).
Proof.
  intros -> Hb. unfold and_then. cbn [run_bind]. destruct ca.
  - destruct (Hb eq_refl) as (cb & ->). exists cb. split; [reflexivity |].
    intros ->. split; reflexivity.
  - exists false. split; [reflexivity | discriminate].
Qed.

Lemma two_at_terminated n buffer i ch :
  terminated n buffer -> 0 <= i -> i + 1 <= Z.of_nat n -> chr ch <> 0 ->
  exists c, two_at buffer i ch = Done c /\ (c = true -> i + 1 < Z.of_nat n).
Proof.
  intros Ht Hi Hn Hch. unfold two_at.
  destruct (is_at_terminated n buffer i ch Ht ltac:(lia) Hch) as (c1 & E1 & _).
  destruct (is_at_terminated n buffer (i + 1) ch Ht ltac:(lia) Hch) as (c2 & E2 & H2).
  destruct (and_then_done _ (is_at buffer (i + 1) ch) c1 E1) as (c & -> & Hc).
  { intros _. exists c2. exact E2. }
  exists c. split; [reflexivity |]. intros Et.
  destruct (Hc Et) as [_ Eb]. rewrite E2 in Eb. injection Eb as ->. auto.
Qed.

Lemma three_at_terminated n buffer i ch :
  terminated n buffer -> 0 <= i -> i + 1 < Z.of_nat n -> chr ch <> 0 ->
  exists c, three_at buffer i ch = Done c /\ (c = true -> i + 2 < Z.of_nat n).
Proof.
  intros Ht Hi Hn Hch. unfold three_at.
  destruct (two_at_terminated n buffer i ch Ht Hi ltac:(lia) Hch) as (c1 & E1 & _).
  destruct (is_at_terminated n buffer (i + 2) ch Ht ltac:(lia) Hch) as (c2 & E2 & H2).
  destruct (and_then_done _ (is_at buffer (i + 2) ch) c1 E1) as (c & -> & Hc).
  { intros _. exists c2. exact E2. }
  exists c. split; [reflexivity |]. intros Et.
  destruct (Hc Et) as [_ Eb]. rewrite E2 in Eb. injection Eb as ->. auto.
Qed.

Lemma four_at_terminated n buffer i ch :
  terminated n buffer -> 0 <= i -> i + 1 < Z.of_nat n -> chr ch <> 0 ->
  exists c, four_at buffer i ch = Done c /\ (c = true -> i + 3 < Z.of_nat n).
Proof.
  intros Ht Hi Hn Hch. unfold four_at.
  destruct (three_at_terminated n buffer i ch Ht Hi Hn Hch) as (c1 & E1 & H1).
  destruct (and_then_done _ (is_at buffer (i + 3) ch) c1 E1) as (c & -> & Hc).
  { intros Et. specialize (H1 Et).
    destruct (is_at_terminated n buffer (i + 3) ch Ht ltac:(lia) Hch) as (c2 & E2 & _).
    exists c2. exact E2. }
  exists c. split; [reflexivity |]. intros Et.
  destruct (Hc Et) as [Et1 Eb]. specialize (H1 Et1).
  destruct (is_at_terminated n buffer (i + 3) ch Ht ltac:(lia) Hch) as (c2 & E2 & H2).
  rewrite E2 in Eb. injection Eb as ->. auto.
Qed.

Lemma put_2d_terminated n buffer i v :
  terminated n buffer -> 0 <= i -> i + 1 < Z.of_nat n -> 0 <= v < 256 ->
  exists b, put_2d buffer i v = Done b /\ terminated n b.
Proof.
  intros Ht Hi Hn Hv. unfold put_2d.
  assert (Hq : 0 <= v / 10 <= 25).
  { pose proof (Z.div_mod v 10 ltac:(lia)). pose proof (Z.mod_pos_bound v 10 ltac:(lia)). lia. }
  pose proof (Z.mod_pos_bound v 10 ltac:(lia)) as Hr.
  destruct (wr_terminated n buffer i (chr "0" + v / 10) Ht ltac:(lia)
              (chr_nonzero_digit _ Hq)) as (b1 & -> & Ht1).
  cbn [run_bind].
  exact (wr_terminated n b1 (i + 1) (chr "0" + v mod 10) Ht1 ltac:(lia)
           (chr_nonzero_digit (v mod 10) ltac:(lia))).
Qed.

Lemma name_entry_ok_spec table p : name_entry_ok table p = true ->
  exists c, rd_table table p = Done c /\ u8 c <> 0.
Proof.
  unfold name_entry_ok. destruct (rd_table table p) as [c | | |]; try discriminate.
  intros E. exists c. split; [reflexivity |].
  destruct (Z.eqb_spec (u8 c) 0); [discriminate | assumption].
Qed.

Lemma put_name_terminated n buffer i table p :
  terminated n buffer -> 0 <= i -> i + 2 < Z.of_nat n ->
  name_entry_ok table p = true -> name_entry_ok table (p + 1) = true ->
  name_entry_ok table (p + 2) = true ->
  exists b, put_name buffer i table p = Done b /\ terminated n b.
Proof.
  intros Ht Hi Hn H0 H1 H2. unfold put_name.
  destruct (name_entry_ok_spec _ _ H0) as (c0 & -> & N0).
  destruct (name_entry_ok_spec _ _ H1) as (c1 & -> & N1).
  destruct (name_entry_ok_spec _ _ H2) as (c2 & -> & N2).
  cbn [run_bind].
  destruct (wr_terminated n buffer i c0 Ht ltac:(lia) N0) as (b0 & -> & Ht0).
  cbn [run_bind].
  destruct (wr_terminated n b0 (i + 1) c1 Ht0 ltac:(lia) N1) as (b1 & -> & Ht1).
  cbn [run_bind].
  exact (wr_terminated n b1 (i + 2) c2 Ht1 ltac:(lia) N2).
Qed.

Lemma subst_2d_terminated n buffer i ch v :
  terminated n buffer -> 0 <= i -> i + 1 < Z.of_nat n -> chr ch <> 0 ->
  0 <= v < 256 ->
  exists b, subst_2d buffer i ch v = Done b /\ terminated n b.
Proof.
  intros Ht Hi Hn Hch Hv. unfold subst_2d.
  destruct (two_at_terminated n buffer i ch Ht Hi ltac:(lia) Hch) as (t & -> & _).
  cbn [run_bind]. destruct t.
  - apply put_2d_terminated; assumption.
  - exists buffer. split; [reflexivity | assumption].
Qed.

Lemma subst_name_terminated n buffer i ch table p v :
  terminated n buffer -> 0 <= i -> i + 1 < Z.of_nat n -> chr ch <> 0 ->
  0 <= v < 256 ->
  name_entry_ok table p = true -> name_entry_ok table (p + 1) = true ->
  name_entry_ok table (p + 2) = true ->
  exists b, subst_name buffer i ch table p v = Done b /\ terminated n b.
Proof.
  intros Ht Hi Hn Hch Hv H0 H1 H2. unfold subst_name.
  destruct (three_at_terminated n buffer i ch Ht Hi Hn Hch) as (t & -> & Hlt).
  cbn [run_bind]. destruct t.
  - apply put_name_terminated; auto.
  - apply subst_2d_terminated; assumption.
Qed.

Lemma subst_year_terminated n buffer i y :
  terminated n buffer -> 0 <= i -> i + 1 < Z.of_nat n ->
  exists b, subst_year buffer i y = Done b /\ terminated n b.
Proof.
  intros Ht Hi Hn. unfold subst_year.
  assert (HY : chr "Y" <> 0) by discriminate.
  pose proof (Z.mod_pos_bound (y / 10) 10 ltac:(lia)) as Hq.
  pose proof (Z.mod_pos_bound y 10 ltac:(lia)) as Hr.
  assert (N2 : u8 (chr "2") <> 0) by discriminate.
  assert (N0 : u8 (chr "0") <> 0) by discriminate.
  pose proof (chr_nonzero_digit ((y / 10) mod 10) ltac:(lia)) as Nq.
  pose proof (chr_nonzero_digit (y mod 10) ltac:(lia)) as Nr.
  destruct (four_at_terminated n buffer i "Y" Ht Hi Hn HY) as (t & -> & Hlt).
  cbn [run_bind]. destruct t.
  - specialize (Hlt eq_refl).
    destruct (wr_terminated n buffer i _ Ht ltac:(lia) N2) as (b0 & -> & Ht0).
    cbn [run_bind].
    destruct (wr_terminated n b0 (i + 1) _ Ht0 ltac:(lia) N0) as (b1 & -> & Ht1).
    cbn [run_bind].
    destruct (wr_terminated n b1 (i + 2) _ Ht1 ltac:(lia) Nq) as (b2 & -> & Ht2).
    cbn [run_bind].
    exact (wr_terminated n b2 (i + 3) _ Ht2 ltac:(lia) Nr).
  - destruct (two_at_terminated n buffer i "Y" Ht Hi ltac:(lia) HY) as (t & -> & _).
    cbn [run_bind]. destruct t.
    + destruct (wr_terminated n buffer i _ Ht ltac:(lia) Nq) as (b0 & -> & Ht0).
      cbn [run_bind].
      exact (wr_terminated n b0 (i + 1) _ Ht0 ltac:(lia) Nr).
    + exists buffer. split; [reflexivity | assumption].
Qed.

Lemma printable_bounds dt : printable dt = true ->
  0 <= yOff dt < 256 /\ 1 <= m dt <= 12 /\ 0 <= d dt < 256 /\
  0 <= hh dt < 256 /\ 0 <= mm dt < 256 /\ 0 <= ss dt < 256.
Proof.
  unfold printable. rewrite !andb_true_iff, !Z.leb_le, !Z.ltb_lt. tauto.
Qed.

Lemma dayOfTheWeek_range dt : 0 <= dayOfTheWeek dt <= 6.
Proof.
  unfold dayOfTheWeek.
  pose proof (Z.mod_pos_bound (date2days (yOff dt) (m dt) (d dt) + 6) 7 ltac:(lia)).
  rewrite u8_small; lia.
Qed.

Lemma day_names_ok k : 0 <= k <= 6 ->
  name_entry_ok day_names (3 * k) = true
  /\ name_entry_ok day_names (3 * k + 1) = true
  /\ name_entry_ok day_names (3 * k + 2) = true.
Proof.
  intros Hk.
  assert (C : k = 0 \/ k = 1 \/ k = 2 \/ k = 3 \/ k = 4 \/ k = 5 \/ k = 6) by lia.
  repeat (destruct C as [C | C]); subst; repeat split; reflexivity.
Qed.

Lemma month_names_ok mo : 1 <= mo <= 12 ->
  name_entry_ok month_names (3 * (mo - 1)) = true
  /\ name_entry_ok month_names (3 * (mo - 1) + 1) = true
  /\ name_entry_ok month_names (3 * (mo - 1) + 2) = true.
Proof.
  intros Hm. each_month Hm; repeat split; reflexivity.
Qed.

(** One round of the loop on a terminated buffer, at an index that leaves
    at least one more character before the terminator. *)
Lemma toString_body_terminated n dt i buffer :
  printable dt = true ->
  terminated n buffer -> 0 <= i -> i + 1 < Z.of_nat n ->
  exists b, toString_body dt i buffer = Done b /\ terminated n b.
Proof.
  intros Hp Ht Hi Hn.
  destruct (printable_bounds dt Hp) as (Hy & Hm & Hd & Hh & Hmi & Hs).
  destruct (day_names_ok _ (dayOfTheWeek_range dt)) as (D0 & D1 & D2).
  destruct (month_names_ok _ Hm) as (M0 & M1 & M2).
  unfold toString_body.
  destruct (subst_2d_terminated n buffer i "h" (hh dt) Ht Hi Hn ltac:(discriminate) Hh)
    as (b1 & -> & Ht1). cbn [run_bind].
  destruct (subst_2d_terminated n b1 i "m" (mm dt) Ht1 Hi Hn ltac:(discriminate) Hmi)
    as (b2 & -> & Ht2). cbn [run_bind].
  destruct (subst_2d_terminated n b2 i "s" (ss dt) Ht2 Hi Hn ltac:(discriminate) Hs)
    as (b3 & -> & Ht3). cbn [run_bind].
  destruct (subst_name_terminated n b3 i "D" day_names (3 * dayOfTheWeek dt) (d dt)
              Ht3 Hi Hn ltac:(discriminate) Hd D0 D1 D2) as (b4 & -> & Ht4).
  cbn [run_bind].
  destruct (subst_name_terminated n b4 i "M" month_names (3 * (m dt - 1)) (m dt)
              Ht4 Hi Hn ltac:(discriminate) ltac:(lia) M0 M1 M2) as (b5 & -> & Ht5).
  cbn [run_bind].
  apply subst_year_terminated; assumption.
Qed.

Lemma size_t_small w z : 0 <= z < 2 ^ w -> size_t w z = z.
Proof. intros H. unfold size_t. apply Z.mod_small. exact H. Qed.

Lemma toString_loop_terminated w n dt : forall fuel i buffer,
  printable dt = true -> Z.of_nat n < 2 ^ w ->
  terminated n buffer -> 0 <= i < Z.of_nat n ->
  (n - Z.to_nat i <= fuel)%nat ->
  exists b, toString_loop w fuel dt i buffer = Done b /\ terminated n b.
Proof.
  induction fuel as [| fuel IH]; intros i buffer Hp Hw Ht Hi Hf; [lia |].
  cbn [toString_loop]. rewrite (strlen_terminated n buffer Ht). cbn [run_bind].
  rewrite (size_t_small w i) by lia.
  rewrite (size_t_small w (Z.of_nat n - 1)) by lia.
  destruct (Z.ltb_spec i (Z.of_nat n - 1)) as [Hlt | Hge].
  - destruct (toString_body_terminated n dt i buffer Hp Ht ltac:(lia) ltac:(lia))
      as (b & -> & Htb).
    cbn [run_bind]. apply IH; auto; lia.
  - exists buffer. split; [reflexivity | assumption].
Qed.

(** On a pattern of at least one character, terminated inside the array,
    [toString] runs to its end without touching anything past the
    terminator, and the buffer it leaves holds a string of the same
    length. *)
Lemma toString_terminated w n dt buffer :
  printable dt = true -> (1 <= n)%nat -> Z.of_nat n < 2 ^ w ->
  terminated n buffer ->
  exists b, toString w dt buffer = Done b /\ terminated n b.
Proof.
  intros Hp Hn Hw Ht. unfold toString.
  destruct Ht as (Hl & Hrest). rewrite Hl.
  apply toString_loop_terminated; try assumption; try lia.
  split; assumption.
Qed.

(* ===================================================================== *)
(** ** The calendar from 2000-01-01 on *)
(* ===================================================================== *)

Lemma valid_from_2000_bounds dt : valid_from_2000 dt = true ->
  0 <= yOff dt <= 99 /\ 1 <= m dt <= 12 /\
  1 <= d dt <= month_length (leap_year (yOff dt)) (m dt) /\
  0 <= hh dt <= 23 /\ 0 <= mm dt <= 59 /\ 0 <= ss dt <= 59.
Proof.
  unfold valid_from_2000. rewrite !andb_true_iff, !Z.leb_le. tauto.
Qed.

Lemma valid_from_2000_intro y mo dy h mi s :
  0 <= y <= 99 -> 1 <= mo <= 12 -> 1 <= dy <= month_length (leap_year y) mo ->
  0 <= h <= 23 -> 0 <= mi <= 59 -> 0 <= s <= 59 ->
  valid_from_2000 (mkDateTime y mo dy h mi s) = true.
Proof.
  intros. unfold valid_from_2000. cbn [yOff m d hh mm ss].
  rewrite !andb_true_iff, !Z.leb_le. tauto.
Qed.

(** The day count and the Unix time of a value of 2000..2099, in exact
    arithmetic. *)
Lemma unixtime_from_2000 dt : valid_from_2000 dt = true ->
  date2days (yOff dt) (m dt) (d dt)
  = days_before_year (yOff dt)
    + days_before_month (leap_year (yOff dt)) (m dt) + (d dt - 1)
  /\ 0 <= date2days (yOff dt) (m dt) (d dt) <= 36524
  /\ unixtime dt = seconds2000 dt + SECONDS_FROM_1970_TO_2000.
Proof.
  intros Hv. destruct (valid_from_2000_bounds dt Hv) as (Hy & Hm & Hd & Hh & Hmi & Hs).
  pose proof (month_length_pos (leap_year (yOff dt)) (m dt) Hm) as Hl.
  pose proof (days_before_month_range (leap_year (yOff dt)) (m dt) Hm) as Hr.
  pose proof (date2days_spec (yOff dt) (m dt) (d dt) ltac:(lia) Hm ltac:(lia)) as Hdd.
  pose proof (days_before_year_le 0 (yOff dt) ltac:(lia)) as Hy1.
  pose proof (days_before_year_succ (yOff dt) ltac:(lia)) as Hys.
  pose proof (days_before_year_le (yOff dt + 1) 100 ltac:(lia)) as Hy2.
  change (days_before_year 0) with 0 in Hy1.
  change (days_before_year 100) with 36525 in Hy2.
  split; [exact Hdd |]. split; [lia |].
  unfold unixtime. rewrite u32_time2long. fold (seconds2000 dt).
  assert (Hrange : 0 <= seconds2000 dt <= 36524 * 86400 + 86399).
  { unfold seconds2000. rewrite Hdd. lia. }
  unfold SECONDS_FROM_1970_TO_2000.
  rewrite (u32_small (seconds2000 dt)) by lia.
  rewrite u32_small by lia. reflexivity.
Qed.

(** The round trip on values of 2000..2099. *)
Lemma DateTime_unix_of_unixtime (dt : DateTime) :
  valid_from_2000 dt = true ->
  DateTime_unix (unixtime dt) = Some dt.
Proof.
  intros Hv.
  destruct (unixtime_from_2000 dt Hv) as (Hdd & _ & Hu).
  destruct (valid_from_2000_bounds dt Hv) as (Hy & Hm & Hd & Hh & Hmi & Hs).
  rewrite Hu. unfold seconds2000. rewrite Hdd.
  rewrite DateTime_unix_spec by lia.
  destruct dt; reflexivity.
Qed.

Lemma valid_DateTime_from_2000 dt :
  valid_DateTime dt = true -> valid_from_2000 dt = true.
Proof.
  intros Hv. destruct (valid_DateTime_bounds dt Hv) as (Hy & Hm & Hd & Hh & Hmi & Hs).
  destruct dt. apply valid_from_2000_intro; cbn [yOff m d hh mm ss] in *; lia.
Qed.

(** Two values of 2000..2099 with the same Unix time are the same value. *)
Lemma unixtime_inj a b :
  valid_from_2000 a = true -> valid_from_2000 b = true ->
  unixtime a = unixtime b -> a = b.
Proof.
  intros Ha Hb E.
  pose proof (DateTime_unix_of_unixtime a Ha) as Ra.
  pose proof (DateTime_unix_of_unixtime b Hb) as Rb.
  rewrite E in Ra. congruence.
Qed.

(** X1. The round trip through Unix time holds from 2000-01-01 on: for
    every valid value of 2000..2099, leap day 2000-02-29 included,
    [unixtime()] lies between 946684800 and 4102444799 and
    [DateTime(uint32_t)] applied to it gives the value back. *)
Theorem unixtime_roundtrip_from_2000 (dt : DateTime) :
  valid_from_2000 dt = true ->
  SECONDS_FROM_1970_TO_2000 <= unixtime dt <= UNIX_2099_END
  /\ DateTime_unix (unixtime dt) = Some dt.
Proof.
  intros Hv. split; [| apply DateTime_unix_of_unixtime; exact Hv].
  destruct (unixtime_from_2000 dt Hv) as (_ & HD & ->).
  destruct (valid_from_2000_bounds dt Hv) as (_ & _ & _ & Hh & Hmi & Hs).
  unfold seconds2000, SECONDS_FROM_1970_TO_2000, UNIX_2099_END. lia.
Qed.

Lemma unixtime_roundtrip_from_2000_witness :
  SECONDS_FROM_1970_TO_2000 <= unixtime (mkDateTime 0 2 29 0 0 0) <= UNIX_2099_END
  /\ DateTime_unix (unixtime (mkDateTime 0 2 29 0 0 0)) = Some (mkDateTime 0 2 29 0 0 0).
Proof. apply unixtime_roundtrip_from_2000. reflexivity. Defined.

(** X2. In the other order: for every [t] from 946684800 (2000-01-01) to
    4102444799 (2099-12-31 23:59:59), [DateTime(t)] is a valid calendar
    value and its [unixtime()] is [t]. *)
Theorem DateTime_unix_inverse_from_2000 (t : Z) :
  SECONDS_FROM_1970_TO_2000 <= t <= UNIX_2099_END ->
  exists dt, DateTime_unix t = Some dt
             /\ valid_from_2000 dt = true /\ unixtime dt = t.
Proof.
  unfold SECONDS_FROM_1970_TO_2000, UNIX_2099_END. intros Ht.
  set (T := t - 946684800).
  pose proof (Z.div_mod T 60 ltac:(lia)) as E1.
  pose proof (Z.mod_pos_bound T 60 ltac:(lia)) as B1.
  pose proof (Z.div_mod (T / 60) 60 ltac:(lia)) as E2.
  pose proof (Z.mod_pos_bound (T / 60) 60 ltac:(lia)) as B2.
  pose proof (Z.div_mod (T / 60 / 60) 24 ltac:(lia)) as E3.
  pose proof (Z.mod_pos_bound (T / 60 / 60) 24 ltac:(lia)) as B3.
  set (s := T mod 60) in *. set (mi := (T / 60) mod 60) in *.
  set (h := (T / 60 / 60) mod 24) in *. set (D := T / 60 / 60 / 24) in *.
  assert (HD : 0 <= D <= 36524) by (unfold T in *; lia).
  assert (Hyear : exists y, 0 <= y <= 99
            /\ days_before_year y <= D < days_before_year (y + 1)).
  { destruct (Z_lt_ge_dec D 366) as [Hlt | Hge].
    - exists 0. change (days_before_year 0) with 0.
      change (days_before_year (0 + 1)) with 366. lia.
    - destruct (year_of_day D 99) as (y & Hy & Hby).
      + change (days_before_year 1) with 366.
        change (days_before_year (1 + Z.of_nat 99)) with 36525. lia.
      + exists y. split; [lia | exact Hby]. }
  destruct Hyear as (y & Hy & Hby).
  rewrite days_before_year_succ in Hby by lia.
  destruct (month_of_day (leap_year y) (D - days_before_year y))
    as (mo & dy & Hm & Hd & Hr); [lia |].
  exists (mkDateTime y mo dy h mi s).
  assert (Hv : valid_from_2000 (mkDateTime y mo dy h mi s) = true)
    by (apply valid_from_2000_intro; lia).
  pose proof (month_length_pos (leap_year y) mo Hm) as Hl.
  assert (Hu : unixtime (mkDateTime y mo dy h mi s) = t).
  { destruct (unixtime_from_2000 _ Hv) as (Hdd & _ & ->).
    unfold seconds2000. rewrite Hdd. cbn [yOff m d hh mm ss].
    unfold SECONDS_FROM_1970_TO_2000, T in *. lia. }
  split; [| split; [exact Hv | exact Hu]].
  rewrite <- (DateTime_unix_spec y mo dy h mi s) by lia.
  f_equal. unfold SECONDS_FROM_1970_TO_2000, T in *. lia.
Qed.

Lemma DateTime_unix_inverse_from_2000_witness :
  exists dt, DateTime_unix 946684800 = Some dt
             /\ valid_from_2000 dt = true /\ unixtime dt = 946684800.
Proof.
  apply DateTime_unix_inverse_from_2000. vm_compute. split; discriminate.
Defined.

(* ===================================================================== *)
(** ** Comparison and arithmetic of calendar values *)
(* ===================================================================== *)

Lemma fields_lt_iff a b :
  fields_lt a b = true <->
  (yOff a < yOff b \/ (yOff a = yOff b /\
  (m a < m b \/ (m a = m b /\
  (d a < d b \/ (d a = d b /\
  (hh a < hh b \/ (hh a = hh b /\
  (mm a < mm b \/ (mm a = mm b /\ ss a < ss b)))))))))).
Proof.
  unfold fields_lt.
  rewrite !orb_true_iff, !andb_true_iff, !orb_true_iff, !andb_true_iff.
  rewrite !orb_true_iff, !andb_true_iff, !orb_true_iff, !andb_true_iff.
  rewrite !orb_true_iff, !andb_true_iff, !Z.ltb_lt, !Z.eqb_eq. reflexivity.
Qed.

Lemma fields_trichotomy a b :
  fields_lt a b = true \/ a = b \/ fields_lt b a = true.
Proof.
  rewrite !fields_lt_iff. destruct a as [y1 m1 d1 h1 i1 s1], b as [y2 m2 d2 h2 i2 s2].
  cbn [yOff m d hh mm ss].
  destruct (Z.lt_trichotomy y1 y2) as [H | [-> | H]]; [lia | | lia].
  destruct (Z.lt_trichotomy m1 m2) as [H | [-> | H]]; [lia | | lia].
  destruct (Z.lt_trichotomy d1 d2) as [H | [-> | H]]; [lia | | lia].
  destruct (Z.lt_trichotomy h1 h2) as [H | [-> | H]]; [lia | | lia].
  destruct (Z.lt_trichotomy i1 i2) as [H | [-> | H]]; [lia | | lia].
  destruct (Z.lt_trichotomy s1 s2) as [H | [-> | H]]; [lia | | lia].
  right. left. reflexivity.
Qed.

(** An earlier date has a smaller day count. *)
Lemma date2days_lt a b :
  valid_from_2000 a = true -> valid_from_2000 b = true ->
  (yOff a < yOff b \/ (yOff a = yOff b /\
    (m a < m b \/ (m a = m b /\ d a < d b)))) ->
  date2days (yOff a) (m a) (d a) < date2days (yOff b) (m b) (d b).
Proof.
  intros Ha Hb Hlt.
  destruct (unixtime_from_2000 a Ha) as (-> & _ & _).
  destruct (unixtime_from_2000 b Hb) as (-> & _ & _).
  destruct (valid_from_2000_bounds a Ha) as (Hya & Hma & Hda & _).
  destruct (valid_from_2000_bounds b Hb) as (Hyb & Hmb & Hdb & _).
  pose proof (days_before_month_range (leap_year (yOff a)) (m a) Hma) as Ra.
  pose proof (days_before_month_range (leap_year (yOff b)) (m b) Hmb) as Rb.
  destruct Hlt as [Hy | [Ey [Hm | [Em Hd]]]].
  - pose proof (days_before_year_succ (yOff a) ltac:(lia)) as Hs.
    pose proof (days_before_year_le (yOff a + 1) (yOff b) ltac:(lia)). lia.
  - rewrite Ey in *.
    pose proof (days_before_month_succ (leap_year (yOff b)) (m a) ltac:(lia)) as Hs.
    pose proof (days_before_month_le (leap_year (yOff b)) (m a + 1) (m b)
                  ltac:(lia) ltac:(lia)). lia.
  - rewrite Ey, Em. lia.
Qed.

Lemma unixtime_lt a b :
  valid_from_2000 a = true -> valid_from_2000 b = true ->
  fields_lt a b = true -> unixtime a < unixtime b.
Proof.
  intros Ha Hb Hlt. apply fields_lt_iff in Hlt.
  destruct (unixtime_from_2000 a Ha) as (_ & HDa & ->).
  destruct (unixtime_from_2000 b Hb) as (_ & HDb & ->).
  destruct (valid_from_2000_bounds a Ha) as (_ & _ & _ & Hha & Hia & Hsa).
  destruct (valid_from_2000_bounds b Hb) as (_ & _ & _ & Hhb & Hib & Hsb).
  unfold seconds2000.
  destruct Hlt as [Hy | [Ey [Hm | [Em [Hd | [Ed Ht]]]]]].
  - pose proof (date2days_lt a b Ha Hb ltac:(lia)). lia.
  - pose proof (date2days_lt a b Ha Hb ltac:(lia)). lia.
  - pose proof (date2days_lt a b Ha Hb ltac:(lia)). lia.
  - rewrite Ey, Em, Ed. lia.
Qed.

(** X3. On valid values of 2000..2099 the comparison operators, which
    compare Unix times, agree with the fields: [==] holds exactly for equal
    fields, [<] exactly for the lexicographic order of (year, month, day,
    hour, minute, second), and [>], [<=], [>=], [!=] follow. *)
Theorem DateTime_compare_fields (a b : DateTime) :
  valid_from_2000 a = true -> valid_from_2000 b = true ->
  (DateTime_eq a b = true <-> a = b)
  /\ DateTime_lt a b = fields_lt a b
  /\ DateTime_gt a b = fields_lt b a
  /\ DateTime_le a b = negb (fields_lt b a)
  /\ DateTime_ge a b = negb (fields_lt a b)
  /\ (DateTime_ne a b = true <-> a <> b).
Proof.
  intros Ha Hb.
  assert (Hlt : forall x y, valid_from_2000 x = true -> valid_from_2000 y = true ->
                            DateTime_lt x y = fields_lt x y).
  { intros x y Hx Hy. unfold DateTime_lt.
    destruct (fields_lt x y) eqn:E.
    - apply Z.ltb_lt. apply unixtime_lt; assumption.
    - apply Z.ltb_ge.
      destruct (fields_trichotomy x y) as [F | [-> | F]]; [congruence | lia |].
      pose proof (unixtime_lt y x Hy Hx F). lia. }
  assert (Heq : DateTime_eq a b = true <-> a = b).
  { unfold DateTime_eq. rewrite Z.eqb_eq. split.
    - apply unixtime_inj; assumption.
    - intros ->. reflexivity. }
  unfold DateTime_gt, DateTime_le, DateTime_ge, DateTime_ne, DateTime_gt.
  rewrite (Hlt a b Ha Hb), (Hlt b a Hb Ha).
  repeat split; try reflexivity; try (apply Heq).
  - intros Hne E. apply Heq in E. rewrite E in Hne. discriminate.
  - intros Hne. destruct (DateTime_eq a b) eqn:E; [| reflexivity].
    exfalso. apply Hne. apply Heq. reflexivity.
Qed.

Lemma DateTime_compare_fields_witness :
  (DateTime_eq (mkDateTime 24 2 29 23 59 59) (mkDateTime 24 3 1 0 0 0) = true
   <-> mkDateTime 24 2 29 23 59 59 = mkDateTime 24 3 1 0 0 0)
  /\ DateTime_lt (mkDateTime 24 2 29 23 59 59) (mkDateTime 24 3 1 0 0 0)
     = fields_lt (mkDateTime 24 2 29 23 59 59) (mkDateTime 24 3 1 0 0 0)
  /\ DateTime_gt (mkDateTime 24 2 29 23 59 59) (mkDateTime 24 3 1 0 0 0)
     = fields_lt (mkDateTime 24 3 1 0 0 0) (mkDateTime 24 2 29 23 59 59)
  /\ DateTime_le (mkDateTime 24 2 29 23 59 59) (mkDateTime 24 3 1 0 0 0)
     = negb (fields_lt (mkDateTime 24 3 1 0 0 0) (mkDateTime 24 2 29 23 59 59))
  /\ DateTime_ge (mkDateTime 24 2 29 23 59 59) (mkDateTime 24 3 1 0 0 0)
     = negb (fields_lt (mkDateTime 24 2 29 23 59 59) (mkDateTime 24 3 1 0 0 0))
  /\ (DateTime_ne (mkDateTime 24 2 29 23 59 59) (mkDateTime 24 3 1 0 0 0) = true
      <-> mkDateTime 24 2 29 23 59 59 <> mkDateTime 24 3 1 0 0 0).
Proof. apply DateTime_compare_fields; reflexivity. Defined.

Lemma is_int32_bounds z : is_int32 z = true -> -2147483648 <= z <= 2147483647.
Proof. unfold is_int32. rewrite andb_true_iff, !Z.leb_le. tauto. Qed.

(** What [operator+] yields when the sum stays in 2001..2099. *)
Lemma DateTime_plus_spec dt span :
  valid_DateTime dt = true ->
  UNIX_2001 <= unixtime dt + totalseconds span <= UNIX_2099_END ->
  exists dt', DateTime_plus dt span = Some dt'
              /\ valid_DateTime dt' = true
              /\ unixtime dt' = unixtime dt + totalseconds span.
Proof.
  intros Hv Hr.
  destruct (DateTime_unix_unixtime _ Hr) as (dt' & Hc & Hv' & Hu').
  exists dt'. unfold DateTime_plus.
  rewrite u32_small by (unfold UNIX_2001, UNIX_2099_END in Hr; lia).
  auto.
Qed.

(** X4. Adding a span and taking it away again: for a valid value [dt] and
    a span whose sum with [dt] stays in 2001..2099, [dt + span] is produced
    and [(dt + span) - span] is [dt], field for field. *)
Theorem DateTime_plus_minus (dt : DateTime) (span : TimeSpan) :
  valid_DateTime dt = true ->
  UNIX_2001 <= unixtime dt + totalseconds span <= UNIX_2099_END ->
  exists dt', DateTime_plus dt span = Some dt'
              /\ DateTime_minus dt' span = Some dt.
Proof.
  intros Hv Hr.
  destruct (DateTime_plus_spec dt span Hv Hr) as (dt' & Hp & Hv' & Hu').
  exists dt'. split; [exact Hp |].
  unfold DateTime_minus. rewrite Hu'.
  replace (unixtime dt + totalseconds span - totalseconds span) with (unixtime dt) by lia.
  rewrite u32_small.
  - apply DateTime_unix_of_unixtime. apply valid_DateTime_from_2000. exact Hv.
  - destruct (unixtime_valid dt Hv) as [_ Hb].
    unfold UNIX_2001, UNIX_2099_END in Hb. lia.
Qed.

Lemma DateTime_plus_minus_witness :
  exists dt', DateTime_plus (mkDateTime 24 12 31 23 0 0) (mkTimeSpan 7200) = Some dt'
              /\ DateTime_minus dt' (mkTimeSpan 7200) = Some (mkDateTime 24 12 31 23 0 0).
Proof.
  apply DateTime_plus_minus; [reflexivity | vm_compute; split; discriminate].
Defined.

(** X5. [operator+] moves a value in the direction of the span: with the
    sum inside 2001..2099, [dt < dt + span] holds exactly for a positive
    span, [dt + span < dt] exactly for a negative one, and [dt == dt + span]
    exactly for the empty span. *)
Theorem DateTime_plus_order (dt : DateTime) (span : TimeSpan) :
  valid_DateTime dt = true ->
  UNIX_2001 <= unixtime dt + totalseconds span <= UNIX_2099_END ->
  exists dt', DateTime_plus dt span = Some dt'
              /\ DateTime_lt dt dt' = (0 <? totalseconds span)
              /\ DateTime_lt dt' dt = (totalseconds span <? 0)
              /\ DateTime_eq dt dt' = (totalseconds span =? 0).
Proof.
  intros Hv Hr.
  destruct (DateTime_plus_spec dt span Hv Hr) as (dt' & Hp & Hv' & Hu').
  exists dt'. split; [exact Hp |].
  unfold DateTime_lt, DateTime_eq. rewrite Hu'.
  repeat split.
  - destruct (Z.ltb_spec 0 (totalseconds span));
      [apply Z.ltb_lt | apply Z.ltb_ge]; lia.
  - destruct (Z.ltb_spec (totalseconds span) 0);
      [apply Z.ltb_lt | apply Z.ltb_ge]; lia.
  - destruct (Z.eqb_spec (totalseconds span) 0);
      [apply Z.eqb_eq | apply Z.eqb_neq]; lia.
Qed.

Lemma DateTime_plus_order_witness :
  exists dt', DateTime_plus (mkDateTime 24 12 31 23 0 0) (mkTimeSpan (-60)) = Some dt'
    /\ DateTime_lt (mkDateTime 24 12 31 23 0 0) dt' = (0 <? totalseconds (mkTimeSpan (-60)))
    /\ DateTime_lt dt' (mkDateTime 24 12 31 23 0 0) = (totalseconds (mkTimeSpan (-60)) <? 0)
    /\ DateTime_eq (mkDateTime 24 12 31 23 0 0) dt' = (totalseconds (mkTimeSpan (-60)) =? 0).
Proof.
  apply DateTime_plus_order; [reflexivity | vm_compute; split; discriminate].
Defined.

(** The day count of a value [k] whole days later. *)
Lemma date2days_days_later a b k :
  valid_DateTime a = true -> valid_DateTime b = true ->
  unixtime b = unixtime a + k * 86400 ->
  date2days (yOff b) (m b) (d b) = date2days (yOff a) (m a) (d a) + k
  /\ hh b = hh a /\ mm b = mm a /\ ss b = ss a.
Proof.
  intros Ha Hb E.
  destruct (unixtime_valid a Ha) as [Ua _]. destruct (unixtime_valid b Hb) as [Ub _].
  destruct (valid_DateTime_bounds a Ha) as (_ & _ & _ & Hha & Hia & Hsa).
  destruct (valid_DateTime_bounds b Hb) as (_ & _ & _ & Hhb & Hib & Hsb).
  rewrite Ua, Ub in E. unfold seconds2000 in E. lia.
Qed.

(** X6. The weekday follows the calendar: for a valid value [dt] and a
    span of [k] whole days ([k >= 0], sum inside 2001..2099),
    [(dt + span).dayOfTheWeek()] is [dt.dayOfTheWeek() + k] modulo 7, and
    the time of day is kept. *)
Theorem dayOfTheWeek_days_later (dt : DateTime) (k : Z) :
  valid_DateTime dt = true ->
  0 <= k <= 24855 ->
  unixtime dt + k * 86400 <= UNIX_2099_END ->
  exists dt', DateTime_plus dt (TimeSpan_dhms k 0 0 0) = Some dt'
              /\ dayOfTheWeek dt' = (dayOfTheWeek dt + k) mod 7
              /\ hh dt' = hh dt /\ mm dt' = mm dt /\ ss dt' = ss dt.
Proof.
  intros Hv Hk Hr.
  assert (Hs : totalseconds (TimeSpan_dhms k 0 0 0) = k * 86400).
  { unfold TimeSpan_dhms, totalseconds. cbn [_seconds].
    rewrite s32_small by lia. lia. }
  destruct (unixtime_valid dt Hv) as [_ Hb].
  destruct (DateTime_plus_spec dt (TimeSpan_dhms k 0 0 0) Hv ltac:(rewrite Hs; lia))
    as (dt' & Hp & Hv' & Hu').
  rewrite Hs in Hu'.
  destruct (date2days_days_later dt dt' k Hv Hv' Hu') as (HD & Hh & Hm & Hss).
  exists dt'. split; [exact Hp |]. split; [| auto].
  unfold dayOfTheWeek. rewrite HD.
  set (D := date2days (yOff dt) (m dt) (d dt)).
  pose proof (Z.mod_pos_bound (D + 6) 7 ltac:(lia)) as B1.
  pose proof (Z.mod_pos_bound (D + k + 6) 7 ltac:(lia)) as B2.
  rewrite !u8_small by lia.
  rewrite Z.add_mod_idemp_l by lia. f_equal. lia.
Qed.

Lemma dayOfTheWeek_days_later_witness :
  exists dt', DateTime_plus (mkDateTime 24 2 28 13 45 30) (TimeSpan_dhms 2 0 0 0) = Some dt'
    /\ dayOfTheWeek dt' = (dayOfTheWeek (mkDateTime 24 2 28 13 45 30) + 2) mod 7
    /\ hh dt' = hh (mkDateTime 24 2 28 13 45 30)
    /\ mm dt' = mm (mkDateTime 24 2 28 13 45 30)
    /\ ss dt' = ss (mkDateTime 24 2 28 13 45 30).
Proof.
  apply dayOfTheWeek_days_later; [reflexivity | lia | vm_compute; discriminate].
Defined.

Lemma in_long_some w z :
  - 2 ^ (w - 1) <= z < 2 ^ (w - 1) -> in_long w z = Some z.
Proof.
  intros H. unfold in_long.
  destruct (Z.leb_spec (- 2 ^ (w - 1)) z); [| lia].
  destruct (Z.ltb_spec z (2 ^ (w - 1))); [reflexivity | lia].
Qed.

Lemma in_long_none w z : 2 ^ (w - 1) <= z -> in_long w z = None.
Proof.
  intros H. unfold in_long.
  destruct (Z.ltb_spec z (2 ^ (w - 1))); [lia |].
  rewrite andb_false_r. reflexivity.
Qed.

Lemma in_long_inv w z t :
  in_long w z = Some t -> t = z /\ - 2 ^ (w - 1) <= z < 2 ^ (w - 1).
Proof.
  unfold in_long.
  destruct (Z.leb_spec (- 2 ^ (w - 1)) z); [| discriminate].
  destruct (Z.ltb_spec z (2 ^ (w - 1))); [| discriminate].
  cbn [andb]. intros [= <-]. lia.
Qed.

(** Where the 32-bit [long] computation is defined, it is the value the
    wrapping model [time2long] gives. *)
Lemma time2long_checked_32 days h mi s t :
  time2long_checked 32 days h mi s = Some t -> time2long days h mi s = t.
Proof.
  unfold time2long_checked, time2long, long_then. intros H.
  destruct (in_long 32 (days * 24)) as [a1 |] eqn:E1; [| discriminate].
  destruct (in_long 32 (a1 + h)) as [a2 |] eqn:E2; [| discriminate].
  destruct (in_long 32 (a2 * 60)) as [a3 |] eqn:E3; [| discriminate].
  destruct (in_long 32 (a3 + mi)) as [a4 |] eqn:E4; [| discriminate].
  destruct (in_long 32 (a4 * 60)) as [a5 |] eqn:E5; [| discriminate].
  apply in_long_inv in E1, E2, E3, E4, E5, H.
  change (2 ^ (32 - 1)) with 2147483648 in *.
  destruct E1 as [-> B1], E2 as [-> B2], E3 as [-> B3], E4 as [-> B4],
    E5 as [-> B5], H as [-> B6].
  rewrite (s32_small (days * 24)) by lia.
  rewrite (s32_small (days * 24 + h)) by lia.
  rewrite (s32_small ((days * 24 + h) * 60)) by lia.
  rewrite (s32_small ((days * 24 + h) * 60 + mi)) by lia.
  apply s32_small. lia.
Qed.

(** X7. [secondstime()] against [unixtime()]. The function computes in
    signed [long]. For a valid value of 2000..2099 and a [long] of at
    least 32 bits it returns [unixtime() - 946684800] whenever that number
    is below 2^(bits - 1): always with a 64-bit [long], and up to
    2068-01-19 03:14:07 with a 32-bit one. From the next second on the
    32-bit computation overflows, and the language defines no result. *)
Theorem secondstime_unixtime (long_bits : Z) (dt : DateTime) :
  32 <= long_bits ->
  valid_from_2000 dt = true ->
  secondstime long_bits dt
  = if unixtime dt - SECONDS_FROM_1970_TO_2000 <? 2 ^ (long_bits - 1)
    then Some (unixtime dt - SECONDS_FROM_1970_TO_2000)
    else None.
Proof.
  intros Hw Hv.
  destruct (unixtime_from_2000 dt Hv) as (_ & HD & Hu).
  destruct (valid_from_2000_bounds dt Hv) as (_ & _ & _ & Hh & Hmi & Hs).
  assert (HP : 2147483648 <= 2 ^ (long_bits - 1)).
  { change 2147483648 with (2 ^ 31). apply Z.pow_le_mono_r; lia. }
  rewrite Hu.
  replace (seconds2000 dt + SECONDS_FROM_1970_TO_2000 - SECONDS_FROM_1970_TO_2000)
    with (seconds2000 dt) by lia.
  unfold secondstime, time2long_checked, seconds2000.
  set (D := date2days (yOff dt) (m dt) (d dt)) in *.
  rewrite (in_long_some long_bits (D * 24)) by lia. cbn [long_then].
  rewrite (in_long_some long_bits (D * 24 + hh dt)) by lia. cbn [long_then].
  rewrite (in_long_some long_bits ((D * 24 + hh dt) * 60)) by lia. cbn [long_then].
  rewrite (in_long_some long_bits ((D * 24 + hh dt) * 60 + mm dt)) by lia.
  cbn [long_then].
  destruct (Z.ltb_spec ((((D * 24 + hh dt) * 60 + mm dt) * 60) + ss dt)
              (2 ^ (long_bits - 1))) as [Hlt | Hge].
  - rewrite (in_long_some long_bits (((D * 24 + hh dt) * 60 + mm dt) * 60)) by lia.
    cbn [long_then]. apply in_long_some. lia.
  - destruct (Z.lt_ge_cases (((D * 24 + hh dt) * 60 + mm dt) * 60)
                (2 ^ (long_bits - 1))) as [Hm | Hm].
    + rewrite (in_long_some long_bits (((D * 24 + hh dt) * 60 + mm dt) * 60)) by lia.
      cbn [long_then]. apply in_long_none. exact Hge.
    + rewrite (in_long_none long_bits (((D * 24 + hh dt) * 60 + mm dt) * 60)) by exact Hm.
      reflexivity.
Qed.

Lemma secondstime_unixtime_witness :
  secondstime 32 (mkDateTime 68 1 19 3 14 8)
  = if unixtime (mkDateTime 68 1 19 3 14 8) - SECONDS_FROM_1970_TO_2000 <? 2 ^ (32 - 1)
    then Some (unixtime (mkDateTime 68 1 19 3 14 8) - SECONDS_FROM_1970_TO_2000)
    else None.
Proof. apply secondstime_unixtime; [lia | reflexivity]. Defined.

Example secondstime_in_2068 :
  secondstime 32 (mkDateTime 68 1 19 3 14 7) = Some 2147483647
  /\ secondstime 32 (mkDateTime 68 1 19 3 14 8) = None
  /\ secondstime 64 (mkDateTime 68 1 19 3 14 8) = Some 2147483648.
Proof. repeat split; reflexivity. Qed.

(* ===================================================================== *)
(** ** [DateTime(uint32_t)] on every argument *)
(* ===================================================================== *)

(** The year loop, read backwards: what it returns splits the day count
    into whole years and a day of the year. *)
Lemma year_loop_sound fuel : forall y days y' r leap,
  0 <= y -> 0 <= days -> days <= 365 * (255 - y) -> days < 65536 ->
  year_loop fuel y days = Some (y', r, leap) ->
  y <= y' <= 255 /\ leap = leap_year y' /\ 0 <= r < 365 + b2z leap
  /\ days = days_before_year y' - days_before_year y + r.
Proof.
  induction fuel as [| fuel IH]; intros y days y' r leap Hy Hd Hb H16 E;
    [discriminate |].
  cbn [year_loop] in E. fold (leap_year y) in E.
  assert (Hleap : 0 <= b2z (leap_year y) <= 1)
    by (destruct (leap_year y); simpl; lia).
  destruct (Z.ltb_spec days (365 + b2z (leap_year y))) as [Hlt | Hge].
  - injection E as <- <- <-. repeat split; lia.
  - rewrite (u8_small (y + 1)) in E by lia.
    rewrite u16_small in E by lia.
    apply IH in E; try lia.
    destruct E as (Hy' & Hl & Hr & Hdays).
    pose proof (days_before_year_succ y Hy). repeat split; try lia; assumption.
Qed.

(** The month loop, read backwards. *)
Lemma month_loop_sound leap n : forall mo r mo' r',
  1 <= mo <= 12 -> (Z.to_nat (12 - mo) <= n)%nat ->
  0 <= r < 365 + b2z leap - days_before_month leap mo ->
  month_loop n mo r leap = (mo', r') ->
  mo <= mo' <= 12 /\ 0 <= r' < month_length leap mo'
  /\ r = days_before_month leap mo' - days_before_month leap mo + r'.
Proof.
  assert (H12 : days_before_month leap 12 + month_length leap 12 = 365 + b2z leap)
    by (destruct leap; reflexivity).
  induction n as [| n IH]; intros mo r mo' r' Hmo Hn Hr E; cbn [month_loop] in E.
  - assert (mo = 12) by lia. subst. injection E as <- <-. lia.
  - destruct (Z.ltb_spec mo 12) as [Hlt | Hge].
    + assert (Hdpm : (if leap && (mo =? 2)
                     then u8 (pgm_read_daysInMonth (mo - 1) + 1)
                     else pgm_read_daysInMonth (mo - 1)) = month_length leap mo).
      { pose proof (month_length_pos leap mo ltac:(lia)) as Hl.
        unfold month_length in *. destruct (Z.eqb_spec mo 12); [lia |].
        destruct (leap && (mo =? 2)); [| lia].
        rewrite u8_small; lia. }
      rewrite Hdpm in E.
      pose proof (month_length_pos leap mo ltac:(lia)) as Hl.
      pose proof (days_before_month_succ leap mo ltac:(lia)) as Hs.
      pose proof (days_before_month_range leap mo ltac:(lia)) as Hb.
      assert (Hleap : 0 <= b2z leap <= 1) by (destruct leap; simpl; lia).
      destruct (Z.ltb_spec r (month_length leap mo)) as [Hin | Hout].
      * injection E as <- <-. lia.
      * rewrite (u8_small (mo + 1)) in E by lia.
        rewrite u16_small in E by lia.
        apply IH in E; lia.
    + assert (mo = 12) by lia. subst. injection E as <- <-. lia.
Qed.

(** X8. [DateTime(uint32_t)] builds a well-formed calendar value from
    every 32-bit argument, also outside 2000..2099 and below 946684800
    (where the subtraction wraps): the month is in 1..12, the day in
    1..length of that month (February with 29 days when the year offset is
    a multiple of four), the hour below 24, minute and second below 60,
    and the year offset at most 136. *)
Theorem DateTime_unix_well_formed (t : Z) :
  exists dt, DateTime_unix t = Some dt
    /\ 0 <= yOff dt <= 136
    /\ 1 <= m dt <= 12
    /\ 1 <= d dt <= month_length (leap_year (yOff dt)) (m dt)
    /\ 0 <= hh dt <= 23 /\ 0 <= mm dt <= 59 /\ 0 <= ss dt <= 59.
Proof.
  unfold DateTime_unix.
  set (T := u32 (t - SECONDS_FROM_1970_TO_2000)).
  pose proof (u32_range (t - SECONDS_FROM_1970_TO_2000)) as HT. fold T in HT.
  pose proof (Z.mod_pos_bound T 60 ltac:(lia)) as B1.
  pose proof (Z.mod_pos_bound (T / 60) 60 ltac:(lia)) as B2.
  pose proof (Z.mod_pos_bound (T / 60 / 60) 24 ltac:(lia)) as B3.
  assert (HD : 0 <= T / 60 / 60 / 24 <= 49710).
  { pose proof (Z.div_mod T 60 ltac:(lia)).
    pose proof (Z.div_mod (T / 60) 60 ltac:(lia)).
    pose proof (Z.div_mod (T / 60 / 60) 24 ltac:(lia)). lia. }
  rewrite (u16_small (T / 60 / 60 / 24)) by lia.
  rewrite !u8_small by lia.
  destruct (year_loop_total year_fuel 0 (T / 60 / 60 / 24) ltac:(lia)
              ltac:(unfold year_fuel; lia)) as ([[y r] leap] & E).
  rewrite E.
  destruct (year_loop_sound year_fuel 0 (T / 60 / 60 / 24) y r leap
              ltac:(lia) ltac:(lia) ltac:(lia) ltac:(lia) E)
    as (Hy & -> & Hr & Hdays).
  change (days_before_year 0) with 0 in Hdays.
  destruct (month_loop 11 1 r (leap_year y)) as [mo r'] eqn:Em.
  assert (H1 : days_before_month (leap_year y) 1 = 0)
    by (destruct (leap_year y); reflexivity).
  destruct (month_loop_sound (leap_year y) 11 1 r mo r' ltac:(lia) ltac:(simpl; lia)
              ltac:(rewrite H1; lia) Em) as (Hm & Hr' & _).
  pose proof (month_length_pos (leap_year y) mo ltac:(lia)) as Hl.
  eexists. split; [reflexivity |]. cbn [yOff m d hh mm ss].
  rewrite u8_small by lia.
  assert (Hy136 : y <= 136).
  { assert (365 * y <= days_before_year y); [| lia].
    unfold days_before_year.
    pose proof (Z.div_pos (y + 3) 4 ltac:(lia) ltac:(lia)). lia. }
  repeat split; lia.
Qed.

(* ===================================================================== *)
(** ** [TimeSpan]: the views of a span *)
(* ===================================================================== *)

Lemma s16_small z : -32768 <= z < 32768 -> s16 z = z.
Proof. intros; unfold s16; rewrite Z.mod_small; lia. Qed.

Lemma s8_small z : -128 <= z < 128 -> s8 z = z.
Proof. intros; unfold s8; rewrite Z.mod_small; lia. Qed.

(** Division of C by a positive constant: quotient and remainder have the
    sign of the dividend. *)
Lemma quot_rem_sign a k : 0 < k ->
  a = k * Z.quot a k + Z.rem a k
  /\ (0 <= a -> 0 <= Z.quot a k /\ 0 <= Z.rem a k < k)
  /\ (a <= 0 -> Z.quot a k <= 0 /\ - k < Z.rem a k <= 0).
Proof.
  intros Hk. split; [apply Z.quot_rem'; lia |]. split; intros Ha.
  - split; [apply Z.quot_pos; lia | apply Z.rem_bound_pos; lia].
  - split.
    + rewrite <- (Z.opp_involutive a), Z.quot_opp_l by lia.
      pose proof (Z.quot_pos (- a) k ltac:(lia) ltac:(lia)). lia.
    + apply Z.rem_bound_pos_neg; lia.
Qed.

(** The four views of a span, before narrowing to [int16_t] / [int8_t]. *)
Lemma TimeSpan_views_exact s :
  let dd := Z.quot s 86400 in
  let h := Z.rem (Z.quot s 3600) 24 in
  let mi := Z.rem (Z.quot s 60) 60 in
  let sec := Z.rem s 60 in
  s = dd * 86400 + h * 3600 + mi * 60 + sec
  /\ (0 <= s -> 0 <= dd /\ 0 <= h <= 23 /\ 0 <= mi <= 59 /\ 0 <= sec <= 59)
  /\ (s <= 0 -> dd <= 0 /\ -23 <= h <= 0 /\ -59 <= mi <= 0 /\ -59 <= sec <= 0).
Proof.
  cbn zeta.
  replace (Z.quot s 3600) with (Z.quot (Z.quot s 60) 60)
    by (rewrite Z.quot_quot by lia; reflexivity).
  replace (Z.quot s 86400) with (Z.quot (Z.quot (Z.quot s 60) 60) 24)
    by (rewrite !Z.quot_quot by lia; reflexivity).
  destruct (quot_rem_sign s 60 ltac:(lia)) as (E1 & P1 & N1).
  destruct (quot_rem_sign (Z.quot s 60) 60 ltac:(lia)) as (E2 & P2 & N2).
  destruct (quot_rem_sign (Z.quot (Z.quot s 60) 60) 24 ltac:(lia)) as (E3 & P3 & N3).
  split; [lia |]. split; intros Hs.
  - destruct (P1 Hs) as [Q1 R1]. destruct (P2 Q1) as [Q2 R2].
    destruct (P3 Q2) as [Q3 R3]. lia.
  - destruct (N1 Hs) as [Q1 R1]. destruct (N2 Q1) as [Q2 R2].
    destruct (N3 Q2) as [Q3 R3]. lia.
Qed.

(** X9. The views of a span add up to it: for every [int32_t] total,
    [days() * 86400 + hours() * 3600 + minutes() * 60 + seconds()] is
    [totalseconds()]; the four views carry the sign of the total, with
    hours within 23, minutes and seconds within 59, and days within 24855,
    so the narrowing to [int16_t] and [int8_t] loses nothing. *)
Theorem TimeSpan_views_sum (span : TimeSpan) :
  is_int32 (totalseconds span) = true ->
  TimeSpan_days span * 86400 + TimeSpan_hours span * 3600
    + TimeSpan_minutes span * 60 + TimeSpan_seconds_part span
  = totalseconds span
  /\ Z.abs (TimeSpan_days span) <= 24855
  /\ Z.abs (TimeSpan_hours span) <= 23
  /\ Z.abs (TimeSpan_minutes span) <= 59
  /\ Z.abs (TimeSpan_seconds_part span) <= 59
  /\ (0 <= totalseconds span ->
      0 <= TimeSpan_days span /\ 0 <= TimeSpan_hours span
      /\ 0 <= TimeSpan_minutes span /\ 0 <= TimeSpan_seconds_part span)
  /\ (totalseconds span <= 0 ->
      TimeSpan_days span <= 0 /\ TimeSpan_hours span <= 0
      /\ TimeSpan_minutes span <= 0 /\ TimeSpan_seconds_part span <= 0).
Proof.
  intros Hi. apply is_int32_bounds in Hi.
  unfold TimeSpan_days, TimeSpan_hours, TimeSpan_minutes, TimeSpan_seconds_part,
    totalseconds in *.
  destruct (TimeSpan_views_exact (_seconds span)) as (E & P & N).
  set (dd := Z.quot (_seconds span) 86400) in *.
  set (h := Z.rem (Z.quot (_seconds span) 3600) 24) in *.
  set (mi := Z.rem (Z.quot (_seconds span) 60) 60) in *.
  set (sec := Z.rem (_seconds span) 60) in *.
  assert (B : -24855 <= dd <= 24855 /\ -23 <= h <= 23
              /\ -59 <= mi <= 59 /\ -59 <= sec <= 59).
  { destruct (Z_le_gt_dec 0 (_seconds span)) as [Hp | Hn].
    - specialize (P Hp). lia.
    - specialize (N ltac:(lia)). lia. }
  rewrite (s16_small dd), (s8_small h), (s8_small mi), (s8_small sec) by lia.
  split; [lia |]. do 4 (split; [lia |]).
  split; intros H; [specialize (P H) | specialize (N H)]; lia.
Qed.

Lemma TimeSpan_views_sum_witness :
  TimeSpan_days (mkTimeSpan (-358027)) * 86400 + TimeSpan_hours (mkTimeSpan (-358027)) * 3600
    + TimeSpan_minutes (mkTimeSpan (-358027)) * 60
    + TimeSpan_seconds_part (mkTimeSpan (-358027))
  = totalseconds (mkTimeSpan (-358027))
  /\ Z.abs (TimeSpan_days (mkTimeSpan (-358027))) <= 24855
  /\ Z.abs (TimeSpan_hours (mkTimeSpan (-358027))) <= 23
  /\ Z.abs (TimeSpan_minutes (mkTimeSpan (-358027))) <= 59
  /\ Z.abs (TimeSpan_seconds_part (mkTimeSpan (-358027))) <= 59
  /\ (0 <= totalseconds (mkTimeSpan (-358027)) ->
      0 <= TimeSpan_days (mkTimeSpan (-358027))
      /\ 0 <= TimeSpan_hours (mkTimeSpan (-358027))
      /\ 0 <= TimeSpan_minutes (mkTimeSpan (-358027))
      /\ 0 <= TimeSpan_seconds_part (mkTimeSpan (-358027)))
  /\ (totalseconds (mkTimeSpan (-358027)) <= 0 ->
      TimeSpan_days (mkTimeSpan (-358027)) <= 0
      /\ TimeSpan_hours (mkTimeSpan (-358027)) <= 0
      /\ TimeSpan_minutes (mkTimeSpan (-358027)) <= 0
      /\ TimeSpan_seconds_part (mkTimeSpan (-358027)) <= 0).
Proof. apply TimeSpan_views_sum. reflexivity. Defined.

(** X10. Building a span from components and reading them back: for
    components of one sign, hours within 23, minutes and seconds within 59
    and a total that fits [int32_t], the views of
    [TimeSpan(days, hours, minutes, seconds)] are those four components. *)
Theorem TimeSpan_dhms_views (dd h mi s : Z) :
  (0 <= dd /\ 0 <= h <= 23 /\ 0 <= mi <= 59 /\ 0 <= s <= 59)
  \/ (dd <= 0 /\ -23 <= h <= 0 /\ -59 <= mi <= 0 /\ -59 <= s <= 0) ->
  is_int32 (dd * 86400 + h * 3600 + mi * 60 + s) = true ->
  let span := TimeSpan_dhms dd h mi s in
  totalseconds span = dd * 86400 + h * 3600 + mi * 60 + s
  /\ TimeSpan_days span = dd /\ TimeSpan_hours span = h
  /\ TimeSpan_minutes span = mi /\ TimeSpan_seconds_part span = s.
Proof.
  intros Hc Hi. apply is_int32_bounds in Hi. cbn zeta.
  unfold TimeSpan_days, TimeSpan_hours, TimeSpan_minutes, TimeSpan_seconds_part,
    totalseconds, TimeSpan_dhms. cbn [_seconds].
  rewrite s32_small by lia.
  set (T := dd * 86400 + h * 3600 + mi * 60 + s) in *.
  destruct (TimeSpan_views_exact T) as (E & P & N).
  set (dd' := Z.quot T 86400) in *.
  set (h' := Z.rem (Z.quot T 3600) 24) in *.
  set (mi' := Z.rem (Z.quot T 60) 60) in *.
  set (s' := Z.rem T 60) in *.
  assert (Q : dd' = dd /\ h' = h /\ mi' = mi /\ s' = s).
  { destruct Hc as [Hp | Hn].
    - specialize (P ltac:(unfold T; lia)). unfold T in E. lia.
    - specialize (N ltac:(unfold T; lia)). unfold T in E. lia. }
  destruct Q as (-> & -> & -> & ->).
  rewrite s16_small, !s8_small by lia. auto.
Qed.

Lemma TimeSpan_dhms_views_witness :
  totalseconds (TimeSpan_dhms 4 3 27 7) = 4 * 86400 + 3 * 3600 + 27 * 60 + 7
  /\ TimeSpan_days (TimeSpan_dhms 4 3 27 7) = 4
  /\ TimeSpan_hours (TimeSpan_dhms 4 3 27 7) = 3
  /\ TimeSpan_minutes (TimeSpan_dhms 4 3 27 7) = 27
  /\ TimeSpan_seconds_part (TimeSpan_dhms 4 3 27 7) = 7.
Proof. apply (TimeSpan_dhms_views 4 3 27 7); [left; lia | reflexivity]. Defined.

(* ===================================================================== *)
(** ** The control and status registers *)
(* ===================================================================== *)

Lemma for_all_bytes_spec P :
  for_all_bytes P = true -> forall c, 0 <= c < 256 -> P c = true.
Proof.
  unfold for_all_bytes, all_bytes. intros H c Hc.
  rewrite forallb_forall in H. apply H.
  apply in_map_iff. exists (Z.to_nat c). split; [lia |].
  apply in_seq. lia.
Qed.

(** The round trip of the BCD codec on 0..99. *)
Lemma bcd2bin_bin2bcd b : 0 <= b <= 99 -> bcd2bin (bin2bcd b) = b.
Proof.
  intros Hb.
  pose proof (Z.div_mod b 10 ltac:(lia)) as E.
  pose proof (Z.mod_pos_bound b 10 ltac:(lia)) as B.
  rewrite E at 1. rewrite bin2bcd_digits by lia.
  rewrite bcd2bin_digits by lia. lia.
Qed.

(** X11. The two BCD functions are inverse to each other between 0..99 and
    the bytes whose two nibbles are decimal digits: [bin2bcd] of a number
    in 0..99 is such a byte (tens in the high nibble, units in the low
    one), and on such a byte [bcd2bin] gives a number in 0..99 that
    [bin2bcd] encodes back to the same byte. *)
Theorem bcd_bijection (v : Z) :
  0 <= v <= 99 ->
  bin2bcd v / 16 = v / 10 /\ bin2bcd v mod 16 = v mod 10
  /\ bin2bcd (bcd2bin (16 * (v / 10) + v mod 10)) = 16 * (v / 10) + v mod 10
  /\ 0 <= bcd2bin (16 * (v / 10) + v mod 10) <= 99.
Proof.
  intros Hv.
  pose proof (Z.div_mod v 10 ltac:(lia)) as E.
  pose proof (Z.mod_pos_bound v 10 ltac:(lia)) as B.
  assert (Hq : 0 <= v / 10 <= 9) by lia.
  assert (Hb : bin2bcd v = 16 * (v / 10) + v mod 10).
  { rewrite E at 1. apply bin2bcd_digits; lia. }
  rewrite Hb.
  replace (16 * (v / 10) + v mod 10) with (v / 10 * 16 + v mod 10) by lia.
  destruct (div_mod_digit (v / 10) (v mod 10) 16 ltac:(lia) ltac:(lia)) as [-> ->].
  replace (v / 10 * 16 + v mod 10) with (16 * (v / 10) + v mod 10) by lia.
  rewrite bcd2bin_digits by lia.
  rewrite bin2bcd_digits by lia. repeat split; lia.
Qed.

Lemma bcd_bijection_witness :
  bin2bcd 59 / 16 = 59 / 10 /\ bin2bcd 59 mod 16 = 59 mod 10
  /\ bin2bcd (bcd2bin (16 * (59 / 10) + 59 mod 10)) = 16 * (59 / 10) + 59 mod 10
  /\ 0 <= bcd2bin (16 * (59 / 10) + 59 mod 10) <= 99.
Proof. apply bcd_bijection. lia. Defined.

Lemma land_128_testbit x : 0 <= x < 256 -> (Z.land x 128 =? 128) = Z.testbit x 7.
Proof.
  intros Hx. apply Bool.eqb_prop.
  apply (for_all_bytes_spec
           (fun x => Bool.eqb (Z.land x 128 =? 128) (Z.testbit x 7))); [| exact Hx].
  vm_compute. reflexivity.
Qed.

(** X12. [lostPower()] answers bit 7 of the status register and changes
    neither the chip nor the mirror; [lostPowerClear()] writes the status
    byte back with bit 7 cleared and every other bit as read (the two alarm
    flags among them), leaves the control register and the mirror alone,
    and [lostPower()] answers false afterwards. *)
Theorem lostPower_clear (s : State) :
  fst (lostPower s) = Z.testbit (u8 (status_byte s)) 7
  /\ chip (wire (snd (lostPower s))) = chip (wire s)
  /\ rtc (snd (lostPower s)) = rtc s
  /\ status_byte (snd (lostPowerClear s)) = Z.land (u8 (status_byte s)) 127
  /\ (forall n, Z.testbit (status_byte (snd (lostPowerClear s))) n
                = if n =? 7 then false else Z.testbit (u8 (status_byte s)) n)
  /\ control_byte (snd (lostPowerClear s)) = control_byte s
  /\ rtc (snd (lostPowerClear s)) = rtc s
  /\ fst (lostPower (snd (lostPowerClear s))) = false.
Proof.
  destruct s as [r [c p tx rx lg]]. unfold status_byte, control_byte.
  cbn -[u8 Z.land Z.testbit Z.eqb].
  change (u8 15) with 15. change (u8 (15 + 0)) with 15. change (u8 (15 + 1)) with 16.
  cbn -[u8 Z.land Z.testbit]. change (u8 (15 + 1)) with 16.
  cbn -[u8 Z.land Z.testbit].
  rewrite !(u8_small (u8 _)) by apply u8_range.
  rewrite !(land_byte (u8 (c 15)) 127) by apply u8_range.
  pose proof (u8_range (c 15)) as Hb.
  pose proof land_128_testbit as Hbit.
  repeat split.
  - apply Hbit. exact Hb.
  - intros n. rewrite Z.land_spec.
    destruct (Z.eqb_spec n 7) as [-> | Hn].
    + apply andb_false_r.
    + change 127 with (Z.ones 7).
      destruct (Z_lt_ge_dec n 0) as [Hneg | Hpos].
      * rewrite !Z.testbit_neg_r by lia. reflexivity.
      * destruct (Z_lt_ge_dec n 7) as [Hlt | Hge].
        -- rewrite Z.ones_spec_low by lia. apply andb_true_r.
        -- rewrite Z.ones_spec_high by lia. rewrite andb_false_r.
           unfold u8. change 256 with (2 ^ 8).
           symmetry. apply Z.mod_pow2_bits_high. lia.
  - rewrite Hbit.
    + rewrite Z.land_spec. apply andb_false_r.
    + pose proof (land_byte (u8 (c 15)) 127 Hb) as E. rewrite <- E. apply u8_range.
Qed.

Ltac is_pos_num p :=
  lazymatch p with
  | xH => idtac
  | xI ?q => is_pos_num q
  | xO ?q => is_pos_num q
  end.

Ltac is_num z :=
  lazymatch z with
  | Z0 => idtac
  | Zpos ?p => is_pos_num p
  | Zneg ?p => is_pos_num p
  end.

(** Evaluate [u8] where its argument is a closed number. *)
Ltac fold_u8 :=
  repeat match goal with
  | |- context [u8 ?a] =>
      is_num a;
      let r := eval cbv in (u8 a) in
      change (u8 a) with r
  | |- context [u8 (?x + ?y)] =>
      is_num x; is_num y;
      let r := eval cbv in (u8 (x + y)) in
      change (u8 (x + y)) with r
  end.

Lemma lor_byte x k : 0 <= x < 256 -> 0 <= k < 256 -> u8 (Z.lor x k) = Z.lor x k.
Proof.
  intros Hx Hk. rewrite u8_land_ones, Z.land_lor_distr_l.
  rewrite <- !u8_land_ones, !u8_small by lia. reflexivity.
Qed.

(** X13. [alarmSet] with an armed alarm-1 type (bit 7 clear, not
    [URTCLIB_ALARM_TYPE_1_NONE]) succeeds; afterwards the alarm-1 accessors
    give back the type and the four time fields as passed, [sqwgMode()] is
    [URTCLIB_SQWG_OFF_1], and what the accessors say of alarm 2 is as
    before. The control byte is the one read with INTCN and A1IE set
    ([| 0b00000101]), so every other bit, A2IE among them, is kept. *)
Theorem alarmSet_alarm1 (type second minute hour day_dow : Z) (s : State) :
  type <> URTCLIB_ALARM_TYPE_1_NONE -> Z.land type 128 = 0 ->
  let s' := snd (alarmSet type second minute hour day_dow s) in
  fst (alarmSet type second minute hour day_dow s) = true
  /\ fst (alarmMode URTCLIB_ALARM_1 s') = type
  /\ fst (alarmSecond URTCLIB_ALARM_1 s') = second
  /\ fst (alarmMinute URTCLIB_ALARM_1 s') = minute
  /\ fst (alarmHour URTCLIB_ALARM_1 s') = hour
  /\ fst (alarmDayDow URTCLIB_ALARM_1 s') = day_dow
  /\ fst (sqwgMode s') = URTCLIB_SQWG_OFF_1
  /\ fst (alarmMode URTCLIB_ALARM_2 s') = fst (alarmMode URTCLIB_ALARM_2 s)
  /\ fst (alarmMinute URTCLIB_ALARM_2 s') = fst (alarmMinute URTCLIB_ALARM_2 s)
  /\ fst (alarmHour URTCLIB_ALARM_2 s') = fst (alarmHour URTCLIB_ALARM_2 s)
  /\ fst (alarmDayDow URTCLIB_ALARM_2 s') = fst (alarmDayDow URTCLIB_ALARM_2 s)
  /\ control_byte s' = Z.lor (u8 (control_byte s)) 5.
Proof.
  intros Hnone Hbit. cbn zeta. unfold alarmSet.
  destruct (Z.eqb_spec type URTCLIB_ALARM_TYPE_1_NONE) as [| _]; [contradiction |].
  destruct (Z.eqb_spec type URTCLIB_ALARM_TYPE_2_NONE) as [E | _];
    [rewrite E in Hbit; discriminate Hbit |].
  rewrite Hbit. cbn [Z.eqb].
  destruct s as [r [c p tx rx lg]]. unfold control_byte.
  cbn -[u8 Z.land Z.lor Z.shiftl bin2bcd Z.add].
  fold_u8. cbn -[u8 Z.land Z.lor Z.shiftl bin2bcd].
  rewrite !(u8_small (u8 _)) by apply u8_range.
  rewrite lor_byte by (try apply u8_range; lia).
  repeat split; reflexivity.
Qed.

Lemma alarmSet_alarm1_witness :
  fst (alarmSet URTCLIB_ALARM_TYPE_1_FIXED_MS 5 10 0 0 (power_on clock_regs)) = true
  /\ fst (alarmMode URTCLIB_ALARM_1
            (snd (alarmSet URTCLIB_ALARM_TYPE_1_FIXED_MS 5 10 0 0 (power_on clock_regs))))
     = URTCLIB_ALARM_TYPE_1_FIXED_MS.
Proof.
  pose proof (alarmSet_alarm1 URTCLIB_ALARM_TYPE_1_FIXED_MS 5 10 0 0 (power_on clock_regs)
                ltac:(discriminate) ltac:(reflexivity)) as H.
  cbn zeta in H. destruct H as (H1 & H2 & _). split; [exact H1 | exact H2].
Defined.

(** The answer of [alarmSet] for an armed type of either alarm. *)
Lemma alarmSet_alarm1_aux type second minute hour day_dow s :
  type <> URTCLIB_ALARM_TYPE_1_NONE -> Z.land type 128 = 0 ->
  fst (alarmSet type second minute hour day_dow s) = true.
Proof.
  intros Hnone Hbit. unfold alarmSet.
  destruct (Z.eqb_spec type URTCLIB_ALARM_TYPE_1_NONE) as [| _]; [contradiction |].
  destruct (Z.eqb_spec type URTCLIB_ALARM_TYPE_2_NONE) as [E | _];
    [rewrite E in Hbit; discriminate Hbit |].
  rewrite Hbit. cbn [Z.eqb].
  destruct s as [r [c p tx rx lg]]. reflexivity.
Qed.

Lemma alarmSet_alarm2_aux type second minute hour day_dow s :
  type <> URTCLIB_ALARM_TYPE_2_NONE -> Z.land type 128 = 128 ->
  fst (alarmSet type second minute hour day_dow s) = true.
Proof.
  intros Hnone Hbit. unfold alarmSet.
  destruct (Z.eqb_spec type URTCLIB_ALARM_TYPE_1_NONE) as [E | _];
    [rewrite E in Hbit; discriminate Hbit |].
  destruct (Z.eqb_spec type URTCLIB_ALARM_TYPE_2_NONE) as [| _]; [contradiction |].
  rewrite Hbit. cbn [Z.eqb Pos.eqb].
  destruct s as [r [c p tx rx lg]]. reflexivity.
Qed.

(** X14. The same for alarm 2 (type with bit 7 set, not
    [URTCLIB_ALARM_TYPE_2_NONE]): the alarm-2 accessors give back type,
    minute, hour and day; [alarmSecond(URTCLIB_ALARM_2)] is 0 whatever
    second was passed; [sqwgMode()] is [URTCLIB_SQWG_OFF_1]; the alarm-1
    mirror is as before; the control byte is the one read with INTCN and
    A2IE set ([| 0b00000110]). *)
Theorem alarmSet_alarm2 (type second minute hour day_dow : Z) (s : State) :
  type <> URTCLIB_ALARM_TYPE_2_NONE -> Z.land type 128 = 128 ->
  let s' := snd (alarmSet type second minute hour day_dow s) in
  fst (alarmSet type second minute hour day_dow s) = true
  /\ fst (alarmMode URTCLIB_ALARM_2 s') = type
  /\ fst (alarmSecond URTCLIB_ALARM_2 s') = 0
  /\ fst (alarmMinute URTCLIB_ALARM_2 s') = minute
  /\ fst (alarmHour URTCLIB_ALARM_2 s') = hour
  /\ fst (alarmDayDow URTCLIB_ALARM_2 s') = day_dow
  /\ fst (sqwgMode s') = URTCLIB_SQWG_OFF_1
  /\ fst (alarmMode URTCLIB_ALARM_1 s') = fst (alarmMode URTCLIB_ALARM_1 s)
  /\ fst (alarmSecond URTCLIB_ALARM_1 s') = fst (alarmSecond URTCLIB_ALARM_1 s)
  /\ fst (alarmMinute URTCLIB_ALARM_1 s') = fst (alarmMinute URTCLIB_ALARM_1 s)
  /\ fst (alarmHour URTCLIB_ALARM_1 s') = fst (alarmHour URTCLIB_ALARM_1 s)
  /\ fst (alarmDayDow URTCLIB_ALARM_1 s') = fst (alarmDayDow URTCLIB_ALARM_1 s)
  /\ control_byte s' = Z.lor (u8 (control_byte s)) 6.
Proof.
  intros Hnone Hbit. cbn zeta. unfold alarmSet.
  destruct (Z.eqb_spec type URTCLIB_ALARM_TYPE_1_NONE) as [E | _];
    [rewrite E in Hbit; discriminate Hbit |].
  destruct (Z.eqb_spec type URTCLIB_ALARM_TYPE_2_NONE) as [| _]; [contradiction |].
  rewrite Hbit. cbn [Z.eqb Pos.eqb].
  destruct s as [r [c p tx rx lg]]. unfold control_byte.
  cbn -[u8 Z.land Z.lor Z.shiftl bin2bcd Z.add].
  fold_u8. cbn -[u8 Z.land Z.lor Z.shiftl bin2bcd].
  rewrite !(u8_small (u8 _)) by apply u8_range.
  rewrite lor_byte by (try apply u8_range; lia).
  repeat split; reflexivity.
Qed.

Lemma alarmSet_alarm2_witness :
  fst (alarmSet URTCLIB_ALARM_TYPE_2_FIXED_M 5 10 0 0 (power_on clock_regs)) = true
  /\ fst (alarmSecond URTCLIB_ALARM_2
            (snd (alarmSet URTCLIB_ALARM_TYPE_2_FIXED_M 5 10 0 0 (power_on clock_regs))))
     = 0.
Proof.
  pose proof (alarmSet_alarm2 URTCLIB_ALARM_TYPE_2_FIXED_M 5 10 0 0 (power_on clock_regs)
                ltac:(discriminate) ltac:(reflexivity)) as H.
  cbn zeta in H. destruct H as (H1 & _ & H3 & _). split; [exact H1 | exact H3].
Defined.

(** Bit 7 of a byte is worth 0 or 128. *)
Lemma land_128_cases x : 0 <= x < 256 -> Z.land x 128 = 0 \/ Z.land x 128 = 128.
Proof.
  intros Hx.
  pose proof (for_all_bytes_spec
                (fun x => (Z.land x 128 =? 0) || (Z.land x 128 =? 128))
                ltac:(vm_compute; reflexivity) x Hx) as H.
  cbn beta in H. apply orb_true_iff in H. rewrite !Z.eqb_eq in H. exact H.
Qed.

(** X15. [alarmSet] turns no type byte down: for every [type] in 0..255,
    a value of the header or not, and any time fields, it answers true.
    A byte that is not one of the two NONE values is taken as an alarm-1
    type when its bit 7 is clear and as an alarm-2 type when it is set. *)
Theorem alarmSet_accepts_every_type (type second minute hour day_dow : Z) (s : State) :
  0 <= type < 256 ->
  fst (alarmSet type second minute hour day_dow s) = true.
Proof.
  intros Ht.
  destruct (Z.eq_dec type URTCLIB_ALARM_TYPE_1_NONE) as [-> | N1].
  { destruct s as [r [c p tx rx lg]]. reflexivity. }
  destruct (Z.eq_dec type URTCLIB_ALARM_TYPE_2_NONE) as [-> | N2].
  { destruct s as [r [c p tx rx lg]]. reflexivity. }
  destruct (land_128_cases type Ht) as [H0 | H128].
  - apply (alarmSet_alarm1_aux type second minute hour day_dow s N1 H0).
  - apply (alarmSet_alarm2_aux type second minute hour day_dow s N2 H128).
Qed.

Lemma alarmSet_accepts_every_type_witness :
  fst (alarmSet 0x41 0 0 0 0 (power_on clock_regs)) = true.
Proof. apply alarmSet_accepts_every_type. lia. Defined.

Lemma for_all_bytes2_spec (P : Z -> Z -> bool) :
  for_all_bytes (fun b => for_all_bytes (P b)) = true ->
  forall b t, 0 <= b < 256 -> 0 <= t < 256 -> P b t = true.
Proof.
  intros H b t Hb Ht.
  apply (for_all_bytes_spec (P b)); [| exact Ht].
  exact (for_all_bytes_spec (fun b => for_all_bytes (P b)) H b Hb).
Qed.

(** The bytes [alarmSet] writes: the BCD value under its mask, and the mode
    bits of [type] moved to bit 7 (and bit 6 for DY/DT). *)
Lemma alarm_byte_m1 b t : 0 <= b < 256 -> 0 <= t < 256 ->
  let w := u8 (Z.lor (Z.land b 127) (Z.shiftl (Z.land t 1) 7)) in
  Z.land w 127 = Z.land b 127 /\ Z.testbit w 7 = Z.testbit t 0.
Proof.
  intros Hb Ht. cbn zeta.
  pose proof (for_all_bytes2_spec
    (fun b t => let w := u8 (Z.lor (Z.land b 127) (Z.shiftl (Z.land t 1) 7)) in
                (Z.land w 127 =? Z.land b 127) && Bool.eqb (Z.testbit w 7) (Z.testbit t 0))
    ltac:(vm_compute; reflexivity) b t Hb Ht) as H.
  cbn zeta in H. apply andb_true_iff in H. destruct H as [H1 H2].
  split; [apply Z.eqb_eq, H1 | apply Bool.eqb_prop, H2].
Qed.

Lemma alarm_byte_m2 b t : 0 <= b < 256 -> 0 <= t < 256 ->
  let w := u8 (Z.lor (Z.land b 127) (Z.shiftl (Z.land t 2) 6)) in
  Z.land w 127 = Z.land b 127 /\ Z.testbit w 7 = Z.testbit t 1.
Proof.
  intros Hb Ht. cbn zeta.
  pose proof (for_all_bytes2_spec
    (fun b t => let w := u8 (Z.lor (Z.land b 127) (Z.shiftl (Z.land t 2) 6)) in
                (Z.land w 127 =? Z.land b 127) && Bool.eqb (Z.testbit w 7) (Z.testbit t 1))
    ltac:(vm_compute; reflexivity) b t Hb Ht) as H.
  cbn zeta in H. apply andb_true_iff in H. destruct H as [H1 H2].
  split; [apply Z.eqb_eq, H1 | apply Bool.eqb_prop, H2].
Qed.

Lemma alarm_byte_m3 b t : 0 <= b < 256 -> 0 <= t < 256 ->
  let w := u8 (Z.lor (Z.land b 63) (Z.shiftl (Z.land t 4) 5)) in
  Z.land w 63 = Z.land b 63 /\ Z.testbit w 7 = Z.testbit t 2
  /\ Z.testbit w 6 = false.
Proof.
  intros Hb Ht. cbn zeta.
  pose proof (for_all_bytes2_spec
    (fun b t => let w := u8 (Z.lor (Z.land b 63) (Z.shiftl (Z.land t 4) 5)) in
                (Z.land w 63 =? Z.land b 63) && Bool.eqb (Z.testbit w 7) (Z.testbit t 2)
                && negb (Z.testbit w 6))
    ltac:(vm_compute; reflexivity) b t Hb Ht) as H.
  cbn zeta in H. rewrite !andb_true_iff in H. destruct H as [[H1 H2] H3].
  split; [apply Z.eqb_eq, H1 | split; [apply Bool.eqb_prop, H2 |]].
  apply negb_true_iff, H3.
Qed.

Lemma alarm_byte_m4 b t : 0 <= b < 256 -> 0 <= t < 256 ->
  let w := u8 (Z.lor (Z.lor (Z.land b 63) (Z.shiftl (Z.land t 8) 4))
                     (Z.shiftl (Z.land t 16) 2)) in
  Z.land w 63 = Z.land b 63 /\ Z.testbit w 7 = Z.testbit t 3
  /\ Z.testbit w 6 = Z.testbit t 4.
Proof.
  intros Hb Ht. cbn zeta.
  pose proof (for_all_bytes2_spec
    (fun b t => let w := u8 (Z.lor (Z.lor (Z.land b 63) (Z.shiftl (Z.land t 8) 4))
                                   (Z.shiftl (Z.land t 16) 2)) in
                (Z.land w 63 =? Z.land b 63) && Bool.eqb (Z.testbit w 7) (Z.testbit t 3)
                && Bool.eqb (Z.testbit w 6) (Z.testbit t 4))
    ltac:(vm_compute; reflexivity) b t Hb Ht) as H.
  cbn zeta in H. rewrite !andb_true_iff in H. destruct H as [[H1 H2] H3].
  split; [apply Z.eqb_eq, H1 | split; apply Bool.eqb_prop; assumption].
Qed.

(** The BCD code of a field that fits under a register mask. *)
Lemma bcd_under_mask v k : 0 <= v <= 99 -> bin2bcd v < 2 ^ k -> 0 <= k ->
  bcd2bin (Z.land (bin2bcd v) (Z.ones k)) = v.
Proof.
  intros Hv Hlt Hk. rewrite Z.land_ones by exact Hk.
  rewrite Z.mod_small.
  - apply bcd2bin_bin2bcd. exact Hv.
  - split; [apply u8_range | exact Hlt].
Qed.

Lemma bin2bcd_form v : 0 <= v <= 99 -> bin2bcd v = 16 * (v / 10) + v mod 10.
Proof.
  intros Hv.
  pose proof (Z.div_mod v 10 ltac:(lia)) as E.
  pose proof (Z.mod_pos_bound v 10 ltac:(lia)) as B.
  rewrite E at 1. apply bin2bcd_digits; lia.
Qed.

Lemma bin2bcd_le v n : 0 <= v <= n -> n <= 99 -> 0 <= bin2bcd v <= bin2bcd n.
Proof.
  intros Hv Hn.
  pose proof (Z.div_mod v 10 ltac:(lia)) as E.
  pose proof (Z.mod_pos_bound v 10 ltac:(lia)) as B.
  pose proof (Z.div_mod n 10 ltac:(lia)) as En.
  pose proof (Z.mod_pos_bound n 10 ltac:(lia)) as Bn.
  pose proof (Z.div_le_mono v n 10 ltac:(lia) ltac:(lia)) as Hq.
  rewrite (bin2bcd_form v), (bin2bcd_form n) by lia. lia.
Qed.

(** X16. The alarm-1 registers after [alarmSet]: for an armed alarm-1 type
    and a time in range (second and minute up to 59, hour up to 23, day up
    to 31), registers 07h..0Ah hold the fields in BCD under the masks
    7Fh, 7Fh, 3Fh, 3Fh, so that [bcd2bin] of the masked bytes gives the
    fields back, and the mode bits of [type] sit where the chip reads
    them: bit 0 of [type] in bit 7 of the seconds byte, bit 1 in bit 7 of
    the minutes byte, bit 2 in bit 7 of the hours byte, bit 3 in bit 7 and
    bit 4 (DY/DT) in bit 6 of the day byte. *)
Theorem alarmSet_alarm1_registers (type second minute hour day_dow : Z) (s : State) :
  0 <= type < 256 ->
  type <> URTCLIB_ALARM_TYPE_1_NONE -> Z.land type 128 = 0 ->
  0 <= second <= 59 -> 0 <= minute <= 59 -> 0 <= hour <= 23 -> 0 <= day_dow <= 31 ->
  let regs := chip (wire (snd (alarmSet type second minute hour day_dow s))) in
  bcd2bin (Z.land (regs 0x07) 0x7F) = second
  /\ bcd2bin (Z.land (regs 0x08) 0x7F) = minute
  /\ bcd2bin (Z.land (regs 0x09) 0x3F) = hour
  /\ bcd2bin (Z.land (regs 0x0A) 0x3F) = day_dow
  /\ Z.testbit (regs 0x07) 7 = Z.testbit type 0
  /\ Z.testbit (regs 0x08) 7 = Z.testbit type 1
  /\ Z.testbit (regs 0x09) 7 = Z.testbit type 2
  /\ Z.testbit (regs 0x0A) 7 = Z.testbit type 3
  /\ Z.testbit (regs 0x0A) 6 = Z.testbit type 4.
Proof.
  intros Ht Hnone Hbit Hs Hm Hh Hd. cbn zeta. unfold alarmSet.
  destruct (Z.eqb_spec type URTCLIB_ALARM_TYPE_1_NONE) as [| _]; [contradiction |].
  destruct (Z.eqb_spec type URTCLIB_ALARM_TYPE_2_NONE) as [E | _];
    [rewrite E in Hbit; discriminate Hbit |].
  rewrite Hbit. cbn [Z.eqb].
  destruct s as [r [c p tx rx lg]].
  cbn -[u8 Z.land Z.lor Z.shiftl bin2bcd bcd2bin Z.add Z.testbit].
  fold_u8. cbn -[u8 Z.land Z.lor Z.shiftl bin2bcd bcd2bin Z.testbit].
  pose proof (bin2bcd_le second 59 ltac:(lia) ltac:(lia)) as Bs.
  pose proof (bin2bcd_le minute 59 ltac:(lia) ltac:(lia)) as Bm.
  pose proof (bin2bcd_le hour 23 ltac:(lia) ltac:(lia)) as Bh.
  pose proof (bin2bcd_le day_dow 31 ltac:(lia) ltac:(lia)) as Bd.
  change (bin2bcd 59) with 89 in *. change (bin2bcd 23) with 35 in *.
  change (bin2bcd 31) with 49 in *.
  destruct (alarm_byte_m1 (bin2bcd second) type ltac:(lia) Ht) as (M1 & T1).
  destruct (alarm_byte_m2 (bin2bcd minute) type ltac:(lia) Ht) as (M2 & T2).
  destruct (alarm_byte_m3 (bin2bcd hour) type ltac:(lia) Ht) as (M3 & T3 & _).
  destruct (alarm_byte_m4 (bin2bcd day_dow) type ltac:(lia) Ht) as (M4 & T4 & T5).
  cbn zeta in *.
  rewrite M1, M2, M3, M4, T1, T2, T3, T4, T5.
  change 127 with (Z.ones 7). change 63 with (Z.ones 6).
  rewrite !bcd_under_mask by (try lia; cbn; lia).
  repeat split; reflexivity.
Qed.

Lemma alarmSet_alarm1_registers_witness :
  bcd2bin (Z.land (chip (wire (snd (alarmSet URTCLIB_ALARM_TYPE_1_FIXED_DOWHMS 30 45 13 5
                                      (power_on clock_regs)))) 0x0A) 0x3F) = 5
  /\ Z.testbit (chip (wire (snd (alarmSet URTCLIB_ALARM_TYPE_1_FIXED_DOWHMS 30 45 13 5
                                      (power_on clock_regs)))) 0x0A) 6
     = Z.testbit URTCLIB_ALARM_TYPE_1_FIXED_DOWHMS 4.
Proof.
  pose proof (alarmSet_alarm1_registers URTCLIB_ALARM_TYPE_1_FIXED_DOWHMS 30 45 13 5
                (power_on clock_regs)
                ltac:(unfold URTCLIB_ALARM_TYPE_1_FIXED_DOWHMS; lia)
                ltac:(discriminate) ltac:(reflexivity)
                ltac:(lia) ltac:(lia) ltac:(lia) ltac:(lia)) as H.
  cbn zeta in H. destruct H as (_ & _ & _ & H4 & _ & _ & _ & _ & H9).
  split; [exact H4 | exact H9].
Defined.

(** X17. The alarm-2 registers after [alarmSet]: for an armed alarm-2 type
    and minute up to 59, hour up to 23, day up to 31, registers 0Bh..0Dh
    hold minute, hour and day in BCD under the masks 7Fh, 3Fh, 3Fh, with
    bit 1 of [type] in bit 7 of the minutes byte, bit 2 in bit 7 of the
    hours byte, bit 3 in bit 7 and bit 4 (DY/DT) in bit 6 of the day byte;
    the alarm-1 registers 07h..0Ah are not written. *)
Theorem alarmSet_alarm2_registers (type second minute hour day_dow : Z) (s : State) :
  0 <= type < 256 ->
  type <> URTCLIB_ALARM_TYPE_2_NONE -> Z.land type 128 = 128 ->
  0 <= minute <= 59 -> 0 <= hour <= 23 -> 0 <= day_dow <= 31 ->
  let regs := chip (wire (snd (alarmSet type second minute hour day_dow s))) in
  bcd2bin (Z.land (regs 0x0B) 0x7F) = minute
  /\ bcd2bin (Z.land (regs 0x0C) 0x3F) = hour
  /\ bcd2bin (Z.land (regs 0x0D) 0x3F) = day_dow
  /\ Z.testbit (regs 0x0B) 7 = Z.testbit type 1
  /\ Z.testbit (regs 0x0C) 7 = Z.testbit type 2
  /\ Z.testbit (regs 0x0D) 7 = Z.testbit type 3
  /\ Z.testbit (regs 0x0D) 6 = Z.testbit type 4
  /\ regs 0x07 = chip (wire s) 0x07 /\ regs 0x08 = chip (wire s) 0x08
  /\ regs 0x09 = chip (wire s) 0x09 /\ regs 0x0A = chip (wire s) 0x0A.
Proof.
  intros Ht Hnone Hbit Hm Hh Hd. cbn zeta. unfold alarmSet.
  destruct (Z.eqb_spec type URTCLIB_ALARM_TYPE_1_NONE) as [E | _];
    [rewrite E in Hbit; discriminate Hbit |].
  destruct (Z.eqb_spec type URTCLIB_ALARM_TYPE_2_NONE) as [| _]; [contradiction |].
  rewrite Hbit. cbn [Z.eqb Pos.eqb].
  destruct s as [r [c p tx rx lg]].
  cbn -[u8 Z.land Z.lor Z.shiftl bin2bcd bcd2bin Z.add Z.testbit].
  fold_u8. cbn -[u8 Z.land Z.lor Z.shiftl bin2bcd bcd2bin Z.testbit].
  pose proof (bin2bcd_le minute 59 ltac:(lia) ltac:(lia)) as Bm.
  pose proof (bin2bcd_le hour 23 ltac:(lia) ltac:(lia)) as Bh.
  pose proof (bin2bcd_le day_dow 31 ltac:(lia) ltac:(lia)) as Bd.
  change (bin2bcd 59) with 89 in *. change (bin2bcd 23) with 35 in *.
  change (bin2bcd 31) with 49 in *.
  destruct (alarm_byte_m2 (bin2bcd minute) type ltac:(lia) Ht) as (M2 & T2).
  destruct (alarm_byte_m3 (bin2bcd hour) type ltac:(lia) Ht) as (M3 & T3 & _).
  destruct (alarm_byte_m4 (bin2bcd day_dow) type ltac:(lia) Ht) as (M4 & T4 & T5).
  cbn zeta in *.
  rewrite M2, M3, M4, T2, T3, T4, T5.
  change 127 with (Z.ones 7). change 63 with (Z.ones 6).
  rewrite !bcd_under_mask by (try lia; cbn; lia).
  repeat split; reflexivity.
Qed.

Lemma alarmSet_alarm2_registers_witness :
  bcd2bin (Z.land (chip (wire (snd (alarmSet URTCLIB_ALARM_TYPE_2_FIXED_DHM 0 45 13 28
                                      (power_on clock_regs)))) 0x0D) 0x3F) = 28.
Proof.
  pose proof (alarmSet_alarm2_registers URTCLIB_ALARM_TYPE_2_FIXED_DHM 0 45 13 28
                (power_on clock_regs)
                ltac:(unfold URTCLIB_ALARM_TYPE_2_FIXED_DHM; lia)
                ltac:(discriminate) ltac:(reflexivity)
                ltac:(lia) ltac:(lia) ltac:(lia)) as H.
  cbn zeta in H. destruct H as (_ & _ & H3 & _). exact H3.
Defined.

(** X18. Disabling through [alarmSet]: with [URTCLIB_ALARM_TYPE_1_NONE]
    the call clears bit 0 of the control byte and resets the alarm-1 mode
    in the mirror; with [URTCLIB_ALARM_TYPE_2_NONE] it clears bit 1 and
    resets the alarm-2 mode. In both cases every other bit of the control
    byte is written back as read, and the rest of the mirror (the stored
    alarm times, the other alarm's mode, the wave mode) stays. *)
Theorem alarmSet_none (second minute hour day_dow : Z) (s : State) :
  let s1 := snd (alarmSet URTCLIB_ALARM_TYPE_1_NONE second minute hour day_dow s) in
  let s2 := snd (alarmSet URTCLIB_ALARM_TYPE_2_NONE second minute hour day_dow s) in
  fst (alarmSet URTCLIB_ALARM_TYPE_1_NONE second minute hour day_dow s) = true
  /\ control_byte s1 = Z.land (u8 (control_byte s)) 254
  /\ rtc s1 = set_a1_mode URTCLIB_ALARM_TYPE_1_NONE (rtc s)
  /\ fst (alarmSet URTCLIB_ALARM_TYPE_2_NONE second minute hour day_dow s) = true
  /\ control_byte s2 = Z.land (u8 (control_byte s)) 253
  /\ rtc s2 = set_a2_mode URTCLIB_ALARM_TYPE_2_NONE (rtc s).
Proof.
  destruct s as [r [c p tx rx lg]]. unfold control_byte. cbn.
  rewrite !(u8_small (u8 _)) by apply u8_range.
  rewrite !land_byte by apply u8_range.
  repeat split; reflexivity.
Qed.

(** X19. An alarm selector other than [URTCLIB_ALARM_1] and
    [URTCLIB_ALARM_2]: [alarmDisable] and [alarmClearFlag] answer false
    and leave chip, bus and mirror as they were; the five alarm accessors
    answer 0xFF. *)
Theorem alarm_selector_unknown (alarm : Z) (s : State) :
  alarm <> URTCLIB_ALARM_1 -> alarm <> URTCLIB_ALARM_2 ->
  alarmDisable alarm s = (false, s)
  /\ alarmClearFlag alarm s = (false, s)
  /\ alarmMode alarm s = (255, s)
  /\ alarmSecond alarm s = (255, s)
  /\ alarmMinute alarm s = (255, s)
  /\ alarmHour alarm s = (255, s)
  /\ alarmDayDow alarm s = (255, s).
Proof.
  intros H1 H2.
  unfold alarmDisable, alarmClearFlag, alarm_mask, alarmMode, alarmSecond,
    alarmMinute, alarmHour, alarmDayDow, bind, get_rtc.
  destruct (Z.eqb_spec alarm URTCLIB_ALARM_1); [contradiction |].
  destruct (Z.eqb_spec alarm URTCLIB_ALARM_2); [contradiction |].
  repeat split; reflexivity.
Qed.

Lemma alarm_selector_unknown_witness :
  alarmDisable 1 armed_both = (false, armed_both)
  /\ alarmMode 1 armed_both = (255, armed_both).
Proof.
  pose proof (alarm_selector_unknown 1 armed_both ltac:(discriminate) ltac:(discriminate))
    as (H1 & _ & H3 & _).
  split; [exact H1 | exact H3].
Defined.

(** What [lostPower()] answers, read off the chip. *)
Lemma lostPower_bit s : fst (lostPower s) = Z.testbit (u8 (status_byte s)) 7.
Proof.
  destruct s as [r [c p tx rx lg]]. unfold status_byte.
  cbn -[u8 Z.land Z.testbit Z.eqb]. fold_u8.
  rewrite !(u8_small (u8 _)) by apply u8_range.
  apply land_128_testbit. apply u8_range.
Qed.

(** The chip and the mirror after [alarmClearFlag]. *)
Lemma alarmClearFlag_chip alarm s :
  alarm = URTCLIB_ALARM_1 \/ alarm = URTCLIB_ALARM_2 ->
  chip (wire (snd (alarmClearFlag alarm s)))
  = store (chip (wire s)) 15 (Z.land (u8 (status_byte s)) (alarm_mask alarm))
  /\ rtc (snd (alarmClearFlag alarm s)) = rtc s.
Proof.
  intros Ha.
  assert (Hm : negb (alarm_mask alarm =? 0) = true)
    by (destruct Ha; subst; reflexivity).
  unfold alarmClearFlag. rewrite Hm. unfold status_byte.
  pose proof (update_register_spec 15 (fun status => Z.land status (alarm_mask alarm)) s
                ltac:(lia)) as Hu.
  cbn zeta in Hu. destruct Hu as (Hc & Hr & _).
  unfold bind.
  destruct (update_register 15 (fun status => Z.land status (alarm_mask alarm)) s)
    as [u s1] eqn:E.
  unfold ret. cbn [snd fst] in *. rewrite Hc, Hr.
  rewrite land_byte by apply u8_range. split; reflexivity.
Qed.

Lemma clear_bit_spec x k n : 0 <= x < 256 -> k = 0 \/ k = 1 ->
  Z.testbit (Z.land x (255 - 2 ^ k)) n = if n =? k then false else Z.testbit x n.
Proof.
  intros Hx Hk. rewrite Z.land_spec.
  destruct (Z.eqb_spec n k) as [-> | Hn].
  - destruct Hk as [-> | ->]; apply andb_false_r.
  - destruct (Z_lt_ge_dec n 0) as [Hneg | Hpos];
      [rewrite !Z.testbit_neg_r by lia; reflexivity |].
    destruct (Z_lt_ge_dec n 8) as [Hlt | Hge].
    + assert (C : n = 0 \/ n = 1 \/ n = 2 \/ n = 3 \/ n = 4 \/ n = 5 \/ n = 6 \/ n = 7)
        by lia.
      destruct Hk as [-> | ->];
        repeat (destruct C as [C | C]); subst; try lia; apply andb_true_r.
    + replace (Z.testbit x n) with false; [reflexivity |].
      symmetry. rewrite <- (u8_small x Hx). unfold u8. change 256 with (2 ^ 8).
      apply Z.mod_pow2_bits_high. lia.
Qed.

(** X20. [alarmClearFlag] clears one flag and nothing else: for either
    alarm the status byte written back is the one read with the alarm's own
    flag bit cleared (bit 0 for alarm 1, bit 1 for alarm 2); the other
    alarm's flag and the lost-power bit keep their values, so [lostPower()]
    answers as before; the control register and the mirror are not
    touched. *)
Theorem alarmClearFlag_frame (s : State) :
  let s1 := snd (alarmClearFlag URTCLIB_ALARM_1 s) in
  let s2 := snd (alarmClearFlag URTCLIB_ALARM_2 s) in
  (forall n, Z.testbit (status_byte s1) n
             = if n =? 0 then false else Z.testbit (u8 (status_byte s)) n)
  /\ (forall n, Z.testbit (status_byte s2) n
                = if n =? 1 then false else Z.testbit (u8 (status_byte s)) n)
  /\ fst (lostPower s1) = fst (lostPower s)
  /\ fst (lostPower s2) = fst (lostPower s)
  /\ control_byte s1 = control_byte s /\ control_byte s2 = control_byte s
  /\ rtc s1 = rtc s /\ rtc s2 = rtc s.
Proof.
  cbn zeta.
  destruct (alarmClearFlag_chip URTCLIB_ALARM_1 s (or_introl eq_refl)) as (C1 & R1).
  destruct (alarmClearFlag_chip URTCLIB_ALARM_2 s (or_intror eq_refl)) as (C2 & R2).
  pose proof (u8_range (status_byte s)) as Hb.
  assert (S1 : status_byte (snd (alarmClearFlag URTCLIB_ALARM_1 s))
               = Z.land (u8 (status_byte s)) (255 - 2 ^ 0))
    by (unfold status_byte at 1; rewrite C1; reflexivity).
  assert (S2 : status_byte (snd (alarmClearFlag URTCLIB_ALARM_2 s))
               = Z.land (u8 (status_byte s)) (255 - 2 ^ 1))
    by (unfold status_byte at 1; rewrite C2; reflexivity).
  assert (B1 : 0 <= Z.land (u8 (status_byte s)) (255 - 2 ^ 0) < 256)
    by (rewrite <- (land_byte _ (255 - 2 ^ 0) Hb); apply u8_range).
  assert (B2 : 0 <= Z.land (u8 (status_byte s)) (255 - 2 ^ 1) < 256)
    by (rewrite <- (land_byte _ (255 - 2 ^ 1) Hb); apply u8_range).
  rewrite !lostPower_bit, S1, S2.
  rewrite (u8_small _ B1), (u8_small _ B2).
  split; [intros n; apply clear_bit_spec; auto |].
  split; [intros n; apply clear_bit_spec; auto |].
  rewrite !clear_bit_spec by auto. cbn [Z.eqb].
  unfold control_byte. rewrite C1, C2, R1, R2.
  repeat split; reflexivity.
Qed.

(** The control byte [sqwgSetMode] writes for a wave mode, for every byte
    read: RS2..INTCN (mask 1Ch) become the mode constant, the rest stays. *)
Lemma sqwg_control_byte mode c :
  In mode wave_modes -> 0 <= c < 256 ->
  let w := u8 (Z.lor (Z.land c (fst (sqwg_masks mode))) (snd (sqwg_masks mode))) in
  Z.land w 0x1C = mode /\ Z.land w 0xE3 = Z.land c 0xE3.
Proof.
  intros Hm Hc. cbn zeta.
  assert (H : forallb (fun mode => for_all_bytes (fun c =>
              let w := u8 (Z.lor (Z.land c (fst (sqwg_masks mode))) (snd (sqwg_masks mode))) in
              (Z.land w 0x1C =? mode) && (Z.land w 0xE3 =? Z.land c 0xE3))) wave_modes = true)
    by (vm_compute; reflexivity).
  rewrite forallb_forall in H. specialize (H mode Hm).
  pose proof (for_all_bytes_spec _ H c Hc) as B. cbn zeta in B.
  apply andb_true_iff in B. rewrite !Z.eqb_eq in B. exact B.
Qed.

(** X21. [sqwgSetMode] with a wave mode (1 Hz, 1024 Hz, 4096 Hz, 8192 Hz)
    answers true and rewrites the control byte so that the field RS2, RS1,
    INTCN (mask 0b00011100) equals the mode constant, which selects the
    rate and clears INTCN, while every other bit, the two alarm enable
    bits among them, is written back as read; [sqwgMode()] answers the
    mode afterwards. With [URTCLIB_SQWG_OFF_1] the byte written is the one
    read with INTCN set and [sqwgMode()] answers [URTCLIB_SQWG_OFF_1]. *)
Theorem sqwgSetMode_control (mode : Z) (s : State) :
  In mode wave_modes ->
  let s' := snd (sqwgSetMode mode s) in
  let s0 := snd (sqwgSetMode URTCLIB_SQWG_OFF_1 s) in
  fst (sqwgSetMode mode s) = true
  /\ Z.land (control_byte s') 0x1C = mode
  /\ Z.land (control_byte s') 0xE3 = Z.land (u8 (control_byte s)) 0xE3
  /\ fst (sqwgMode s') = mode
  /\ fst (sqwgSetMode URTCLIB_SQWG_OFF_1 s) = true
  /\ control_byte s0 = Z.lor (u8 (control_byte s)) 4
  /\ fst (sqwgMode s0) = URTCLIB_SQWG_OFF_1.
Proof.
  intros Hm. cbn zeta.
  pose proof (sqwg_control_byte mode (u8 (control_byte s)) Hm (u8_range _)) as Hb.
  cbn zeta in Hb.
  destruct s as [r [c p tx rx lg]]. unfold control_byte in *. cbn [chip wire] in Hb.
  unfold wave_modes in Hm. cbn [In] in Hm.
  destruct Hm as [<- | [<- | [<- | [<- | []]]]];
    cbn -[u8 Z.land Z.lor] in *; fold_u8;
    repeat rewrite (u8_small (u8 _)) by apply u8_range;
    unfold store; cbn [Z.eqb Pos.eqb];
    rewrite <- (u8_land_ones (u8 (c 14))), (u8_small (u8 _)) by apply u8_range;
    rewrite (lor_byte (u8 (c 14)) 4) by (try apply u8_range; lia);
    destruct Hb as [Hb1 Hb2]; rewrite Hb1, Hb2; repeat split; reflexivity.
Qed.

Lemma sqwgSetMode_control_witness :
  Z.land (control_byte (snd (sqwgSetMode URTCLIB_SQWG_1024H armed_both))) 0x1C
  = URTCLIB_SQWG_1024H.
Proof.
  pose proof (sqwgSetMode_control URTCLIB_SQWG_1024H armed_both) as H.
  cbn zeta in H. destruct H as (_ & H2 & _).
  - unfold wave_modes. cbn [In]. right. left. reflexivity.
  - exact H2.
Defined.




(* ===================================================================== *)
(** ** [toString] rewrites token letters only *)
(* ===================================================================== *)

Lemma rd_nth_error b i x : rd b i = Done x -> 0 <= i /\ nth_error b (Z.to_nat i) = Some x.
Proof.
  unfold rd. destruct (Z.ltb_spec i 0); [discriminate |].
  destruct (nth_error b (Z.to_nat i)); [| discriminate].
  intros [= ->]. split; [lia | reflexivity].
Qed.

Lemma nonplain_of_token b0 b i x :
  plain_kept b0 b -> rd b i = Done x -> is_token x = true -> nonplain b0 i.
Proof.
  intros Hk Hr Ht c Hc. destruct (is_token c) eqn:E; [reflexivity |].
  apply rd_nth_error in Hr. destruct Hr as [_ Hr].
  rewrite (Hk _ _ Hc E) in Hr. injection Hr as ->. congruence.
Qed.

Lemma wr_plain b0 b i v b' :
  plain_kept b0 b -> nonplain b0 i -> wr b i v = Done b' -> plain_kept b0 b'.
Proof.
  intros Hk Hn Hw j c Hc Hp. unfold wr in Hw.
  destruct ((i <? 0) || (Z.of_nat (List.length b) <=? i)) eqn:E; [discriminate |].
  injection Hw as <-. apply orb_false_iff in E. destruct E as [E1 E2].
  apply Z.ltb_ge in E1. apply Z.leb_gt in E2.
  rewrite nth_error_poke by lia.
  destruct (Nat.eqb_spec j (Z.to_nat i)) as [-> | Hne].
  - rewrite (Hn c Hc) in Hp. discriminate.
  - apply Hk; assumption.
Qed.

Lemma is_at_true b i ch : is_at b i ch = Done true -> rd b i = Done (chr ch).
Proof.
  unfold is_at. destruct (rd b i) as [x | | |]; cbn [run_bind]; try discriminate.
  intros [= E]. apply Z.eqb_eq in E. subst. reflexivity.
Qed.

Lemma and_then_true a b : and_then a b = Done true -> a = Done true /\ b = Done true.
Proof.
  unfold and_then. destruct a as [[|] | | |]; cbn [run_bind]; try discriminate.
  intros ->. split; reflexivity.
Qed.

Lemma two_at_true b i ch : two_at b i ch = Done true ->
  rd b i = Done (chr ch) /\ rd b (i + 1) = Done (chr ch).
Proof.
  intros H. apply and_then_true in H. destruct H as [H1 H2].
  split; apply is_at_true; assumption.
Qed.

Lemma three_at_true b i ch : three_at b i ch = Done true ->
  rd b i = Done (chr ch) /\ rd b (i + 1) = Done (chr ch)
  /\ rd b (i + 2) = Done (chr ch).
Proof.
  intros H. apply and_then_true in H. destruct H as [H1 H2].
  apply two_at_true in H1. apply is_at_true in H2. tauto.
Qed.

Lemma four_at_true b i ch : four_at b i ch = Done true ->
  rd b i = Done (chr ch) /\ rd b (i + 1) = Done (chr ch)
  /\ rd b (i + 2) = Done (chr ch) /\ rd b (i + 3) = Done (chr ch).
Proof.
  intros H. apply and_then_true in H. destruct H as [H1 H2].
  apply three_at_true in H1. apply is_at_true in H2. tauto.
Qed.

Lemma put_2d_plain b0 b i v b' :
  plain_kept b0 b -> nonplain b0 i -> nonplain b0 (i + 1) ->
  put_2d b i v = Done b' -> plain_kept b0 b'.
Proof.
  intros Hk N0 N1. unfold put_2d.
  destruct (wr b i (chr "0" + v / 10)) as [b1 | | |] eqn:W; cbn [run_bind]; try discriminate.
  intros W2. eapply wr_plain; [| exact N1 | exact W2].
  eapply wr_plain; [exact Hk | exact N0 | exact W].
Qed.

Lemma put_name_plain b0 b i table p b' :
  plain_kept b0 b -> nonplain b0 i -> nonplain b0 (i + 1) -> nonplain b0 (i + 2) ->
  put_name b i table p = Done b' -> plain_kept b0 b'.
Proof.
  intros Hk N0 N1 N2. unfold put_name.
  destruct (rd_table table p) as [c0 | | |]; cbn [run_bind]; try discriminate.
  destruct (wr b i c0) as [b1 | | |] eqn:W0; cbn [run_bind]; try discriminate.
  destruct (rd_table table (p + 1)) as [c1 | | |]; cbn [run_bind]; try discriminate.
  destruct (wr b1 (i + 1) c1) as [b2 | | |] eqn:W1; cbn [run_bind]; try discriminate.
  destruct (rd_table table (p + 2)) as [c2 | | |]; cbn [run_bind]; try discriminate.
  intros W2. eapply wr_plain; [| exact N2 | exact W2].
  eapply wr_plain; [| exact N1 | exact W1].
  eapply wr_plain; [exact Hk | exact N0 | exact W0].
Qed.

Lemma subst_2d_plain b0 b i ch v b' :
  is_token (chr ch) = true -> plain_kept b0 b ->
  subst_2d b i ch v = Done b' -> plain_kept b0 b'.
Proof.
  intros Ht Hk. unfold subst_2d.
  destruct (two_at b i ch) as [[|] | | |] eqn:E; cbn [run_bind]; try discriminate.
  - apply two_at_true in E. destruct E as [R0 R1].
    apply put_2d_plain; [exact Hk | |]; eapply nonplain_of_token; eauto.
  - intros [= <-]. exact Hk.
Qed.

Lemma subst_name_plain b0 b i ch table p v b' :
  is_token (chr ch) = true -> plain_kept b0 b ->
  subst_name b i ch table p v = Done b' -> plain_kept b0 b'.
Proof.
  intros Ht Hk. unfold subst_name.
  destruct (three_at b i ch) as [[|] | | |] eqn:E; cbn [run_bind]; try discriminate.
  - apply three_at_true in E. destruct E as (R0 & R1 & R2).
    apply put_name_plain; [exact Hk | | |]; eapply nonplain_of_token; eauto.
  - apply subst_2d_plain; assumption.
Qed.

Lemma subst_year_plain b0 b i y b' :
  plain_kept b0 b -> subst_year b i y = Done b' -> plain_kept b0 b'.
Proof.
  intros Hk. unfold subst_year.
  assert (HY : is_token (chr "Y") = true) by reflexivity.
  destruct (four_at b i "Y") as [[|] | | |] eqn:E; cbn [run_bind]; try discriminate.
  - apply four_at_true in E. destruct E as (R0 & R1 & R2 & R3).
    pose proof (nonplain_of_token b0 b _ _ Hk R0 HY) as N0.
    pose proof (nonplain_of_token b0 b _ _ Hk R1 HY) as N1.
    pose proof (nonplain_of_token b0 b _ _ Hk R2 HY) as N2.
    pose proof (nonplain_of_token b0 b _ _ Hk R3 HY) as N3.
    destruct (wr b i (chr "2")) as [b1 | | |] eqn:W0; cbn [run_bind]; try discriminate.
    destruct (wr b1 (i + 1) (chr "0")) as [b2 | | |] eqn:W1; cbn [run_bind];
      try discriminate.
    destruct (wr b2 (i + 2) (chr "0" + (y / 10) mod 10)) as [b3 | | |] eqn:W2;
      cbn [run_bind]; try discriminate.
    intros W3. eapply wr_plain; [| exact N3 | exact W3].
    eapply wr_plain; [| exact N2 | exact W2].
    eapply wr_plain; [| exact N1 | exact W1].
    eapply wr_plain; [exact Hk | exact N0 | exact W0].
  - destruct (two_at b i "Y") as [[|] | | |] eqn:E2; cbn [run_bind]; try discriminate.
    + apply two_at_true in E2. destruct E2 as [R0 R1].
      pose proof (nonplain_of_token b0 b _ _ Hk R0 HY) as N0.
      pose proof (nonplain_of_token b0 b _ _ Hk R1 HY) as N1.
      destruct (wr b i (chr "0" + (y / 10) mod 10)) as [b1 | | |] eqn:W0;
        cbn [run_bind]; try discriminate.
      intros W1. eapply wr_plain; [| exact N1 | exact W1].
      eapply wr_plain; [exact Hk | exact N0 | exact W0].
    + intros [= <-]. exact Hk.
Qed.

Lemma toString_body_plain b0 dt i b b' :
  plain_kept b0 b -> toString_body dt i b = Done b' -> plain_kept b0 b'.
Proof.
  intros Hk. unfold toString_body.
  destruct (subst_2d b i "h" (hh dt)) as [b1 | | |] eqn:E1; cbn [run_bind]; try discriminate.
  apply subst_2d_plain with (b0 := b0) in E1; [| reflexivity | exact Hk].
  destruct (subst_2d b1 i "m" (mm dt)) as [b2 | | |] eqn:E2; cbn [run_bind]; try discriminate.
  apply subst_2d_plain with (b0 := b0) in E2; [| reflexivity | exact E1].
  destruct (subst_2d b2 i "s" (ss dt)) as [b3 | | |] eqn:E3; cbn [run_bind]; try discriminate.
  apply subst_2d_plain with (b0 := b0) in E3; [| reflexivity | exact E2].
  destruct (subst_name b3 i "D" day_names (3 * dayOfTheWeek dt) (d dt)) as [b4 | | |] eqn:E4;
    cbn [run_bind]; try discriminate.
  apply subst_name_plain with (b0 := b0) in E4; [| reflexivity | exact E3].
  destruct (subst_name b4 i "M" month_names (3 * (m dt - 1)) (m dt)) as [b5 | | |] eqn:E5;
    cbn [run_bind]; try discriminate.
  apply subst_name_plain with (b0 := b0) in E5; [| reflexivity | exact E4].
  apply subst_year_plain. exact E5.
Qed.

Lemma toString_loop_plain w b0 dt : forall fuel i b b',
  plain_kept b0 b -> toString_loop w fuel dt i b = Done b' -> plain_kept b0 b'.
Proof.
  induction fuel as [| fuel IH]; intros i b b' Hk; cbn [toString_loop]; [discriminate |].
  destruct (strlen b) as [n | | |]; cbn [run_bind]; try discriminate.
  destruct (size_t w i <? size_t w (n - 1)).
  - destruct (toString_body dt i b) as [b1 | | |] eqn:E; cbn [run_bind]; try discriminate.
    apply IH. eapply toString_body_plain; eauto.
  - intros [= <-]. exact Hk.
Qed.

(** X23. [toString] rewrites token letters only: whenever it returns, every
    character of the pattern that is not one of h, m, s, D, M, Y stands at
    the same index in the result. This holds for every value formatted and
    every pattern, whatever the mix of tokens and other text. *)
Theorem toString_keeps_plain_text (w : Z) (dt : DateTime) (buffer out : list Z) :
  toString w dt buffer = Done out ->
  forall j c, nth_error buffer j = Some c -> is_token c = false ->
              nth_error out j = Some c.
Proof.
  intros H. unfold toString in H.
  apply (toString_loop_plain w buffer dt (S (List.length buffer)) 0 buffer out); [| exact H].
  intros j c Hc _. exact Hc.
Qed.

Lemma toString_keeps_plain_text_witness :
  nth_error (cstr "Fri, 15 Mar 2024 13:45:30") 3 = Some (chr ",").
Proof.
  apply (toString_keeps_plain_text 16 (DateTime_fields 2024 3 15 13 45 30)
           (cstr "DDD, DD MMM YYYY hh:mm:ss")); reflexivity.
Defined.

(** X24. A pattern without any of the six letters comes back unchanged,
    for every value formatted; the pattern may be any terminated string
    of at least one character. *)
Theorem toString_plain_pattern (w : Z) (n : nat) (dt : DateTime) (buffer : list Z) :
  printable dt = true -> (1 <= n)%nat -> Z.of_nat n < 2 ^ w ->
  terminated n buffer ->
  (forall j c, nth_error buffer j = Some c -> is_token c = false) ->
  toString w dt buffer = Done buffer.
Proof.
  intros Hp Hn Hw Ht Hplain.
  destruct (toString_terminated w n dt buffer Hp Hn Hw Ht) as (out & E & Hto).
  rewrite E. f_equal.
  assert (Hk : plain_kept buffer out).
  { unfold toString in E.
    apply (toString_loop_plain w buffer dt (S (List.length buffer)) 0 buffer out); [| exact E].
    intros j c Hc _. exact Hc. }
  apply nth_error_ext. intros j.
  destruct (nth_error buffer j) as [c |] eqn:Ej.
  - apply (Hk j c Ej). apply (Hplain j c Ej).
  - apply nth_error_None in Ej. apply nth_error_None.
    destruct Ht as (L1 & _). destruct Hto as (L2 & _). lia.
Qed.

Lemma toString_plain_pattern_witness :
  toString 16 (DateTime_fields 2024 3 15 13 45 30) (cstr "at noon")
  = Done (cstr "at noon").
Proof.
  apply (toString_plain_pattern 16 7); [reflexivity | lia | lia | |].
  - split; [reflexivity | split; [reflexivity |]].
    intros j c Hj. do 7 (destruct j as [| j]; [intros [= <-]; discriminate |]). lia.
  - intros j c.
    do 8 (destruct j as [| j]; [intros [= <-]; reflexivity |]).
    destruct j; discriminate.
Defined.

(* ===================================================================== *)
(** ** [timestamp] and its twenty-byte buffer *)
(* ===================================================================== *)

Lemma string_length_append (s1 s2 : string) :
  String.length (s1 ++ s2) = (String.length s1 + String.length s2)%nat.
Proof. induction s1 as [| c s1 IH]; simpl; [reflexivity | rewrite IH; reflexivity]. Qed.

Lemma fmt_02d_length v : 0 <= v < 256 ->
  String.length (fmt_02d v) = if v <? 100 then 2%nat else 3%nat.
Proof.
  intros Hv. apply Nat.eqb_eq.
  apply (for_all_bytes_spec
           (fun v => Nat.eqb (String.length (fmt_02d v))
                             (if v <? 100 then 2%nat else 3%nat))); [| exact Hv].
  vm_compute. reflexivity.
Qed.

Lemma fmt_d_year_length y : 0 <= y < 256 -> String.length (fmt_d (2000 + y)) = 4%nat.
Proof.
  intros Hy. apply Nat.eqb_eq.
  apply (for_all_bytes_spec
           (fun y => Nat.eqb (String.length (fmt_d (2000 + y))) 4%nat)); [| exact Hy].
  vm_compute. reflexivity.
Qed.

Lemma byte_fields_bounds dt : byte_fields dt = true ->
  0 <= yOff dt < 256 /\ 0 <= m dt < 256 /\ 0 <= d dt < 256 /\
  0 <= hh dt < 256 /\ 0 <= mm dt < 256 /\ 0 <= ss dt < 256.
Proof.
  unfold byte_fields. rewrite !andb_true_iff, !Z.leb_le, !Z.ltb_lt. tauto.
Qed.

(** X25. [timestamp] formats into a buffer of twenty bytes. With byte-sized
    members, [TIMESTAMP_TIME] and [TIMESTAMP_DATE] always fit.
    [TIMESTAMP_FULL] fits, with exactly nineteen characters, when month,
    day, hour, minute and second are below 100, and overruns the buffer as
    soon as one of them has three digits. *)
Theorem timestamp_buffer (dt : DateTime) :
  byte_fields dt = true ->
  timestamp TIMESTAMP_TIME dt <> None
  /\ timestamp TIMESTAMP_DATE dt <> None
  /\ (m dt < 100 /\ d dt < 100 /\ hh dt < 100 /\ mm dt < 100 /\ ss dt < 100 ->
      exists text, timestamp TIMESTAMP_FULL dt = Some text
                   /\ String.length text = 19%nat)
  /\ (100 <= m dt \/ 100 <= d dt \/ 100 <= hh dt \/ 100 <= mm dt \/ 100 <= ss dt ->
      timestamp TIMESTAMP_FULL dt = None).
Proof.
  intros Hb. destruct (byte_fields_bounds dt Hb) as (Hy & Hm & Hd & Hh & Hmi & Hs).
  pose proof (fmt_d_year_length (yOff dt) Hy) as Ly.
  pose proof (fmt_02d_length (m dt) Hm) as Lm.
  pose proof (fmt_02d_length (d dt) Hd) as Ld.
  pose proof (fmt_02d_length (hh dt) Hh) as Lh.
  pose proof (fmt_02d_length (mm dt) Hmi) as Li.
  pose proof (fmt_02d_length (ss dt) Hs) as Ls.
  unfold timestamp.
  repeat rewrite string_length_append.
  rewrite Ly, Lm, Ld, Lh, Li, Ls. cbn [String.length].
  destruct (Z.ltb_spec (m dt) 100), (Z.ltb_spec (d dt) 100), (Z.ltb_spec (hh dt) 100),
    (Z.ltb_spec (mm dt) 100), (Z.ltb_spec (ss dt) 100); cbn [Nat.add Nat.ltb Nat.leb];
    (split; [discriminate |]); (split; [discriminate |]);
    (split; [intros ?; try lia | intros ?; try lia; try reflexivity]).
  eexists. split; [reflexivity |].
  repeat rewrite string_length_append.
  rewrite Ly, Lm, Ld, Lh, Li, Ls.
  destruct (Z.ltb_spec (m dt) 100), (Z.ltb_spec (d dt) 100), (Z.ltb_spec (hh dt) 100),
    (Z.ltb_spec (mm dt) 100), (Z.ltb_spec (ss dt) 100); try lia. reflexivity.
Qed.

Lemma timestamp_buffer_witness :
  timestamp TIMESTAMP_FULL (mkDateTime 24 100 1 0 0 0) = None.
Proof.
  pose proof (timestamp_buffer (mkDateTime 24 100 1 0 0 0) eq_refl) as (_ & _ & _ & H).
  apply H. left. cbn. lia.
Defined.

(* ===================================================================== *)
(** ** The constructors from [__DATE__] and [__TIME__] *)
(* ===================================================================== *)

Lemma digit_chars v : 0 <= v <= 99 ->
  u8 (chr "0" + v / 10) = 48 + v / 10 /\ u8 (chr "0" + v mod 10) = 48 + v mod 10
  /\ 0 <= v / 10 <= 9 /\ 0 <= v mod 10 <= 9.
Proof.
  intros Hv. change (chr "0") with 48.
  pose proof (Z.div_mod v 10 ltac:(lia)) as E.
  pose proof (Z.mod_pos_bound v 10 ltac:(lia)) as B.
  assert (Hq : 0 <= v / 10 <= 9) by lia.
  rewrite !u8_small by lia. lia.
Qed.

(** [conv2d] on the two digits of a number below 100. *)
Lemma conv2d_two_digits buffer i v :
  0 <= v <= 99 ->
  rd buffer i = Done (u8 (chr "0" + v / 10)) ->
  rd buffer (i + 1) = Done (u8 (chr "0" + v mod 10)) ->
  conv2d buffer i = Done v.
Proof.
  intros Hv R0 R1. unfold conv2d. rewrite R0, R1. cbn [run_bind].
  destruct (digit_chars v Hv) as (-> & -> & Hq & Hr).
  change (chr "0") with 48. change (chr "9") with 57.
  destruct (Z.leb_spec 48 (48 + v / 10)); [| lia].
  destruct (Z.leb_spec (48 + v / 10) 57); [| lia].
  cbn [andb]. f_equal.
  rewrite (u8_small (48 + v / 10 - 48)) by lia.
  pose proof (Z.div_mod v 10 ltac:(lia)).
  rewrite u8_small; lia.
Qed.

(** [conv2d] on one digit behind a blank or a zero. *)
Lemma conv2d_padded buffer i pad v :
  0 <= v <= 9 -> pad = chr " " \/ pad = chr "0" ->
  rd buffer i = Done pad ->
  rd buffer (i + 1) = Done (u8 (chr "0" + v)) ->
  conv2d buffer i = Done v.
Proof.
  intros Hv Hp R0 R1. unfold conv2d. rewrite R0, R1. cbn [run_bind].
  assert (E : (if (chr "0" <=? pad) && (pad <=? chr "9")
               then u8 (pad - chr "0") else 0) = 0)
    by (destruct Hp as [-> | ->]; reflexivity).
  rewrite E. change (chr "0") with 48. rewrite (u8_small (48 + v)) by lia.
  f_equal. rewrite u8_small; lia.
Qed.

(** X26. The string constructor reads back a date in the layout of
    [__DATE__] and a time in the layout of [__TIME__]: for every month
    name of the table [toString] prints from, a day of 1..31 written with
    two digits or, below 10, with a blank or a zero in front, a year
    2000..2099 and any two-digit hour, minute and second, the constructor
    yields exactly these fields. *)
Theorem DateTime_strings_parse (pad y mo dd h mi s : Z) :
  pad = chr " " \/ pad = chr "0" ->
  0 <= y <= 99 -> 1 <= mo <= 12 -> 1 <= dd <= 31 ->
  0 <= h <= 99 -> 0 <= mi <= 99 -> 0 <= s <= 99 ->
  DateTime_strings (date_text pad y mo dd) (time_text h mi s)
  = Done (Some (mkDateTime y mo dd h mi s)).
Proof.
  intros Hp Hy Hm Hd Hh Hmi Hs.
  unfold DateTime_strings, DateTime_parse.
  assert (Ey : conv2d (date_text pad y mo dd) 9 = Done y).
  { apply conv2d_two_digits; [exact Hy | |];
      unfold date_text; each_month Hm; destruct (dd <? 10); reflexivity. }
  assert (Ed : conv2d (date_text pad y mo dd) 4 = Done dd).
  { unfold date_text. destruct (Z.ltb_spec dd 10).
    - apply (conv2d_padded _ 4 pad dd); [lia | exact Hp | |];
        each_month Hm; reflexivity.
    - apply conv2d_two_digits; [lia | |]; each_month Hm; reflexivity. }
  assert (Em : month_of_name (date_text pad y mo dd) = Done (Some mo)).
  { unfold date_text. each_month Hm; reflexivity. }
  assert (Eh : conv2d (time_text h mi s) 0 = Done h)
    by (apply conv2d_two_digits; [exact Hh | |]; reflexivity).
  assert (Ei : conv2d (time_text h mi s) 3 = Done mi)
    by (apply conv2d_two_digits; [exact Hmi | |]; reflexivity).
  assert (Es : conv2d (time_text h mi s) 6 = Done s)
    by (apply conv2d_two_digits; [exact Hs | |]; reflexivity).
  rewrite Ey. cbn [run_bind]. rewrite Em. cbn [run_bind].
  rewrite Ed. cbn [run_bind]. rewrite Eh. cbn [run_bind].
  rewrite Ei. cbn [run_bind]. rewrite Es. cbn [run_bind]. reflexivity.
Qed.

Lemma DateTime_strings_parse_witness :
  DateTime_strings (date_text (chr " ") 9 12 5) (time_text 12 34 56)
  = Done (Some (mkDateTime 9 12 5 12 34 56)).
Proof.
  apply DateTime_strings_parse; [left; reflexivity | lia | lia | lia | lia | lia | lia].
Defined.

Example date_text_is_DATE :
  date_text (chr " ") 9 12 5 = cstr "Dec  5 2009"
  /\ date_text (chr " ") 9 12 26 = cstr "Dec 26 2009"
  /\ time_text 12 34 56 = cstr "12:34:56".
Proof. repeat split; reflexivity. Qed.

Lemma rd_firstn (l : list Z) n i :
  0 <= i < Z.of_nat n -> rd (firstn n l) i = rd l i.
Proof.
  intros Hi. unfold rd. destruct (Z.ltb_spec i 0); [lia |].
  rewrite nth_error_firstn.
  destruct (Nat.ltb_spec (Z.to_nat i) n); [reflexivity | lia].
Qed.

Lemma conv2d_firstn (l : list Z) n i :
  0 <= i -> i + 1 < Z.of_nat n -> conv2d (firstn n l) i = conv2d l i.
Proof.
  intros H0 H1. unfold conv2d. rewrite !rd_firstn by lia. reflexivity.
Qed.

Lemma rd_app_l (l1 l2 : list Z) i :
  0 <= i < Z.of_nat (List.length l1) -> rd (l1 ++ l2) i = rd l1 i.
Proof.
  intros Hi. unfold rd. destruct (Z.ltb_spec i 0); [lia |].
  rewrite nth_error_app1 by lia. reflexivity.
Qed.

(** X27. The constructor for strings in flash yields what the constructor
    for strings in RAM yields, whenever the date array has at least eleven
    bytes and the time array at least eight; on a shorter array the copy
    into [buff] reads past its end. *)
Theorem DateTime_flash_agrees (date time : list Z) :
  (11 <= List.length date)%nat -> (8 <= List.length time)%nat ->
  DateTime_flash date time = DateTime_strings date time.
Proof.
  intros Hd Ht. unfold DateTime_flash, DateTime_strings, DateTime_parse, memcpy_P.
  destruct (Nat.leb_spec 11 (List.length date)); [| lia].
  destruct (Nat.leb_spec 8 (List.length time)); [| lia].
  cbn [run_bind].
  rewrite !conv2d_firstn by lia.
  assert (Em : month_of_name (firstn 11 date) = month_of_name date)
    by (unfold month_of_name; rewrite !rd_firstn by lia; reflexivity).
  rewrite Em.
  assert (Ec : forall i, 0 <= i -> i + 1 < 8 ->
             conv2d (firstn 8 time ++ skipn 8 (firstn 11 date)) i = conv2d time i).
  { intros i Hi0 Hi1. unfold conv2d.
    rewrite !rd_app_l by (rewrite firstn_length_le; lia).
    rewrite !rd_firstn by lia. reflexivity. }
  rewrite !Ec by lia. reflexivity.
Qed.

Lemma DateTime_flash_agrees_witness :
  DateTime_flash (cstr "Dec 26 2009") (cstr "12:34:56")
  = DateTime_strings (cstr "Dec 26 2009") (cstr "12:34:56").
Proof. apply DateTime_flash_agrees; cbn; lia. Defined.

(* ===================================================================== *)
(** ** [toString] on whole patterns *)
(* ===================================================================== *)

(** Each [if] of the loop body, decided by the characters it tests. *)
Lemma subst_2d_miss b i ch v x :
  rd b i = Done x -> x <> chr ch -> subst_2d b i ch v = Done b.
Proof.
  intros R N. unfold subst_2d, two_at, and_then, is_at. rewrite R. cbn [run_bind].
  destruct (Z.eqb_spec x (chr ch)); [contradiction | reflexivity].
Qed.

Lemma subst_2d_hit b i ch v :
  rd b i = Done (chr ch) -> rd b (i + 1) = Done (chr ch) ->
  subst_2d b i ch v = put_2d b i v.
Proof.
  intros R0 R1. unfold subst_2d, two_at, and_then, is_at. rewrite R0, R1. cbn [run_bind].
  rewrite Z.eqb_refl. cbn [run_bind]. reflexivity.
Qed.

Lemma put_2d_eq b i v :
  (0 <=? i) && (i + 1 <? Z.of_nat (List.length b)) = true ->
  put_2d b i v
  = Done (poke (poke b (Z.to_nat i) (u8 (chr "0" + v / 10)))
               (Z.to_nat (i + 1)) (u8 (chr "0" + v mod 10))).
Proof.
  intros H. apply andb_true_iff in H. destruct H as [H0 H1].
  apply Z.leb_le in H0. apply Z.ltb_lt in H1.
  unfold put_2d, wr.
  destruct (Z.ltb_spec i 0); [lia |].
  destruct (Z.leb_spec (Z.of_nat (List.length b)) i); [lia |].
  cbn [orb run_bind]. rewrite poke_length.
  destruct (Z.ltb_spec (i + 1) 0); [lia |].
  destruct (Z.leb_spec (Z.of_nat (List.length b)) (i + 1)); [lia |].
  reflexivity.
Qed.

(** A write inside the array. *)
Lemma wr_eq b i v :
  (0 <=? i) && (i <? Z.of_nat (List.length b)) = true ->
  wr b i v = Done (poke b (Z.to_nat i) (u8 v)).
Proof.
  intros H. apply andb_true_iff in H. destruct H as [H0 H1].
  apply Z.leb_le in H0. apply Z.ltb_lt in H1. unfold wr.
  destruct (Z.ltb_spec i 0); [lia |].
  destruct (Z.leb_spec (Z.of_nat (List.length b)) i); [lia |]. reflexivity.
Qed.

Lemma subst_name_miss b i ch tbl p v x :
  rd b i = Done x -> x <> chr ch -> subst_name b i ch tbl p v = Done b.
Proof.
  intros R N. unfold subst_name, three_at, two_at, and_then, is_at.
  rewrite R. cbn [run_bind].
  destruct (Z.eqb_spec x (chr ch)); [contradiction |]. cbn [run_bind].
  exact (subst_2d_miss b i ch v x R N).
Qed.

Lemma subst_name_hit2 b i ch tbl p v x :
  rd b (i + 2) = Done x -> x <> chr ch ->
  rd b i = Done (chr ch) -> rd b (i + 1) = Done (chr ch) ->
  subst_name b i ch tbl p v = put_2d b i v.
Proof.
  intros R2 N R0 R1. unfold subst_name, three_at, two_at, and_then, is_at.
  rewrite R0, R1, R2. cbn [run_bind]. rewrite Z.eqb_refl. cbn [run_bind].
  destruct (Z.eqb_spec x (chr ch)); [contradiction |]. cbn [run_bind].
  exact (subst_2d_hit b i ch v R0 R1).
Qed.

Lemma subst_name_hit3 b i ch tbl p v :
  rd b i = Done (chr ch) -> rd b (i + 1) = Done (chr ch) ->
  rd b (i + 2) = Done (chr ch) ->
  subst_name b i ch tbl p v = put_name b i tbl p.
Proof.
  intros R0 R1 R2. unfold subst_name, three_at, two_at, and_then, is_at.
  rewrite R0, R1, R2. cbn [run_bind]. rewrite Z.eqb_refl. cbn [run_bind].
  reflexivity.
Qed.

Lemma put_name_eq b i tbl p c0 c1 c2 :
  rd_table tbl p = Done c0 -> rd_table tbl (p + 1) = Done c1 ->
  rd_table tbl (p + 2) = Done c2 ->
  (0 <=? i) && (i + 2 <? Z.of_nat (List.length b)) = true ->
  put_name b i tbl p
  = Done (poke (poke (poke b (Z.to_nat i) (u8 c0)) (Z.to_nat (i + 1)) (u8 c1))
               (Z.to_nat (i + 2)) (u8 c2)).
Proof.
  intros T0 T1 T2 H. apply andb_true_iff in H. destruct H as [H0 H1].
  apply Z.leb_le in H0. apply Z.ltb_lt in H1.
  assert (L : forall z, 0 <= z -> z < Z.of_nat (List.length b) -> forall l : list Z,
             List.length l = List.length b ->
             (0 <=? z) && (z <? Z.of_nat (List.length l)) = true).
  { intros z Hz0 Hz1 l ->. apply andb_true_iff. split; [apply Z.leb_le | apply Z.ltb_lt]; lia. }
  unfold put_name. rewrite T0. cbn [run_bind].
  rewrite wr_eq by (apply L; [lia | lia | reflexivity]). cbn [run_bind].
  rewrite T1. cbn [run_bind].
  rewrite wr_eq by (apply L; [lia | lia | rewrite poke_length; reflexivity]).
  cbn [run_bind]. rewrite T2. cbn [run_bind].
  rewrite wr_eq by (apply L; [lia | lia | rewrite !poke_length; reflexivity]).
  reflexivity.
Qed.

Lemma subst_year_miss b i y x :
  rd b i = Done x -> x <> chr "Y" -> subst_year b i y = Done b.
Proof.
  intros R N. unfold subst_year, four_at, three_at, two_at, and_then, is_at.
  rewrite R. cbn [run_bind].
  destruct (Z.eqb_spec x (chr "Y")); [contradiction |]. cbn [run_bind]. reflexivity.
Qed.

Lemma subst_year_hit4 b i y :
  rd b i = Done (chr "Y") -> rd b (i + 1) = Done (chr "Y") ->
  rd b (i + 2) = Done (chr "Y") -> rd b (i + 3) = Done (chr "Y") ->
  subst_year b i y
  = Done (poke (poke (poke (poke b (Z.to_nat i) (u8 (chr "2")))
                           (Z.to_nat (i + 1)) (u8 (chr "0")))
                     (Z.to_nat (i + 2)) (u8 (chr "0" + (y / 10) mod 10)))
               (Z.to_nat (i + 3)) (u8 (chr "0" + y mod 10))).
Proof.
  intros R0 R1 R2 R3.
  assert (B : 0 <= i /\ i + 3 < Z.of_nat (List.length b)).
  { unfold rd in R0, R3.
    destruct (Z.ltb_spec i 0); [discriminate |].
    destruct (Z.ltb_spec (i + 3) 0); [discriminate |].
    destruct (nth_error b (Z.to_nat (i + 3))) eqn:E; [| discriminate].
    assert (Hn : nth_error b (Z.to_nat (i + 3)) <> None) by congruence.
    apply nth_error_Some in Hn. lia. }
  assert (L : forall z, 0 <= z -> z < Z.of_nat (List.length b) -> forall l : list Z,
             List.length l = List.length b ->
             (0 <=? z) && (z <? Z.of_nat (List.length l)) = true).
  { intros z Hz0 Hz1 l ->. apply andb_true_iff. split; [apply Z.leb_le | apply Z.ltb_lt]; lia. }
  unfold subst_year, four_at, three_at, two_at, and_then, is_at.
  rewrite R0, R1, R2, R3. cbn [run_bind]. rewrite Z.eqb_refl. cbn [run_bind].
  rewrite wr_eq by (apply L; [lia | lia | reflexivity]). cbn [run_bind].
  rewrite wr_eq by (apply L; [lia | lia | rewrite poke_length; reflexivity]).
  cbn [run_bind].
  rewrite wr_eq by (apply L; [lia | lia | rewrite !poke_length; reflexivity]).
  cbn [run_bind].
  rewrite wr_eq by (apply L; [lia | lia | rewrite !poke_length; reflexivity]).
  reflexivity.
Qed.

(** One round of the loop, and its end, on a terminated buffer. *)
Lemma toString_loop_step w n dt fuel i b b' :
  printable dt = true -> Z.of_nat n < 2 ^ w -> terminated n b ->
  0 <= i -> i + 1 < Z.of_nat n ->
  toString_body dt i b = Done b' ->
  toString_loop w (S fuel) dt i b = toString_loop w fuel dt (i + 1) b'
  /\ terminated n b'.
Proof.
  intros Hp Hw Ht Hi Hn B.
  destruct (toString_body_terminated n dt i b Hp Ht Hi Hn) as (b2 & E & T2).
  rewrite B in E. injection E as <-.
  split; [| exact T2].
  cbn [toString_loop]. rewrite (strlen_terminated n b Ht). cbn [run_bind].
  rewrite (size_t_small w i) by lia.
  rewrite (size_t_small w (Z.of_nat n - 1)) by lia.
  destruct (Z.ltb_spec i (Z.of_nat n - 1)); [| lia].
  rewrite B. reflexivity.
Qed.

Lemma toString_loop_stop w n dt fuel i b :
  Z.of_nat n < 2 ^ w -> terminated n b -> 0 <= i -> i = Z.of_nat n - 1 ->
  toString_loop w (S fuel) dt i b = Done b.
Proof.
  intros Hw Ht Hi Hn.
  cbn [toString_loop]. rewrite (strlen_terminated n b Ht). cbn [run_bind].
  rewrite (size_t_small w i) by lia.
  rewrite (size_t_small w (Z.of_nat n - 1)) by lia.
  destruct (Z.ltb_spec i (Z.of_nat n - 1)); [lia | reflexivity].
Qed.

(** Evaluation of the loop on a pattern that is given: each stage is
    rewritten by the lemma its characters select. *)
Ltac ne_chr :=
  lazymatch goal with
  | |- ?x <> chr ?c =>
      let v := eval vm_compute in (chr c) in
      change (chr c) with v;
      first [ lia | vm_compute; discriminate ]
  end.

Ltac eval_stage c :=
  lazymatch c with
  | subst_2d ?b ?i ?ch ?v =>
      first
        [ rewrite (subst_2d_hit b i ch v) by reflexivity;
          rewrite (put_2d_eq b i v) by reflexivity
        | let R := fresh "R" in
          eassert (R : rd b i = Done _) by reflexivity;
          rewrite (subst_2d_miss b i ch v _ R) by ne_chr; clear R ]
  | subst_name ?b ?i ?ch ?t ?p ?v =>
      first
        [ rewrite (subst_name_hit3 b i ch t p v) by reflexivity;
          erewrite (put_name_eq b i t p) by reflexivity
        | let R := fresh "R" in
          eassert (R : rd b (i + 2) = Done _) by reflexivity;
          rewrite (subst_name_hit2 b i ch t p v _ R) by (first [reflexivity | ne_chr]);
          clear R;
          rewrite (put_2d_eq b i v) by reflexivity
        | let R := fresh "R" in
          eassert (R : rd b i = Done _) by reflexivity;
          rewrite (subst_name_miss b i ch t p v _ R) by ne_chr; clear R ]
  | subst_year ?b ?i ?y =>
      first
        [ rewrite (subst_year_hit4 b i y) by reflexivity
        | let R := fresh "R" in
          eassert (R : rd b i = Done _) by reflexivity;
          rewrite (subst_year_miss b i y _ R) by ne_chr; clear R ]
  end.

Ltac run_body :=
  unfold toString_body; cbn [yOff m d hh mm ss];
  repeat (lazymatch goal with
          | |- run_bind ?c _ = _ => eval_stage c; cbn [run_bind]
          end);
  lazymatch goal with |- ?c = _ => eval_stage c end;
  reflexivity.

Ltac loop_step Hp Hw :=
  lazymatch goal with
  | |- toString_loop ?w (S ?fuel) ?dt ?i ?b = _ =>
      lazymatch goal with
      | T : terminated ?n b |- _ =>
          let B := fresh "B" in
          let E := fresh "E" in
          let T' := fresh "T" in
          eassert (B : toString_body dt i b = Done _) by run_body;
          destruct (toString_loop_step w n dt fuel i b _ Hp Hw T
                      ltac:(lia) ltac:(lia) B) as [E T'];
          rewrite E; clear E B T;
          let j := eval vm_compute in (i + 1) in
          change (i + 1) with j in *
      end
  end.

Ltac loop_stop Hw :=
  lazymatch goal with
  | |- toString_loop ?w (S ?fuel) ?dt ?i ?b = _ =>
      lazymatch goal with
      | T : terminated ?n b |- _ =>
          rewrite (toString_loop_stop w n dt fuel i b Hw T ltac:(lia) ltac:(lia))
      end
  end.

Lemma terminated_hhmmss : terminated 8 (cstr "hh:mm:ss").
Proof.
  split; [reflexivity | split; [reflexivity |]].
  intros j c Hj.
  do 8 (destruct j as [| j]; [cbn; intros [= <-]; discriminate |]). lia.
Qed.

(** What [toString] leaves in the buffer for three patterns. *)
Lemma toString_time w dt :
  8 < 2 ^ w -> printable dt = true ->
  hh dt <= 99 -> mm dt <= 99 -> ss dt <= 99 ->
  toString w dt (cstr "hh:mm:ss") = Done (time_text (hh dt) (mm dt) (ss dt)).
Proof.
  intros Hw Hp Hh Hm Hs.
  destruct (printable_bounds dt Hp) as (By & Bm & Bd & Bh & Bmi & Bs).
  destruct (digit_chars (hh dt) ltac:(lia)) as (h1 & h0 & h1r & h0r).
  destruct (digit_chars (mm dt) ltac:(lia)) as (m1 & m0 & m1r & m0r).
  destruct (digit_chars (ss dt) ltac:(lia)) as (s1 & s0 & s1r & s0r).
  pose proof terminated_hhmmss as T.
  unfold toString. change (S (List.length (cstr "hh:mm:ss"))) with 10%nat.
  change (Z.of_nat 8) with 8 in *.
  do 7 (loop_step Hp Hw).
  loop_stop Hw. reflexivity.
Qed.


Ltac solve_terminated :=
  split; [reflexivity | split; [reflexivity |]];
  let j := fresh "j" in
  let c := fresh "c" in
  let Hj := fresh "Hj" in
  intros j c Hj;
  repeat (destruct j as [| j]; [cbn; intros [= <-]; discriminate |]); lia.

Lemma terminated_date_pattern : terminated 11 (cstr "MMM DD YYYY").
Proof. solve_terminated. Qed.

Lemma terminated_iso_pattern : terminated 19 (cstr "YYYY-MM-DDThh:mm:ss").
Proof. solve_terminated. Qed.

Lemma toString_date w dt :
  11 < 2 ^ w -> printable dt = true -> yOff dt <= 99 -> d dt <= 99 ->
  toString w dt (cstr "MMM DD YYYY")
  = Done (month_name (m dt) ++ [chr " "] ++ two_digits (d dt)
          ++ [chr " "; chr "2"; chr "0"] ++ two_digits (yOff dt) ++ [0]).
Proof.
  intros Hw Hp Hy Hd.
  destruct (printable_bounds dt Hp) as (By & Bm & Bd & _).
  destruct dt as [y mo dd h mi s]. cbn [yOff m d] in *.
  destruct (digit_chars dd ltac:(lia)) as (d1 & d0 & d1r & d0r).
  destruct (digit_chars y ltac:(lia)) as (y1 & y0 & y1r & y0r).
  assert (Ey : (y / 10) mod 10 = y / 10) by (apply Z.mod_small; lia).
  rewrite <- Ey in y1.
  pose proof terminated_date_pattern as T.
  unfold toString. change (S (List.length (cstr "MMM DD YYYY"))) with 13%nat.
  change (Z.of_nat 11) with 11 in *.
  each_month Bm; do 10 (loop_step Hp Hw); loop_stop Hw; rewrite Ey; reflexivity.
Qed.

Lemma toString_iso w dt :
  19 < 2 ^ w -> printable dt = true ->
  yOff dt <= 99 -> d dt <= 99 -> hh dt <= 99 -> mm dt <= 99 -> ss dt <= 99 ->
  toString w dt (cstr "YYYY-MM-DDThh:mm:ss")
  = Done ([chr "2"; chr "0"] ++ two_digits (yOff dt) ++ [chr "-"]
          ++ two_digits (m dt) ++ [chr "-"] ++ two_digits (d dt) ++ [chr "T"]
          ++ two_digits (hh dt) ++ [chr ":"] ++ two_digits (mm dt) ++ [chr ":"]
          ++ two_digits (ss dt) ++ [0]).
Proof.
  intros Hw Hp Hy Hd Hh Hmi Hs.
  destruct (printable_bounds dt Hp) as (By & Bm & Bd & Bh & Bmi & Bs).
  destruct (digit_chars (yOff dt) ltac:(lia)) as (y1 & y0 & y1r & y0r).
  destruct (digit_chars (m dt) ltac:(lia)) as (o1 & o0 & o1r & o0r).
  destruct (digit_chars (d dt) ltac:(lia)) as (d1 & d0 & d1r & d0r).
  destruct (digit_chars (hh dt) ltac:(lia)) as (h1 & h0 & h1r & h0r).
  destruct (digit_chars (mm dt) ltac:(lia)) as (m1 & m0 & m1r & m0r).
  destruct (digit_chars (ss dt) ltac:(lia)) as (s1 & s0 & s1r & s0r).
  assert (Ey : (yOff dt / 10) mod 10 = yOff dt / 10) by (apply Z.mod_small; lia).
  rewrite <- Ey in y1.
  pose proof terminated_iso_pattern as T.
  unfold toString. change (S (List.length (cstr "YYYY-MM-DDThh:mm:ss"))) with 21%nat.
  change (Z.of_nat 19) with 19 in *.
  do 18 (loop_step Hp Hw). loop_stop Hw. rewrite Ey. reflexivity.
Qed.

(** The characters [sprintf] prints for the members. *)
Lemma list_ascii_of_string_app (s1 s2 : string) :
  list_ascii_of_string (s1 ++ s2)
  = list_ascii_of_string s1 ++ list_ascii_of_string s2.
Proof. induction s1 as [| c s1 IH]; simpl; [reflexivity | rewrite IH; reflexivity]. Qed.

Lemma fmt_02d_digits v : 0 <= v <= 99 ->
  map chr (list_ascii_of_string (fmt_02d v)) = two_digits v.
Proof.
  intros Hv.
  assert (H : (if v <=? 99
               then if list_eq_dec Z.eq_dec
                         (map chr (list_ascii_of_string (fmt_02d v))) (two_digits v)
                    then true else false
               else true) = true).
  { apply (for_all_bytes_spec
             (fun v => if v <=? 99
                       then if list_eq_dec Z.eq_dec
                                 (map chr (list_ascii_of_string (fmt_02d v)))
                                 (two_digits v)
                            then true else false
                       else true)); [vm_compute; reflexivity | lia]. }
  destruct (Z.leb_spec v 99); [| lia].
  destruct (list_eq_dec Z.eq_dec _ _) as [E | E]; [exact E | discriminate].
Qed.

Lemma fmt_d_year_digits y : 0 <= y <= 99 ->
  map chr (list_ascii_of_string (fmt_d (2000 + y)))
  = [chr "2"; chr "0"] ++ two_digits y.
Proof.
  intros Hy.
  assert (H : (if y <=? 99
               then if list_eq_dec Z.eq_dec
                         (map chr (list_ascii_of_string (fmt_d (2000 + y))))
                         ([chr "2"; chr "0"] ++ two_digits y)
                    then true else false
               else true) = true).
  { apply (for_all_bytes_spec
             (fun y => if y <=? 99
                       then if list_eq_dec Z.eq_dec
                                 (map chr (list_ascii_of_string (fmt_d (2000 + y))))
                                 ([chr "2"; chr "0"] ++ two_digits y)
                            then true else false
                       else true)); [vm_compute; reflexivity | lia]. }
  destruct (Z.leb_spec y 99); [| lia].
  destruct (list_eq_dec Z.eq_dec _ _) as [E | E]; [exact E | discriminate].
Qed.

(** X28. The two formatters agree: on the pattern "YYYY-MM-DDThh:mm:ss"
    [toString] leaves in the buffer exactly the text [timestamp] returns
    for [TIMESTAMP_FULL], for every value whose month is 1..12 and whose
    year offset, day, hour, minute and second are at most 99. *)
Theorem toString_agrees_with_timestamp w dt :
  19 < 2 ^ w -> printable dt = true ->
  yOff dt <= 99 -> d dt <= 99 -> hh dt <= 99 -> mm dt <= 99 -> ss dt <= 99 ->
  exists text,
    timestamp TIMESTAMP_FULL dt = Some text
    /\ toString w dt (cstr "YYYY-MM-DDThh:mm:ss") = Done (cstr text).
Proof.
  intros Hw Hp Hy Hd Hh Hmi Hs.
  destruct (printable_bounds dt Hp) as (By & Bm & Bd & Bh & Bmi & Bs).
  pose proof (fmt_d_year_length (yOff dt) By) as Ly.
  pose proof (fmt_02d_length (m dt) ltac:(lia)) as Lm.
  pose proof (fmt_02d_length (d dt) Bd) as Ld.
  pose proof (fmt_02d_length (hh dt) Bh) as Lh.
  pose proof (fmt_02d_length (mm dt) Bmi) as Li.
  pose proof (fmt_02d_length (ss dt) Bs) as Ls.
  destruct (Z.ltb_spec (m dt) 100); [| lia].
  destruct (Z.ltb_spec (d dt) 100); [| lia].
  destruct (Z.ltb_spec (hh dt) 100); [| lia].
  destruct (Z.ltb_spec (mm dt) 100); [| lia].
  destruct (Z.ltb_spec (ss dt) 100); [| lia].
  eexists. split.
  - unfold timestamp.
    repeat rewrite string_length_append.
    rewrite Ly, Lm, Ld, Lh, Li, Ls. reflexivity.
  - rewrite (toString_iso w dt Hw Hp Hy Hd Hh Hmi Hs). f_equal.
    unfold cstr.
    repeat rewrite list_ascii_of_string_app.
    repeat rewrite map_app.
    rewrite (fmt_d_year_digits (yOff dt)) by lia.
    rewrite (fmt_02d_digits (m dt)) by lia.
    rewrite (fmt_02d_digits (d dt)) by lia.
    rewrite (fmt_02d_digits (hh dt)) by lia.
    rewrite (fmt_02d_digits (mm dt)) by lia.
    rewrite (fmt_02d_digits (ss dt)) by lia.
    reflexivity.
Qed.

Lemma toString_agrees_with_timestamp_witness :
  exists text,
    timestamp TIMESTAMP_FULL (mkDateTime 24 3 15 13 45 30) = Some text
    /\ toString 16 (mkDateTime 24 3 15 13 45 30) (cstr "YYYY-MM-DDThh:mm:ss")
       = Done (cstr text).
Proof.
  apply toString_agrees_with_timestamp;
    [reflexivity | reflexivity | cbn; lia | cbn; lia | cbn; lia | cbn; lia | cbn; lia].
Defined.

Example toString_iso_2024_03_15 :
  toString 16 (mkDateTime 24 3 15 13 45 30) (cstr "YYYY-MM-DDThh:mm:ss")
  = Done (cstr "2024-03-15T13:45:30").
Proof. reflexivity. Qed.

(** X29. Printing and reading back: the buffers [toString] fills from the
    patterns "MMM DD YYYY" and "hh:mm:ss" are read by the string
    constructor as the value that was printed, for every value whose month
    is 1..12 and whose year offset, day, hour, minute and second are at
    most 99. *)
Theorem toString_then_DateTime_strings w dt :
  11 < 2 ^ w -> printable dt = true ->
  yOff dt <= 99 -> d dt <= 99 -> hh dt <= 99 -> mm dt <= 99 -> ss dt <= 99 ->
  exists date time,
    toString w dt (cstr "MMM DD YYYY") = Done date
    /\ toString w dt (cstr "hh:mm:ss") = Done time
    /\ DateTime_strings date time = Done (Some dt).
Proof.
  intros Hw Hp Hy Hd Hh Hmi Hs.
  destruct (printable_bounds dt Hp) as (By & Bm & Bd & Bh & Bmi & Bs).
  eexists. eexists.
  split; [exact (toString_date w dt Hw Hp Hy Hd) |].
  split; [exact (toString_time w dt ltac:(lia) Hp Hh Hmi Hs) |].
  destruct dt as [y mo dd h mi s]. cbn [yOff m d hh mm ss] in *.
  unfold DateTime_strings, DateTime_parse.
  rewrite (conv2d_two_digits _ 9 y) by (first [lia | each_month Bm; reflexivity]).
  cbn [run_bind].
  assert (Em : month_of_name
                 (month_name mo ++ [chr " "] ++ two_digits dd
                  ++ [chr " "; chr "2"; chr "0"] ++ two_digits y ++ [0])
               = Done (Some mo)) by (each_month Bm; reflexivity).
  rewrite Em. cbn [run_bind].
  rewrite (conv2d_two_digits _ 4 dd) by (first [lia | each_month Bm; reflexivity]).
  cbn [run_bind].
  rewrite (conv2d_two_digits _ 0 h) by (first [lia | reflexivity]). cbn [run_bind].
  rewrite (conv2d_two_digits _ 3 mi) by (first [lia | reflexivity]). cbn [run_bind].
  rewrite (conv2d_two_digits _ 6 s) by (first [lia | reflexivity]). cbn [run_bind].
  reflexivity.
Qed.

Lemma toString_then_DateTime_strings_witness :
  exists date time,
    toString 16 (mkDateTime 9 12 26 12 34 56) (cstr "MMM DD YYYY") = Done date
    /\ toString 16 (mkDateTime 9 12 26 12 34 56) (cstr "hh:mm:ss") = Done time
    /\ DateTime_strings date time = Done (Some (mkDateTime 9 12 26 12 34 56)).
Proof.
  apply toString_then_DateTime_strings;
    [reflexivity | reflexivity | cbn; lia | cbn; lia | cbn; lia | cbn; lia | cbn; lia].
Defined.

(* ===================================================================== *)
(** ** Spans added one after the other *)
(* ===================================================================== *)

(** X30. Adding two spans one after the other is adding their sum: for a
    valid value [dt] and spans [a], [b] whose sum fits [int32_t], with
    [dt + a] and [dt + a + b] inside 2001..2099, [(dt + a) + b] and
    [dt + (a + b)] are the same value, and [a + b] has the total of the
    two. *)
Theorem DateTime_plus_TimeSpan_plus (dt : DateTime) (a b : TimeSpan) :
  valid_DateTime dt = true ->
  is_int32 (totalseconds a + totalseconds b) = true ->
  UNIX_2001 <= unixtime dt + totalseconds a <= UNIX_2099_END ->
  UNIX_2001 <= unixtime dt + totalseconds a + totalseconds b <= UNIX_2099_END ->
  exists d1 d2, DateTime_plus dt a = Some d1
                /\ DateTime_plus d1 b = Some d2
                /\ DateTime_plus dt (TimeSpan_plus a b) = Some d2
                /\ totalseconds (TimeSpan_plus a b) = totalseconds a + totalseconds b.
Proof.
  intros Hv Hi Ha Hb.
  apply is_int32_bounds in Hi.
  destruct (DateTime_plus_spec dt a Hv Ha) as (d1 & E1 & V1 & U1).
  assert (Hb1 : UNIX_2001 <= unixtime d1 + totalseconds b <= UNIX_2099_END)
    by (rewrite U1; exact Hb).
  destruct (DateTime_plus_spec d1 b V1 Hb1) as (d2 & E2 & V2 & U2).
  assert (Et : totalseconds (TimeSpan_plus a b) = totalseconds a + totalseconds b).
  { unfold TimeSpan_plus, TimeSpan_seconds, totalseconds in *. cbn [_seconds].
    apply s32_small. lia. }
  exists d1, d2. split; [exact E1 | split; [exact E2 | split; [| exact Et]]].
  rewrite <- E2. unfold DateTime_plus. rewrite Et, U1, Z.add_assoc. reflexivity.
Qed.

Lemma DateTime_plus_TimeSpan_plus_witness :
  exists d1 d2,
    DateTime_plus (mkDateTime 24 2 28 23 59 59) (mkTimeSpan 1) = Some d1
    /\ DateTime_plus d1 (mkTimeSpan 86400) = Some d2
    /\ DateTime_plus (mkDateTime 24 2 28 23 59 59)
         (TimeSpan_plus (mkTimeSpan 1) (mkTimeSpan 86400)) = Some d2
    /\ totalseconds (TimeSpan_plus (mkTimeSpan 1) (mkTimeSpan 86400))
       = totalseconds (mkTimeSpan 1) + totalseconds (mkTimeSpan 86400).
Proof.
  apply DateTime_plus_TimeSpan_plus;
    [reflexivity | reflexivity | vm_compute; split; discriminate
    | vm_compute; split; discriminate].
Defined.
